(** * Payment roster loading and member removal of the Telegram payment bot

    A shallow embedding of

    - [telegram_payment_bot/payments_excel_loader.py] (class
      [PaymentsExcelLoader]),
    - [telegram_payment_bot/member/members_kicker.py] (class
      [MembersKicker]),
    - [telegram_payment_bot/member/members_username_getter.py] (class
      [MembersUsernameGetter]),
    - the converters, the column check and the entries of the payment
      columns and of [payment_date_format] in
      [telegram_payment_bot/payment_bot_config_cfg.py],

    together with the parts of the libraries [xlrd] and [datetime] the
    loader calls, and the statements of the specification that concern
    them. *)

From Stdlib Require Import ZArith NArith List String Ascii Bool Lia QArith.
Import ListNotations.

Local Open Scope Z_scope.

(* ================================================================== *)
(** * Python values shared by the modules *)
(* ================================================================== *)

(** The exception classes that can reach the loader, and [RPCError], the
    class of the errors the membership client raises.  All of them are
    subclasses of [Exception], so [except Exception] catches each one. *)
Inductive exn : Type :=
| FileNotFoundError
| XLRDError
| IndexError
| TypeError
| ValueError
| OverflowError
| AttributeError
| RPCError.

(** A value used as a subscript of a list: an [int] or a [str]. *)
Inductive subscript : Type :=
| Int (n : Z)
| Str (s : string).

(** [l[i]] on a list: an [int] counts from the start, or from the end
    when it is negative, and raises [IndexError] out of range; a [str]
    raises [TypeError] ("list indices must be integers or slices, not
    str"). *)
Definition list_getitem {A} (l : list A) (i : subscript) : exn + A :=
  match i with
  | Str _ => inl TypeError
  | Int n =>
      let k := if n <? 0 then n + Z.of_nat (List.length l) else n in
      if k <? 0 then inl IndexError
      else match nth_error l (Z.to_nat k) with
           | None => inl IndexError
           | Some v => inr v
           end
  end.

(** Python's [divmod] on integers is floor division, as [Z.div] and
    [Z.modulo] are for a positive divisor. *)
Definition divmod (a b : Z) : Z * Z := (a / b, a mod b).

(** ** [str.strip]

    Strings are sequences of code points below 256.  The characters
    [str.strip()] removes are those for which [str.isspace] holds. *)
Definition isspace (c : ascii) : bool :=
  let n := nat_of_ascii c in
  (((9 <=? n) && (n <=? 13)) || ((28 <=? n) && (n <=? 32))
   || (n =? 133) || (n =? 160))%nat.

Fixpoint lstrip (s : string) : string :=
  match s with
  | EmptyString => EmptyString
  | String c r => if isspace c then lstrip r else s
  end.

Fixpoint string_rev_onto (acc s : string) : string :=
  match s with
  | EmptyString => acc
  | String c r => string_rev_onto (String c acc) r
  end.

Definition string_rev (s : string) : string := string_rev_onto EmptyString s.

Definition rstrip (s : string) : string := string_rev (lstrip (string_rev s)).

Definition strip (s : string) : string := rstrip (lstrip s).

(* ================================================================== *)
(** * The [datetime] module: dates, times and their arithmetic *)
(* ================================================================== *)

Module datetime.

Definition MINYEAR : Z := 1.
Definition MAXYEAR : Z := 9999.
Definition _MAXORDINAL : Z := 3652059.

Definition _is_leap (year : Z) : bool :=
  (year mod 4 =? 0) && (negb (year mod 100 =? 0) || (year mod 400 =? 0)).

Definition _days_before_year (year : Z) : Z :=
  let y := year - 1 in
  y * 365 + y / 4 - y / 100 + y / 400.

(** [_DAYS_IN_MONTH[month]]; the entries outside 1..12 do not exist in
    Python and are never read. *)
Definition _DAYS_IN_MONTH (month : Z) : Z :=
  match month with
  | 1 => 31 | 2 => 28 | 3 => 31 | 4 => 30 | 5 => 31 | 6 => 30
  | 7 => 31 | 8 => 31 | 9 => 30 | 10 => 31 | 11 => 30 | 12 => 31
  | _ => -1
  end.

Definition _DAYS_BEFORE_MONTH (month : Z) : Z :=
  match month with
  | 1 => 0 | 2 => 31 | 3 => 59 | 4 => 90 | 5 => 120 | 6 => 151
  | 7 => 181 | 8 => 212 | 9 => 243 | 10 => 273 | 11 => 304 | 12 => 334
  | _ => -1
  end.

Definition _days_in_month (year month : Z) : Z :=
  if (month =? 2) && _is_leap year then 29 else _DAYS_IN_MONTH month.

Definition _days_before_month (year month : Z) : Z :=
  _DAYS_BEFORE_MONTH month
  + (if (2 <? month) && _is_leap year then 1 else 0).

Definition _ymd2ord (year month day : Z) : Z :=
  _days_before_year year + _days_before_month year month + day.

Definition _DI400Y : Z := 146097.
Definition _DI100Y : Z := 36524.
Definition _DI4Y : Z := 1461.

(** The month and day of the [n]-th day (from 0) of a year. *)
Definition _month_day (leapyear : bool) (n : Z) : Z * Z :=
  let month := Z.shiftr (n + 50) 5 in
  let preceding :=
    _DAYS_BEFORE_MONTH month
    + (if (2 <? month) && leapyear then 1 else 0) in
  if n <? preceding then
    let month' := month - 1 in
    let preceding' :=
      preceding
      - (_DAYS_IN_MONTH month'
         + (if (month' =? 2) && leapyear then 1 else 0)) in
    (month', n - preceding' + 1)
  else (month, n - preceding + 1).

Definition _ord2ymd (ordinal : Z) : Z * Z * Z :=
  let n := ordinal - 1 in
  let '(n400, n) := divmod n _DI400Y in
  let year := n400 * 400 + 1 in
  let '(n100, n) := divmod n _DI100Y in
  let '(n4, n) := divmod n _DI4Y in
  let '(n1, n) := divmod n 365 in
  let year := year + (n100 * 100 + n4 * 4 + n1) in
  if (n1 =? 4) || (n100 =? 4) then (year - 1, 12, 31)
  else
    let leapyear := (n1 =? 3) && (negb (n4 =? 24) || (n100 =? 3)) in
    let '(month, day) := _month_day leapyear n in
    (year, month, day).

(** A naive [datetime] object. *)
Record t : Type := mk {
  year : Z; month : Z; day : Z;
  hour : Z; minute : Z; second : Z; microsecond : Z
}.

(** [datetime.date()]: the calendar date, time of day dropped. *)
Definition date (d : t) : Z * Z * Z := (year d, month d, day d).

Definition toordinal (d : t) : Z := _ymd2ord (year d) (month d) (day d).

Definition us_per_day : Z := 86400 * 1000000.

(** [timedelta(days, seconds, microseconds, milliseconds)], kept as its
    total number of microseconds; the constructor refuses more than
    999999999 days in either direction. *)
Definition timedelta (days seconds microseconds milliseconds : Z)
  : exn + Z :=
  let total :=
    days * us_per_day + seconds * 1000000 + microseconds
    + milliseconds * 1000 in
  if Z.abs (total / us_per_day) <=? 999999999 then inr total
  else inl OverflowError.

(** [datetime.__add__(timedelta)]. *)
Definition add (d : t) (delta : Z) : exn + t :=
  let total :=
    toordinal d * us_per_day
    + ((hour d * 3600 + minute d * 60 + second d) * 1000000
       + microsecond d)
    + delta in
  let '(days, rest) := divmod total us_per_day in
  let '(secs, us) := divmod rest 1000000 in
  let '(hh, rem) := divmod secs 3600 in
  let '(mm, ss) := divmod rem 60 in
  if (0 <? days) && (days <=? _MAXORDINAL) then
    let '(y, m, dd) := _ord2ymd days in
    inr (mk y m dd hh mm ss us)
  else inl OverflowError.

(** The constructor's check of the date fields. *)
Definition valid_date (y m d : Z) : bool :=
  (MINYEAR <=? y) && (y <=? MAXYEAR) && (1 <=? m) && (m <=? 12)
  && (1 <=? d) && (d <=? _days_in_month y m).

End datetime.

(* ================================================================== *)
(** * The [xlrd] library: sheets, cell values, date serials *)
(* ================================================================== *)

Module xlrd.

(** A numeric cell value is a Python [float] (an [int] for boolean and
    error cells).  The loader observes a number [x] in three ways only,
    and the number is kept as these three observations:
    - [str(x)],
    - [int(x)], the integer part (truncated toward zero),
    - [int(round((x - int(x)) * 86400000.0))], the fraction of the day
      in milliseconds.
    [x < 60] is [int(x) < 60], since 60 is an integer. *)
Record number : Type := mk_number {
  num_str : string;
  num_int : Z;
  num_frac_ms : Z
}.

(** [Sheet.cell_value] returns a [str] for text, empty and blank cells
    and a number for number, date, boolean and error cells. *)
Inductive cell : Type :=
| Text (s : string)
| Number (x : number).

(** A sheet is kept as the cells the file stores for each row, up to
    the last cell the row has.  [open_workbook], called as [__GetSheet]
    calls it (without [ragged_rows]), gives every row the width of the
    sheet: a row is read with empty cells, whose value is the empty
    [str], after its last stored cell. *)
Definition Sheet : Type := list (list cell).
Definition Book : Type := list Sheet.

Definition nrows (sheet : Sheet) : nat := List.length sheet.

Definition ncols (sheet : Sheet) : nat :=
  fold_right (fun row n => Nat.max (List.length row) n) O sheet.

(** [self._cell_values[rowx]] of a row of the sheet: the row at the
    width of the sheet. *)
Definition row_values (sheet : Sheet) (row : list cell) : list cell :=
  row ++ repeat (Text "") (ncols sheet - List.length row).

(** [sheet.cell_value(rowx, colx)] is [self._cell_values[rowx][colx]];
    [rowx] comes from [range(sheet.nrows)] and is not negative. *)
Definition cell_value (sheet : Sheet) (rowx : nat) (colx : subscript)
  : exn + cell :=
  match nth_error sheet rowx with
  | None => inl IndexError
  | Some row => list_getitem (row_values sheet row) colx
  end.

(** [book.sheet_by_index(sheetx)]. *)
Definition sheet_by_index (wb : Book) (sheetx : nat) : exn + Sheet :=
  match nth_error wb sheetx with
  | None => inl IndexError
  | Some sh => inr sh
  end.

Definition epoch_1900 : datetime.t := datetime.mk 1899 12 31 0 0 0 0.
Definition epoch_1900_minus_1 : datetime.t := datetime.mk 1899 12 30 0 0 0 0.

(** [xlrd.xldate_as_datetime(xldate, datemode)] at [datemode = 0], the
    only mode the loader passes ([epoch_1904] is not reached).  On a
    [str] the comparison [xldate < 60] raises [TypeError]. *)
Definition xldate_as_datetime (xldate : cell) : exn + datetime.t :=
  match xldate with
  | Text _ => inl TypeError
  | Number x =>
      let epoch :=
        if num_int x <? 60 then epoch_1900 else epoch_1900_minus_1 in
      let days := num_int x in
      let seconds := num_frac_ms x in
      let '(seconds, milliseconds) := divmod seconds 1000 in
      match datetime.timedelta days seconds 0 milliseconds with
      | inl e => inl e
      | inr delta => datetime.add epoch delta
      end
  end.

End xlrd.

(** [str(v)] of a cell value. *)
Definition str (v : xlrd.cell) : string :=
  match v with
  | xlrd.Text s => s
  | xlrd.Number x => xlrd.num_str x
  end.

(* ================================================================== *)
(** * [datetime.strptime] and the pattern [%d/%m/%Y] *)
(* ================================================================== *)

Definition is_digit (c : ascii) : bool :=
  let n := nat_of_ascii c in ((48 <=? n) && (n <=? 57))%nat.

(** The value of a decimal digit character. *)
Definition digit_value (c : ascii) : Z := Z.of_nat (nat_of_ascii c) - 48.

Definition in_range (lo hi c : ascii) : bool :=
  ((nat_of_ascii lo <=? nat_of_ascii c)
   && (nat_of_ascii c <=? nat_of_ascii hi))%nat.

(** [s.split(sep)]. *)
Fixpoint split_on (sep : ascii) (s : string) : list string :=
  match s with
  | EmptyString => [EmptyString]
  | String c r =>
      if Ascii.eqb c sep then EmptyString :: split_on sep r
      else
        match split_on sep r with
        | f :: fs => String c f :: fs
        | [] => [String c EmptyString]
        end
  end.

(** [%d]: the group [3[0-1]|[1-2]\d|0[1-9]|[1-9]| [1-9]], and [int] of
    the text it matched. *)
Definition match_d (s : string) : option Z :=
  match s with
  | String a EmptyString =>
      if in_range "1" "9" a then Some (digit_value a) else None
  | String a (String b EmptyString) =>
      if (Ascii.eqb a "3" && in_range "0" "1" b)
         || (in_range "1" "2" a && is_digit b)
         || (Ascii.eqb a "0" && in_range "1" "9" b)
      then Some (10 * digit_value a + digit_value b)
      else if Ascii.eqb a " " && in_range "1" "9" b
           then Some (digit_value b)
           else None
  | _ => None
  end.

(** [%m]: the group [1[0-2]|0[1-9]|[1-9]]. *)
Definition match_m (s : string) : option Z :=
  match s with
  | String a EmptyString =>
      if in_range "1" "9" a then Some (digit_value a) else None
  | String a (String b EmptyString) =>
      if (Ascii.eqb a "1" && in_range "0" "2" b)
         || (Ascii.eqb a "0" && in_range "1" "9" b)
      then Some (10 * digit_value a + digit_value b)
      else None
  | _ => None
  end.

(** [%Y]: the group [\d\d\d\d]. *)
Definition match_Y (s : string) : option Z :=
  match s with
  | String a (String b (String c (String d EmptyString))) =>
      if is_digit a && is_digit b && is_digit c && is_digit d
      then Some (1000 * digit_value a + 100 * digit_value b
                 + 10 * digit_value c + digit_value d)
      else None
  | _ => None
  end.

(** [datetime.strptime(data, "%d/%m/%Y")]; [None] is [ValueError].  The
    pattern becomes the regular expression
    [(?P<d>...)/(?P<m>...)/(?P<Y>\d\d\d\d)], which has to match the whole
    of [data].  No group can match a ["/"], so [data] matches exactly when
    it splits at ["/"] into three fields matched by the three groups.  The
    date is then built by the [date] constructor, which raises
    [ValueError] on fields out of range. *)
Definition strptime_dmY (data : string) : option datetime.t :=
  match split_on "/" data with
  | [D; M; Y] =>
      match match_d D, match_m M, match_Y Y with
      | Some d, Some m, Some y =>
          if datetime.valid_date y m d
          then Some (datetime.mk y m d 0 0 0 0)
          else None
      | _, _, _ => None
      end
  | _ => None
  end.

(** [datetime.strptime]: on the pattern [%d/%m/%Y] as above, on any other
    pattern as [other] says. *)
Definition strptime_model (other : string -> string -> option datetime.t)
    (data format : string) : option datetime.t :=
  if String.eqb format "%d/%m/%Y" then strptime_dmY data
  else other data format.

(** A date written in the pattern [%d/%m/%Y]: two digits of day, two of
    month, four of year. *)
Definition digit_char (k : Z) : ascii := ascii_of_nat (Z.to_nat (48 + k)).

Definition two_digits (n : Z) : string :=
  String (digit_char (n / 10)) (String (digit_char (n mod 10)) EmptyString).

Definition four_digits (n : Z) : string :=
  String (digit_char (n / 1000))
    (String (digit_char (n / 100 mod 10))
       (String (digit_char (n / 10 mod 10))
          (String (digit_char (n mod 10)) EmptyString))).

Definition format_dmY (date : Z * Z * Z) : string :=
  let '(y, m, d) := date in
  (two_digits d ++ "/" ++ two_digits m ++ "/" ++ four_digits y)%string.

(* ================================================================== *)
(** * Payment data: records, roster and error list *)
(* ================================================================== *)

(** Modelled from the spec: [payments_data.py] ([SinglePayment],
    [PaymentsData], [PaymentsDataErrors], [PaymentErrorTypes]) is not part
    of the sources at hand.  §3 gives the record
    [{email, username, expiration}], the roster as a mapping from username
    (case-sensitive as stored) to record with at most one record per
    username, and §4.1 step 3d the insertion: if the username already
    exists the new row is discarded and the insertion reports it, the
    first occurrence is kept.  The roster is kept in insertion order, as a
    Python [dict] keeps it. *)
Record SinglePayment : Type := mkSinglePayment {
  email : string;
  username : string;
  expiration : datetime.t
}.

Module PaymentsData.

Definition t : Type := list SinglePayment.

Definition empty : t := [].

(** Modelled from the spec: whether the roster has a record under the
    username, compared as stored. *)
Definition IsUsernameExistent (u : string) (pd : t) : bool :=
  existsb (fun p => String.eqb (username p) u) pd.

(** Modelled from the spec: §4.1 step 3d.  [AddPayment] answers whether
    the record was added, and the roster after the call; a record whose
    username exists is not added and the roster is not touched. *)
Definition AddPayment (e u : string) (x : datetime.t) (pd : t) : bool * t :=
  if IsUsernameExistent u pd then (false, pd)
  else (true, pd ++ [mkSinglePayment e u x]).

(** Modelled from the spec: the roster is a mapping from username to
    record, [GetByUsername] its lookup. *)
Definition GetByUsername (u : string) (pd : t) : option SinglePayment :=
  find (fun p => String.eqb (username p) u) pd.

(** Modelled from the spec: the number of records of the roster. *)
Definition Count (pd : t) : nat := List.length pd.

End PaymentsData.

Inductive PaymentErrorTypes : Type :=
| INVALID_DATE_ERR
| DUPLICATED_USERNAME_ERR.

(** Modelled from the spec: §3 gives the error entry
    [{kind, rowNumber, username, rawValue (optional)}] and the error list
    as an ordered, append-only sequence of entries. *)
Record PaymentError : Type := mkPaymentError {
  err_type : PaymentErrorTypes;
  err_row : nat;
  err_username : string;
  err_expiration : option xlrd.cell
}.

Module PaymentsDataErrors.

Definition t : Type := list PaymentError.

Definition empty : t := [].

(** Modelled from the spec: the error list is append-only; the entry
    keeps the kind, the row number, the username and the raw value as
    they are passed ([None] when the call passes no raw value). *)
Definition AddPaymentError (k : PaymentErrorTypes) (row : nat)
    (u : string) (raw : option xlrd.cell) (pde : t) : t :=
  pde ++ [mkPaymentError k row u raw].

End PaymentsDataErrors.

(* ================================================================== *)
(** * Configuration values read by the two classes *)
(* ================================================================== *)

(** [config.GetValue(ConfigTypes.X)] is the field [X].  The three
    payment columns are what [payment_bot_config_cfg.py] stores for
    them: the text of the setting in upper case
    (["conv_fct": lambda val: val.upper()]), which the column check
    accepts when it is one letter from [A] to [Z]. *)
Record Config : Type := mkConfig {
  PAYMENT_EXCEL_FILE : string;
  PAYMENT_EMAIL_COL : string;
  PAYMENT_USERNAME_COL : string;
  PAYMENT_EXPIRATION_COL : string;
  PAYMENT_DATE_FORMAT : string;
  APP_TEST_MODE : bool
}.

(** [payment_bot_config_cfg.py], the ["def_val"] of the entries
    [payment_email_col], [payment_username_col], [payment_expiration_col]
    and [payment_date_format]. *)
Definition payment_email_col_def_val : string := "A".
Definition payment_username_col_def_val : string := "B".
Definition payment_expiration_col_def_val : string := "C".
Definition payment_date_format_def_val : string := "%d/%m/%Y".

(* ================================================================== *)
(** * Logging and exceptions of the loader *)
(* ================================================================== *)

(** One constructor per logging call of [payments_excel_loader.py], with
    the values the message is formatted from. *)
Inductive LogRecord : Type :=
| InfoLoading (payment_file : string)
| InfoLoaded (payment_file : string) (count : nat)
| ExceptionLoading (payment_file : string)
| WarningInvalidDate (u : string) (row_idx : nat) (raw : xlrd.cell)
| DebugRow (count row_idx : nat) (e u : string) (d : Z * Z * Z)
| WarningDuplicated (u : string) (row_idx : nat).

(** A computation that writes to the logger and either returns a value
    or raises. *)
Definition M (A : Type) : Type := list LogRecord -> (exn + A) * list LogRecord.

Definition ret {A} (a : A) : M A := fun lg => (inr a, lg).

Definition raise {A} (e : exn) : M A := fun lg => (inl e, lg).

Definition bind {A B} (m : M A) (k : A -> M B) : M B :=
  fun lg =>
    match m lg with
    | (inl e, lg') => (inl e, lg')
    | (inr a, lg') => k a lg'
    end.

Definition log (r : LogRecord) : M unit := fun lg => (inr tt, lg ++ [r]).

(** The outcome of a call that may raise, brought into [M]. *)
Definition call {A} (r : exn + A) : M A :=
  match r with
  | inl e => raise e
  | inr a => ret a
  end.

(** [try: body  except Exception: handler; raise]. *)
Definition try_except_reraise {A} (body : M A) (handler : M unit) : M A :=
  fun lg =>
    match body lg with
    | (inl e, lg') =>
        match handler lg' with
        | (inl e', lg'') => (inl e', lg'')
        | (inr _, lg'') => (inl e, lg'')
        end
    | (inr a, lg') => (inr a, lg')
    end.

Declare Scope py_scope.
Delimit Scope py_scope with py.
Notation "x <- m ;; k" := (bind m (fun x => k))
  (at level 61, m at next level, right associativity) : py_scope.
Notation "m ;;; k" := (bind m (fun _ => k))
  (at level 61, right associativity) : py_scope.

(** [for x in l: s = body(x, s)]. *)
Fixpoint for_each {A S} (l : list A) (body : A -> S -> M S) (s : S) : M S :=
  match l with
  | [] => ret s
  | x :: r => bind (body x s) (for_each r body)
  end.

(** [range(n)]. *)
Definition range (n : nat) : list nat := seq 0 n.

(* ================================================================== *)
(** * [payments_excel_loader.py] *)
(* ================================================================== *)

Module PaymentsExcelLoaderConst.
Definition SHEET_IDX : nat := 0.
End PaymentsExcelLoaderConst.

Module PaymentsExcelLoader.
Section Loader.

Local Open Scope py_scope.

(** [self.config]. *)
Variable config : Config.

(** [xlrd.open_workbook]: what opening the file of a given name yields,
    a workbook or the exception raised. *)
Variable open_workbook : string -> exn + xlrd.Book.

(** [datetime.strptime(data, format)]; [None] is [ValueError]. *)
Variable strptime : string -> string -> option datetime.t.

Definition state : Type := (PaymentsData.t * PaymentsDataErrors.t)%type.

Definition __GetSheet (payment_file : string) : M xlrd.Sheet :=
  wb <- call (open_workbook payment_file) ;;
  call (xlrd.sheet_by_index wb PaymentsExcelLoaderConst.SHEET_IDX).

(** The second half of [__AddPayment], from [# Add data] on: what is done
    with a date once the cell is parsed.  The two objects
    [payments_data] and [payments_data_err] are mutated in place by the
    Python code; here the call returns them. *)
Definition add_data (row_idx : nat)
    (payments_data : PaymentsData.t)
    (payments_data_err : PaymentsDataErrors.t)
    (email username : string) (expiration_datetime : datetime.t)
  : M state :=
  match PaymentsData.AddPayment email username expiration_datetime
          payments_data with
  | (true, payments_data') =>
      log (DebugRow (PaymentsData.Count payments_data') row_idx email
             username (datetime.date expiration_datetime)) ;;;
      ret (payments_data', payments_data_err)
  | (false, payments_data') =>
      log (WarningDuplicated username row_idx) ;;;
      ret (payments_data',
           PaymentsDataErrors.AddPaymentError DUPLICATED_USERNAME_ERR
             (row_idx + 1) username None payments_data_err)
  end.

Definition __AddPayment (row_idx : nat)
    (payments_data : PaymentsData.t)
    (payments_data_err : PaymentsDataErrors.t)
    (email username : string) (expiration : xlrd.cell) : M state :=
  match xlrd.xldate_as_datetime expiration with
  | inr expiration_datetime =>
      add_data row_idx payments_data payments_data_err email username
        expiration_datetime
  | inl TypeError =>
      match expiration with
      | xlrd.Text s =>
          match strptime (strip s) (PAYMENT_DATE_FORMAT config) with
          | Some expiration_datetime =>
              add_data row_idx payments_data payments_data_err email
                username expiration_datetime
          | None =>
              log (WarningInvalidDate username row_idx expiration) ;;;
              ret (payments_data,
                   PaymentsDataErrors.AddPaymentError INVALID_DATE_ERR
                     (row_idx + 1) username (Some expiration)
                     payments_data_err)
          end
      | xlrd.Number _ => raise AttributeError
      end
  | inl e => raise e
  end.

(** The body of the loop of [__LoadSheet] for row index [i].  The three
    column values go to [cell_value] as [config.GetValue] returns them,
    each a [str]. *)
Definition load_row (sheet : xlrd.Sheet) (i : nat) (st : state) : M state :=
  let '(payments_data, payments_data_err) := st in
  let email_col_idx := Str (PAYMENT_EMAIL_COL config) in
  let username_col_idx := Str (PAYMENT_USERNAME_COL config) in
  let expiration_col_idx := Str (PAYMENT_EXPIRATION_COL config) in
  if (0 <? i)%nat then
    email_cell <- call (xlrd.cell_value sheet i email_col_idx) ;;
    let email := strip (str email_cell) in
    username_cell <- call (xlrd.cell_value sheet i username_col_idx) ;;
    let username := strip (str username_cell) in
    expiration <- call (xlrd.cell_value sheet i expiration_col_idx) ;;
    if negb (String.eqb username "") then
      __AddPayment i payments_data payments_data_err email username
        expiration
    else ret (payments_data, payments_data_err)
  else ret (payments_data, payments_data_err).

Definition __LoadSheet (sheet : xlrd.Sheet) : M state :=
  for_each (range (xlrd.nrows sheet)) (load_row sheet)
    (PaymentsData.empty, PaymentsDataErrors.empty).

Definition __LoadAndCheckAll : M state :=
  let payment_file := PAYMENT_EXCEL_FILE config in
  try_except_reraise
    (log (InfoLoading payment_file) ;;;
     sheet <- __GetSheet payment_file ;;
     r <- __LoadSheet sheet ;;
     log (InfoLoaded payment_file (PaymentsData.Count (fst r))) ;;;
     ret r)
    (log (ExceptionLoading payment_file)).

Definition LoadAll : M PaymentsData.t :=
  r <- __LoadAndCheckAll ;; ret (fst r).

Definition LoadSingleByUsername (username : string)
  : M (option SinglePayment) :=
  pd <- LoadAll ;; ret (PaymentsData.GetByUsername username pd).

Definition CheckForErrors : M PaymentsDataErrors.t :=
  r <- __LoadAndCheckAll ;; ret (snd r).

End Loader.
End PaymentsExcelLoader.

(* ================================================================== *)
(** * Checks by enumeration *)
(* ================================================================== *)

(** [p] holds of 0, 1, ..., [k - 1]. *)
Fixpoint forall_below (k : nat) (p : Z -> bool) : bool :=
  match k with
  | O => true
  | S k' => p (Z.of_nat k') && forall_below k' p
  end.

(** [sep in s]. *)
Fixpoint contains (sep : ascii) (s : string) : bool :=
  match s with
  | EmptyString => false
  | String c r => Ascii.eqb c sep || contains sep r
  end.

Definition option_Z_eqb (a b : option Z) : bool :=
  match a, b with
  | Some x, Some y => x =? y
  | None, None => true
  | _, _ => false
  end.

(** The month and day [_month_day] gives are a month and a day of it. *)
Definition month_day_ok (leapyear : bool) (n : Z) : bool :=
  let '(m, d) := datetime._month_day leapyear n in
  (1 <=? m) && (m <=? 12) && (1 <=? d)
  && (d <=? datetime._DAYS_IN_MONTH m
            + (if (m =? 2) && leapyear then 1 else 0)).

(** The month [m] and the day [d] of it, found again by [_month_day]
    from the number of the day in the year, which is at most the length
    of the year. *)
Definition month_day_inv_ok (leapyear : bool) (m d : Z) : bool :=
  let len :=
    datetime._DAYS_IN_MONTH m + (if (m =? 2) && leapyear then 1 else 0) in
  let before :=
    datetime._DAYS_BEFORE_MONTH m
    + (if (2 <? m) && leapyear then 1 else 0) in
  negb ((1 <=? m) && (m <=? 12) && (1 <=? d) && (d <=? len))
  || (let '(m', d') := datetime._month_day leapyear (before + d - 1) in
      (m' =? m) && (d' =? d)
      && (before + d <=? 365 + (if leapyear then 1 else 0))).

(** A decimal digit, written and read back. *)
Definition digit_ok (k : Z) : bool :=
  is_digit (digit_char k)
  && (digit_value (digit_char k) =? k)
  && negb (Ascii.eqb (digit_char k) "/")
  && negb (isspace (digit_char k)).

(** A day or a month, written with two digits and read back by its
    group. *)
Definition day_field_ok (d : Z) : bool :=
  (d =? 0)
  || (negb (contains "/" (two_digits d))
      && option_Z_eqb (match_d (two_digits d)) (Some d)).

Definition month_field_ok (m : Z) : bool :=
  (m =? 0)
  || (negb (contains "/" (two_digits m))
      && option_Z_eqb (match_m (two_digits m)) (Some m)).

(* ================================================================== *)
(** * Vocabulary of the statements about the loader *)
(* ================================================================== *)

(** The two error entries [__AddPayment] appends for the row of index
    [row_idx]. *)
Definition duplicated_error (row_idx : nat) (u : string) : PaymentError :=
  mkPaymentError DUPLICATED_USERNAME_ERR (row_idx + 1) u None.

Definition invalid_date_error (row_idx : nat) (u : string)
    (raw : xlrd.cell) : PaymentError :=
  mkPaymentError INVALID_DATE_ERR (row_idx + 1) u (Some raw).

(** The date the two-stage parse of [__AddPayment] gives a cell: the one
    of the date serial, or else the one of the text in the configured
    pattern. *)
Definition parses_to (config : Config)
    (strptime : string -> string -> option datetime.t)
    (expiration : xlrd.cell) (x : datetime.t) : Prop :=
  xlrd.xldate_as_datetime expiration = inr x
  \/ exists s,
       expiration = xlrd.Text s
       /\ strptime (strip s) (PAYMENT_DATE_FORMAT config) = Some x.

(** ** The calendar and the date serials of a spreadsheet

    What a date serial and a text in the pattern [%d/%m/%Y] denote,
    written from the rules of the Gregorian calendar and of the 1900 date
    system of spreadsheets, by counting days. *)

(** A year is a leap year when 4 divides it, unless 100 divides it and
    400 does not. *)
Definition leap_year (y : Z) : bool :=
  ((y mod 4 =? 0) && negb (y mod 100 =? 0)) || (y mod 400 =? 0).

Definition month_length (y m : Z) : Z :=
  match m with
  | 1 | 3 | 5 | 7 | 8 | 10 | 12 => 31
  | 4 | 6 | 9 | 11 => 30
  | 2 => if leap_year y then 29 else 28
  | _ => 0
  end.

Definition year_length (y : Z) : Z := if leap_year y then 366 else 365.

(** A date of the calendar, year, month and day, from 1 January 1900,
    where the 1900 date system begins, to 31 December 9999. *)
Definition calendar_date (d : Z * Z * Z) : bool :=
  let '(y, m, dd) := d in
  (1900 <=? y) && (y <=? 9999) && (1 <=? m) && (m <=? 12)
  && (1 <=? dd) && (dd <=? month_length y m).

(** The days of [count] years from the year [y] on, and of [count]
    months of the year [y] from the month [m] on. *)
Fixpoint days_of_years (y : Z) (count : nat) : Z :=
  match count with
  | O => 0
  | S k => year_length y + days_of_years (y + 1) k
  end.

Fixpoint days_of_months (y m : Z) (count : nat) : Z :=
  match count with
  | O => 0
  | S k => month_length y m + days_of_months y (m + 1) k
  end.

(** The number of a date when the days are counted from 1 January 1900,
    which is day 1. *)
Definition day_number (d : Z * Z * Z) : Z :=
  let '(y, m, dd) := d in
  days_of_years 1900 (Z.to_nat (y - 1900))
  + days_of_months y 1 (Z.to_nat (m - 1)) + dd.

(** The serial of a date in the 1900 date system: the number of the
    day up to 28 February 1900, which is serial 59, and one more from
    1 March 1900 on, which is serial 61, since the system counts a
    29 February 1900 that the calendar does not have. *)
Definition excel_serial (d : Z * Z * Z) : Z :=
  if day_number d <=? 59 then day_number d else day_number d + 1.

(** The value a computation returns or the exception it raises, when it
    does not depend on what was logged before, and what it logs itself. *)
Definition log_independent {A} (m : M A) : Prop :=
  forall lg, m lg = (fst (m []), lg ++ snd (m [])).

(** [f] applied to what a call returns; an exception stays. *)
Definition on_result {A B} (f : A -> B) (r : exn + A) : exn + B :=
  match r with
  | inl e => inl e
  | inr a => inr (f a)
  end.

(** One parse pass over the source: what reading the configured file and
    going through its rows gives, a roster with its error list or the
    exception raised. *)
Definition one_parse_pass (config : Config)
    (open_workbook : string -> exn + xlrd.Book)
    (strptime : string -> string -> option datetime.t)
  : exn + (PaymentsData.t * PaymentsDataErrors.t) :=
  match open_workbook (PAYMENT_EXCEL_FILE config) with
  | inl e => inl e
  | inr wb =>
      match xlrd.sheet_by_index wb PaymentsExcelLoaderConst.SHEET_IDX with
      | inl e => inl e
      | inr sheet =>
          fst (PaymentsExcelLoader.__LoadSheet config strptime sheet [])
      end
  end.

(** A roster seen at day granularity, the time of day of each expiration
    dropped, with its error list. *)
Definition day_view (st : PaymentsData.t * PaymentsDataErrors.t)
  : list (string * string * (Z * Z * Z)) * PaymentsDataErrors.t :=
  (map (fun p => (email p, username p, datetime.date (expiration p)))
     (fst st),
   snd st).

(* ================================================================== *)
(** * Chat members and the membership client *)
(* ================================================================== *)

(** [pyrogram.types.Chat], [User] and [ChatMember], with the fields the
    two member classes and the validity check read. *)
Definition Chat : Type := Z.

Record User : Type := mkUser {
  user_id : Z;
  user_username : option string;
  is_bot : bool;
  is_deleted : bool
}.

Record ChatMember : Type := mkChatMember {
  member_user : option User;
  member_status : string
}.

(** [ChatMembersList]: an ordered sequence of member snapshots. *)
Definition ChatMembersList : Type := list ChatMember.

(** Modelled from the spec: [ChatMembersList.Any()] ([misc/chat_members.py])
    is not part of the sources at hand.  §4.4: the members are removed
    "if the set is non-empty". *)
Definition Any (members : ChatMembersList) : bool :=
  match members with
  | [] => false
  | _ :: _ => true
  end.

(** What the kicker does to the outside world, in the order it does it:
    calls of [BanHelper.KickUser] (the removal primitive of the membership
    client, §6; [misc/ban_helper.py] is not part of the sources at hand),
    calls of [time.sleep], and the one message it logs.  A call of
    [KickUser] is an event whether it returns or raises. *)
Inductive Event : Type :=
| KickUser (chat : Chat) (user : option User)
| Sleep (seconds : Q)
| InfoTestMode.

(** A computation of the kicker: it extends the trace of events and
    either returns a value or raises. *)
Definition K (A : Type) : Type := list Event -> (exn + A) * list Event.

Definition kret {A} (a : A) : K A := fun tr => (inr a, tr).

Definition kbind {A B} (m : K A) (k : A -> K B) : K B :=
  fun tr =>
    match m tr with
    | (inl e, tr') => (inl e, tr')
    | (inr a, tr') => k a tr'
    end.

Definition emit (e : Event) : K unit := fun tr => (inr tt, tr ++ [e]).

(** [for x in l: body(x)]. *)
Fixpoint kfor {A} (l : list A) (body : A -> K unit) : K unit :=
  match l with
  | [] => kret tt
  | x :: r => kbind (body x) (fun _ => kfor r body)
  end.

Definition is_KickUser (e : Event) : bool :=
  match e with
  | KickUser _ _ => true
  | _ => false
  end.

(** Modelled from the spec: [MemberHelper.IsValidMember] ([misc/helpers.py])
    is not part of the sources at hand.  §4.2: a member is valid only if it
    is a genuine human account, bots and deleted accounts excluded. *)
Definition IsValidMember_spec (member : ChatMember) : bool :=
  match member_user member with
  | None => false
  | Some u => negb (is_bot u) && negb (is_deleted u)
  end.

(* ================================================================== *)
(** * [members_username_getter.py] *)
(* ================================================================== *)

Module MembersUsernameGetter.
Section Getter.

(** The membership client's snapshot read, [GetMembers(chat)]. *)
Variable get_chat_members : Chat -> ChatMembersList.

(** [MemberHelper.IsValidMember], the external validity check. *)
Variable IsValidMember : ChatMember -> bool.

(** Modelled from the spec: [ChatMembersGetter.FilterMembers]
    ([misc/chat_members.py]) is not part of the sources at hand.  §4.2:
    it returns the ordered subsequence of the live members that satisfy
    the predicate, without side effects. *)
Definition FilterMembers (chat : Chat) (p : ChatMember -> bool)
  : ChatMembersList :=
  filter p (get_chat_members chat).

Definition GetAllWithUsername (chat : Chat) : ChatMembersList :=
  FilterMembers chat
    (fun member =>
       IsValidMember member
       && match member_user member with
          | None => false
          | Some u =>
              match user_username u with
              | None => false
              | Some _ => true
              end
          end).

Definition GetAllWithNoUsername (chat : Chat) : ChatMembersList :=
  FilterMembers chat
    (fun member =>
       IsValidMember member
       && match member_user member with
          | None => false
          | Some u =>
              match user_username u with
              | None => true
              | Some _ => false
              end
          end).

End Getter.
End MembersUsernameGetter.

(* ================================================================== *)
(** * [members_kicker.py] *)
(* ================================================================== *)

Module MembersKickerConst.
(** [SLEEP_TIME_SEC: float = 0.01], in seconds. *)
Definition SLEEP_TIME_SEC : Q := 1 # 100.
End MembersKickerConst.

Module MembersKicker.
Section Kicker.

(** [self.config]. *)
Variable config : Config.

Variable get_chat_members : Chat -> ChatMembersList.
Variable IsValidMember : ChatMember -> bool.

(** [MembersPaymentGetter] ([member/members_payment_getter.py]) is not
    part of the sources at hand; §4.3 makes its two answers functions of
    the live members, the roster and the current day.  They are taken as
    given, per chat and per user. *)
Variable GetAllMembersWithExpiredPayment : Chat -> ChatMembersList.
Variable IsSingleMemberExpired : Chat -> User -> bool.

(** [BanHelper] ([misc/ban_helper.py]) is not part of the sources at
    hand; §6 and §7 give its removal call a failure, which the membership
    client reports.  Whether a call fails is the client's answer, taken
    as given: [None] when the call returns, the exception when it raises,
    for the events so far, the chat and the user. *)
Variable KickUser_outcome : list Event -> Chat -> option User -> option exn.

(** [self.ban_helper.KickUser(chat, user)]: the call is made, and it
    returns or raises. *)
Definition ban_helper_KickUser (chat : Chat) (user : option User) : K unit :=
  fun tr =>
    match KickUser_outcome tr chat user with
    | None => (inr tt, tr ++ [KickUser chat user])
    | Some e => (inl e, tr ++ [KickUser chat user])
    end.

Definition __KickSingle (chat : Chat) (user : User) : K unit :=
  if negb (APP_TEST_MODE config) then ban_helper_KickUser chat (Some user)
  else emit InfoTestMode.

Definition __KickMultiple (chat : Chat) (members : ChatMembersList)
  : K unit :=
  if negb (APP_TEST_MODE config) then
    kfor members
      (fun member =>
         kbind (ban_helper_KickUser chat (member_user member))
           (fun _ => emit (Sleep MembersKickerConst.SLEEP_TIME_SEC)))
  else emit InfoTestMode.

Definition KickAllWithExpiredPayment (chat : Chat) : K ChatMembersList :=
  let no_payment_members := GetAllMembersWithExpiredPayment chat in
  kbind
    (if Any no_payment_members then __KickMultiple chat no_payment_members
     else kret tt)
    (fun _ => kret no_payment_members).

Definition KickSingleIfExpiredPayment (chat : Chat) (user : User) : K bool :=
  let payment_expired := IsSingleMemberExpired chat user in
  kbind
    (if payment_expired then __KickSingle chat user else kret tt)
    (fun _ => kret payment_expired).

Definition KickAllWithNoUsername (chat : Chat) : K ChatMembersList :=
  let no_username_members :=
    MembersUsernameGetter.GetAllWithNoUsername get_chat_members
      IsValidMember chat in
  kbind
    (if Any no_username_members then __KickMultiple chat no_username_members
     else kret tt)
    (fun _ => kret no_username_members).

Definition KickSingleIfNoUsername (chat : Chat) (user : User) : K bool :=
  let no_username :=
    match user_username user with
    | None => true
    | Some _ => false
    end in
  kbind
    (if no_username then __KickSingle chat user else kret tt)
    (fun _ => kret no_username).

End Kicker.
End MembersKicker.

(* ================================================================== *)
(** * Vocabulary of the statements about the kicker *)
(* ================================================================== *)

(** The events of a bulk removal of [members]: for each member in turn,
    the removal call and then the pause. *)
Definition kick_events (chat : Chat) (members : ChatMembersList)
  : list Event :=
  flat_map
    (fun member =>
       [KickUser chat (member_user member);
        Sleep MembersKickerConst.SLEEP_TIME_SEC])
    members.

(** The removal calls among some events, in their order. *)
Definition kicks (events : list Event) : list Event :=
  filter is_KickUser events.

(** Between any two removal calls of [events] there is a pause of
    [SLEEP_TIME_SEC]. *)
Definition paused_between_kicks (events : list Event) : Prop :=
  forall l1 a l2 b l3,
    events = l1 ++ a :: l2 ++ b :: l3 ->
    is_KickUser a = true -> is_KickUser b = true ->
    In (Sleep MembersKickerConst.SLEEP_TIME_SEC) l2.

(* ================================================================== *)
(** * Concrete inputs used by the examples *)
(* ================================================================== *)

Module Examples.

Local Open Scope string_scope.

(** The configuration with the defaults of the table: the columns [A],
    [B] and [C], the pattern [%d/%m/%Y]. *)
Definition cfg_file (payment_file : string) (test_mode : bool) : Config :=
  mkConfig payment_file payment_email_col_def_val
    payment_username_col_def_val payment_expiration_col_def_val
    payment_date_format_def_val test_mode.

Definition cfg : Config := cfg_file "payments.xls" false.

Definition cfg_missing : Config := cfg_file "missing.xls" false.

Definition cfg_test : Config := cfg_file "payments.xls" true.

(** [strptime] for the examples: only the default pattern is known. *)
Definition strptime : string -> string -> option datetime.t :=
  strptime_model (fun _ _ => None).

Definition num (s : string) (days ms : Z) : xlrd.cell :=
  xlrd.Number (xlrd.mk_number s days ms).

Definition header : list xlrd.cell :=
  [xlrd.Text "Email"; xlrd.Text "Username"; xlrd.Text "Expiration"].

(** 45000 is 15 March 2023. *)
Definition date_45000 : datetime.t := datetime.mk 2023 3 15 0 0 0 0.

(** A header and one row whose date is not valid. *)
Definition sheet_bad_date : xlrd.Sheet :=
  [ header;
    [xlrd.Text "carl@mail"; xlrd.Text "carl"; xlrd.Text "garbage"] ].

(** A second [bob], whose date is valid. *)
Definition sheet_dup : xlrd.Sheet :=
  [ header;
    [xlrd.Text "bob@mail"; xlrd.Text " bob "; num "45000.0" 45000 0];
    [xlrd.Text "bob2@mail"; xlrd.Text "bob"; xlrd.Text "01/02/2024"];
    [xlrd.Text "dan@mail"; xlrd.Text "dan"; xlrd.Text " 31/12/2024 "] ].

(** A row without a username, whose date is not valid. *)
Definition sheet_blank : xlrd.Sheet :=
  [ header;
    [xlrd.Text "x@mail"; xlrd.Text "  "; xlrd.Text "garbage"];
    [xlrd.Text "dan@mail"; xlrd.Text "dan"; xlrd.Text "31/12/2024"] ].

Definition bob : SinglePayment :=
  mkSinglePayment "bob@mail" "bob" date_45000.

(** A sheet with the header alone. *)
Definition sheet_header_only : xlrd.Sheet := [ header ].

(** A file system with four workbooks; no other file exists. *)
Definition open_workbook (payment_file : string) : exn + xlrd.Book :=
  if String.eqb payment_file "payments.xls" then inr [sheet_dup]
  else if String.eqb payment_file "bad_date.xls" then inr [sheet_bad_date]
  else if String.eqb payment_file "blank.xls" then inr [sheet_blank]
  else if String.eqb payment_file "new.xls" then inr [sheet_header_only]
  else inl FileNotFoundError.

Definition a_bot : User := mkUser 7 None true false.
Definition a_bot_member : ChatMember := mkChatMember (Some a_bot) "member".
Definition ann : User := mkUser 8 None false false.
Definition ann_member : ChatMember := mkChatMember (Some ann) "member".
Definition joe : User := mkUser 9 (Some "joe") false false.
Definition joe_member : ChatMember := mkChatMember (Some joe) "member".

Definition get_chat_members (chat : Chat) : ChatMembersList :=
  [a_bot_member; ann_member; joe_member].

(** A membership client whose removal calls all return, one whose
    removal calls all raise, and one that accepts a single removal call
    and raises from the second on. *)
Definition client_ok : list Event -> Chat -> option User -> option exn :=
  fun _ _ _ => None.

Definition client_down : list Event -> Chat -> option User -> option exn :=
  fun _ _ _ => Some RPCError.

Definition client_one_call : list Event -> Chat -> option User -> option exn :=
  fun tr _ _ =>
    match kicks tr with
    | [] => None
    | _ :: _ => Some RPCError
    end.

End Examples.

(* ================================================================== *)
(** * [payment_bot_config_cfg.py]: converters and the column check *)
(* ================================================================== *)

(** The levels of Python's [logging] module. *)
Module logging.
Definition DEBUG : Z := 10.
Definition INFO : Z := 20.
Definition WARNING : Z := 30.
Definition ERROR : Z := 40.
Definition CRITICAL : Z := 50.
End logging.

(** [payment_types.PaymentTypes], the two values the converter yields. *)
Inductive PaymentTypes : Type :=
| EXCEL_FILE
| GOOGLE_SHEET.

(** [d[key]] on a dict with string keys, kept in the order of its
    literal; [None] is [KeyError], and also [key not in d]. *)
Fixpoint dict_get {V} (d : list (string * V)) (key : string) : option V :=
  match d with
  | [] => None
  | (k, v) :: r => if String.eqb k key then Some v else dict_get r key
  end.

(** [l.index(x)] on a list of integers; [None] is [ValueError]. *)
Fixpoint list_index (l : list Z) (x : Z) : option nat :=
  match l with
  | [] => None
  | y :: r =>
      if y =? x then Some O
      else match list_index r x with
           | Some i => Some (S i)
           | None => None
           end
  end.

Module _ConfigDataTypeConverter.

Definition STR_TO_PAYMENT_TYPE : list (string * PaymentTypes) :=
  [("EXCEL_FILE"%string, EXCEL_FILE); ("GOOGLE_SHEET"%string, GOOGLE_SHEET)].

Definition STR_TO_LOG_LEVEL : list (string * Z) :=
  [("DEBUG"%string, logging.DEBUG);
   ("INFO"%string, logging.INFO);
   ("WARNING"%string, logging.WARNING);
   ("ERROR"%string, logging.ERROR);
   ("CRITICAL"%string, logging.CRITICAL)].

(** [None] is [KeyError]. *)
Definition StrToPaymentType (payment_type : string) : option PaymentTypes :=
  dict_get STR_TO_PAYMENT_TYPE payment_type.

Definition StrToLogLevel (log_level : string) : Z :=
  match dict_get STR_TO_LOG_LEVEL log_level with
  | Some v => v
  | None => logging.INFO
  end.

(** [None] is the [ValueError] of [list.index]. *)
Definition LogLevelToStr (log_level : Z) : option string :=
  match list_index (map snd STR_TO_LOG_LEVEL) log_level with
  | None => None
  | Some idx => nth_error (map fst STR_TO_LOG_LEVEL) idx
  end.

End _ConfigDataTypeConverter.

(** The three keys of [ConfigTypes] the column check reads. *)
Module ConfigTypes.
Inductive t : Type :=
| PAYMENT_EMAIL_COL
| PAYMENT_USERNAME_COL
| PAYMENT_EXPIRATION_COL.
End ConfigTypes.

Module _ConfigDataUtils.
Section Utils.

(** The class [Config] is not part of the sources at hand; the check
    uses its two methods [IsValueSet] and [GetValue], taken as given. *)
Variable ConfigT : Type.
Variable IsValueSet : ConfigT -> ConfigTypes.t -> bool.
Variable GetValue : ConfigT -> ConfigTypes.t -> string.

Definition COL_MIN_VAL : string := "A".
Definition COL_MAX_VAL : string := "Z".

(** The list [col_idxs] the loop of [AreColumnIndexesValid] builds: the
    values of the column keys that are set, in the order of the keys. *)
Definition col_idxs (config : ConfigT) : list string :=
  flat_map
    (fun col_idx =>
       if IsValueSet config col_idx then [GetValue config col_idx] else [])
    [ConfigTypes.PAYMENT_EMAIL_COL;
     ConfigTypes.PAYMENT_USERNAME_COL;
     ConfigTypes.PAYMENT_EXPIRATION_COL].

(** Strings compare as Python compares them, code point by code
    point. *)
Definition AreColumnIndexesValid (config : ConfigT) (curr_col : string)
  : bool :=
  if negb (String.length curr_col =? 1)%nat
     || String.ltb curr_col COL_MIN_VAL
     || String.ltb COL_MAX_VAL curr_col
  then false
  else
    match col_idxs config with
    | [] => true
    | [c0] => negb (String.eqb curr_col c0)
    | [c0; c1] =>
        negb (String.eqb curr_col c0)
        && negb (String.eqb curr_col c1)
        && negb (String.eqb c0 c1)
    | _ => false
    end.

End Utils.
End _ConfigDataUtils.

(* ================================================================== *)
(** * Vocabulary of the further statements *)
(* ================================================================== *)

(** One character, from [A] to [Z]. *)
Definition is_column_letter (s : string) : Prop :=
  exists a, s = String a EmptyString /\ (65 <= N_of_ascii a <= 90)%N.

Definition is_warning (r : LogRecord) : bool :=
  match r with
  | WarningInvalidDate _ _ _ | WarningDuplicated _ _ => true
  | _ => false
  end.

(** The warning [__AddPayment] logs beside an error entry: it names the
    row by its index, one less than the row number of the entry. *)
Definition warning_of (e : PaymentError) : LogRecord :=
  match err_type e, err_expiration e with
  | INVALID_DATE_ERR, Some raw =>
      WarningInvalidDate (err_username e) (err_row e - 1) raw
  | _, _ => WarningDuplicated (err_username e) (err_row e - 1)
  end.

(** [member.user is not None]. *)
Definition has_user (member : ChatMember) : bool :=
  match member_user member with
  | None => false
  | Some _ => true
  end.

(* ================================================================== *)
(** * More concrete inputs *)
(* ================================================================== *)

Module MoreExamples.

(** A date serial one day after 31 December 9999. *)
Definition serial_overflow : xlrd.cell :=
  Examples.num "2958466.0" 2958466 0.

(** A configuration under construction: the columns set so far. *)
Definition columns : Type := ConfigTypes.t -> option string.

Definition IsValueSet (config : columns) (k : ConfigTypes.t) : bool :=
  match config k with
  | Some _ => true
  | None => false
  end.

Definition GetValue (config : columns) (k : ConfigTypes.t) : string :=
  match config k with
  | Some v => v
  | None => EmptyString
  end.

(** The email column set to [A], the username column to [B]. *)
Definition columns_A_B : columns :=
  fun k =>
    match k with
    | ConfigTypes.PAYMENT_EMAIL_COL => Some "A"%string
    | ConfigTypes.PAYMENT_USERNAME_COL => Some "B"%string
    | ConfigTypes.PAYMENT_EXPIRATION_COL => None
    end.

End MoreExamples.

(* ================================================================== *)
(** * Properties of the loops of the loader *)
(* ================================================================== *)

Section ForEachFacts.

Context {A S : Type}.

Lemma for_each_app (l1 l2 : list A) (body : A -> S -> M S) s :
  forall lg,
    for_each (l1 ++ l2) body s lg
    = bind (for_each l1 body s) (for_each l2 body) lg.
Proof.
  revert s. induction l1 as [| x l1 IH]; intros s lg; simpl.
  - reflexivity.
  - unfold bind in *. destruct (body x s lg) as [[e | s1] lg1].
    + reflexivity.
    + apply IH.
Qed.

End ForEachFacts.

(* ================================================================== *)
(** * Properties of the roster *)
(* ================================================================== *)

Lemma IsUsernameExistent_In (u : string) (pd : PaymentsData.t) :
  PaymentsData.IsUsernameExistent u pd = true <-> In u (map username pd).
Proof.
  unfold PaymentsData.IsUsernameExistent. rewrite existsb_exists, in_map_iff.
  split; intros (p & H1 & H2); exists p.
  - apply String.eqb_eq in H2. split; assumption.
  - split; [assumption | apply String.eqb_eq; assumption].
Qed.

Lemma IsUsernameExistent_not_In (u : string) (pd : PaymentsData.t) :
  PaymentsData.IsUsernameExistent u pd = false -> ~ In u (map username pd).
Proof.
  intros H Hin. apply IsUsernameExistent_In in Hin. congruence.
Qed.

Lemma NoDup_snoc {A} (l : list A) (x : A) :
  NoDup l -> ~ In x l -> NoDup (l ++ [x]).
Proof.
  induction l as [| y l IH]; intros Hnd Hx; simpl.
  - constructor; [intros [] | constructor].
  - inversion Hnd as [| ? ? Hy Hl]; subst. constructor.
    + rewrite in_app_iff. intros [H | [H | []]].
      * exact (Hy H).
      * apply Hx. left. symmetry. exact H.
    + apply IH; [exact Hl | intros H; apply Hx; right; exact H].
Qed.

(* ================================================================== *)
(** * Properties of [__AddPayment] and of the loop of [__LoadSheet] *)
(* ================================================================== *)

Section LoaderFacts.

Variable config : Config.
Variable strptime : string -> string -> option datetime.t.

Local Abbreviation add_data := (PaymentsExcelLoader.add_data).
Local Abbreviation __AddPayment := (PaymentsExcelLoader.__AddPayment config strptime).
Local Abbreviation load_row := (PaymentsExcelLoader.load_row config strptime).
Local Abbreviation parses_to := (parses_to config strptime).

Lemma add_data_new row_idx pd pde e u x lg :
  PaymentsData.IsUsernameExistent u pd = false ->
  add_data row_idx pd pde e u x lg
  = (inr (pd ++ [mkSinglePayment e u x], pde),
     lg ++ [DebugRow (PaymentsData.Count (pd ++ [mkSinglePayment e u x]))
              row_idx e u (datetime.date x)]).
Proof.
  intros H. unfold PaymentsExcelLoader.add_data, PaymentsData.AddPayment.
  rewrite H. reflexivity.
Qed.

Lemma add_data_existing row_idx pd pde e u x lg :
  PaymentsData.IsUsernameExistent u pd = true ->
  add_data row_idx pd pde e u x lg
  = (inr (pd, pde ++ [duplicated_error row_idx u]),
     lg ++ [WarningDuplicated u row_idx]).
Proof.
  intros H. unfold PaymentsExcelLoader.add_data, PaymentsData.AddPayment.
  rewrite H. reflexivity.
Qed.

(** What [add_data] can have done when it returns. *)
Lemma add_data_cases row_idx pd pde e u x lg pd' pde' lg' :
  add_data row_idx pd pde e u x lg = (inr (pd', pde'), lg') ->
  (PaymentsData.IsUsernameExistent u pd = false
   /\ pd' = pd ++ [mkSinglePayment e u x] /\ pde' = pde)
  \/ (PaymentsData.IsUsernameExistent u pd = true
      /\ pd' = pd /\ pde' = pde ++ [duplicated_error row_idx u]).
Proof.
  destruct (PaymentsData.IsUsernameExistent u pd) eqn:E; intros H.
  - rewrite add_data_existing in H by exact E. inversion H; subst.
    right. repeat split.
  - rewrite add_data_new in H by exact E. inversion H; subst.
    left. repeat split.
Qed.

Lemma AddPayment_parsed row_idx pd pde e u c x lg :
  parses_to c x ->
  __AddPayment row_idx pd pde e u c lg = add_data row_idx pd pde e u x lg.
Proof.
  unfold PaymentsExcelLoader.__AddPayment.
  intros [H | (s & -> & H)].
  - rewrite H. reflexivity.
  - simpl. rewrite H. reflexivity.
Qed.

Lemma AddPayment_invalid row_idx pd pde e u s lg :
  strptime (strip s) (PAYMENT_DATE_FORMAT config) = None ->
  __AddPayment row_idx pd pde e u (xlrd.Text s) lg
  = (inr (pd, pde ++ [invalid_date_error row_idx u (xlrd.Text s)]),
     lg ++ [WarningInvalidDate u row_idx (xlrd.Text s)]).
Proof.
  intros H. unfold PaymentsExcelLoader.__AddPayment. simpl. rewrite H.
  reflexivity.
Qed.

(** What [__AddPayment] can have done when it returns. *)
Lemma AddPayment_cases row_idx pd pde e u c lg pd' pde' lg' :
  __AddPayment row_idx pd pde e u c lg = (inr (pd', pde'), lg') ->
  (exists x, parses_to c x
             /\ add_data row_idx pd pde e u x lg = (inr (pd', pde'), lg'))
  \/ (pd' = pd /\ pde' = pde ++ [invalid_date_error row_idx u c]).
Proof.
  unfold PaymentsExcelLoader.__AddPayment.
  destruct (xlrd.xldate_as_datetime c) as [err | x] eqn:E.
  - destruct c as [s | n].
    + simpl in E. inversion E; subst err.
      destruct (strptime (strip s) (PAYMENT_DATE_FORMAT config))
        as [x |] eqn:Es.
      * intros H. left. exists x. split; [| exact H].
        right. exists s. split; [reflexivity | exact Es].
      * intros H. inversion H; subst. right. split; reflexivity.
    + destruct err; discriminate.
  - intros H. left. exists x. split; [left; exact E | exact H].
Qed.

End LoaderFacts.

Section LoadSheetFacts.

Variable config : Config.
Variable strptime : string -> string -> option datetime.t.
Variable sheet : xlrd.Sheet.

Local Abbreviation load_row :=
  (PaymentsExcelLoader.load_row config strptime sheet).

Lemma load_row_header st lg : load_row 0%nat st lg = (inr st, lg).
Proof. destruct st. reflexivity. Qed.

(** Every row of the sheet is read at the width of the sheet. *)
Lemma row_length_le_ncols row :
  In row sheet -> (List.length row <= xlrd.ncols sheet)%nat.
Proof.
  unfold xlrd.ncols. induction sheet as [| r rows IH]; simpl; [tauto |].
  intros [-> | Hin]; [lia |]. specialize (IH Hin). lia.
Qed.

Lemma row_values_length row :
  In row sheet -> List.length (xlrd.row_values sheet row) = xlrd.ncols sheet.
Proof.
  intros Hin. pose proof (row_length_le_ncols row Hin) as Hle.
  unfold xlrd.row_values. rewrite length_app, repeat_length. lia.
Qed.

(** An [int] inside the width of the sheet is the subscript of a cell of
    every row: the stored cell, or the empty text after the last stored
    cell of the row. *)
Lemma cell_value_Int i row (c : nat) :
  nth_error sheet i = Some row ->
  (c < xlrd.ncols sheet)%nat ->
  xlrd.cell_value sheet i (Int (Z.of_nat c))
  = inr (nth c row (xlrd.Text "")).
Proof.
  intros Hrow Hc. unfold xlrd.cell_value, list_getitem. rewrite Hrow.
  destruct (Z.ltb_spec (Z.of_nat c) 0) as [Hneg | _]; [lia |].
  destruct (Z.ltb_spec (Z.of_nat c) 0) as [Hneg | _]; [lia |].
  rewrite Nat2Z.id.
  assert (Hlen : List.length (xlrd.row_values sheet row) = xlrd.ncols sheet).
  { apply row_values_length. eapply nth_error_In. exact Hrow. }
  destruct (nth_error (xlrd.row_values sheet row) c) as [v |] eqn:E.
  - f_equal. apply (nth_error_nth _ _ (xlrd.Text "")) in E. rewrite <- E.
    unfold xlrd.row_values.
    destruct (Nat.lt_ge_cases c (List.length row)) as [Hin | Hout].
    + rewrite app_nth1 by exact Hin. reflexivity.
    + rewrite app_nth2 by exact Hout.
      rewrite (nth_overflow row) by exact Hout.
      apply nth_repeat.
  - apply nth_error_None in E. lia.
Qed.

(** A [str] is no subscript of a row: on a row of the sheet the read
    raises [TypeError], whatever the text. *)
Lemma cell_value_Str i s :
  (i < xlrd.nrows sheet)%nat ->
  xlrd.cell_value sheet i (Str s) = inl TypeError.
Proof.
  intros Hi. unfold xlrd.cell_value.
  destruct (nth_error sheet i) as [row |] eqn:E; [reflexivity |].
  apply nth_error_None in E. unfold xlrd.nrows in Hi. lia.
Qed.

(** With a [str] for a column no cell is ever returned. *)
Lemma cell_value_Str_no_cell i s c : xlrd.cell_value sheet i (Str s) <> inr c.
Proof.
  unfold xlrd.cell_value. destruct (nth_error sheet i); discriminate.
Qed.

(** The iteration for a data row stops at its first read. *)
Lemma load_row_data_raises i st lg :
  (0 < i < xlrd.nrows sheet)%nat -> load_row i st lg = (inl TypeError, lg).
Proof.
  intros [Hpos Hi]. destruct st as [pd pde].
  unfold PaymentsExcelLoader.load_row.
  destruct (Nat.ltb_spec 0 i) as [_ | Hle]; [| lia].
  rewrite (cell_value_Str i _ Hi). reflexivity.
Qed.

(** An iteration that returns is the one of the header, and it has done
    nothing. *)
Lemma load_row_returns i st lg st' lg' :
  load_row i st lg = (inr st', lg') -> i = 0%nat /\ st' = st /\ lg' = lg.
Proof.
  destruct st as [pd pde]. unfold PaymentsExcelLoader.load_row.
  destruct (Nat.ltb_spec 0 i) as [Hpos | Hle].
  - unfold bind, call.
    destruct (xlrd.cell_value sheet i (Str (PAYMENT_EMAIL_COL config)))
      as [e | c] eqn:E; [discriminate |].
    exfalso. exact (cell_value_Str_no_cell i _ c E).
  - intros H. inversion H; subst. repeat split. lia.
Qed.

(** [__LoadSheet], run: a sheet with a data row raises [TypeError] at the
    first of them, before anything is added or logged; a sheet without
    one returns the empty roster and the empty error list. *)
Lemma LoadSheet_run lg :
  PaymentsExcelLoader.__LoadSheet config strptime sheet lg
  = if (2 <=? xlrd.nrows sheet)%nat then (inl TypeError, lg)
    else (inr (PaymentsData.empty, PaymentsDataErrors.empty), lg).
Proof.
  unfold PaymentsExcelLoader.__LoadSheet, range.
  destruct (Nat.leb_spec 2 (xlrd.nrows sheet)) as [Hge | Hlt].
  - replace (xlrd.nrows sheet) with (2 + (xlrd.nrows sheet - 2))%nat at 1
      by lia.
    rewrite seq_app, for_each_app.
    change (seq 0 2) with [0%nat; 1%nat].
    cbn [for_each]. unfold bind at 1 2 3.
    rewrite load_row_header.
    rewrite load_row_data_raises by lia. reflexivity.
  - destruct (xlrd.nrows sheet) as [| [| n]]; [reflexivity | | lia].
    change (seq 0 1) with [0%nat]. cbn [for_each]. unfold bind.
    rewrite load_row_header. reflexivity.
Qed.

End LoadSheetFacts.

(* ================================================================== *)
(** * The statements of the specification about the loader *)
(* ================================================================== *)

(** C1, at the default configuration and a sheet with two rows for
    [bob].  The claim has the second row reported by a
    [DUPLICATED_USERNAME_ERR] entry and the first kept in the roster.  The
    code reads the email cell of the first data row with the configured
    column, the text [A], as subscript: [cell_value] raises [TypeError],
    [__LoadAndCheckAll] logs the failure and raises it again, and neither
    a roster nor an error list is returned. *)
Theorem duplicate_rows_load_raises_TypeError :
  PAYMENT_EMAIL_COL Examples.cfg = "A"%string
  /\ nth_error Examples.sheet_dup 1
     = Some [xlrd.Text "bob@mail"; xlrd.Text " bob ";
             Examples.num "45000.0" 45000 0]
  /\ nth_error Examples.sheet_dup 2
     = Some [xlrd.Text "bob2@mail"; xlrd.Text "bob"; xlrd.Text "01/02/2024"]
  /\ xlrd.cell_value Examples.sheet_dup 1 (Str "A") = inl TypeError
  /\ PaymentsExcelLoader.LoadAll Examples.cfg Examples.open_workbook
       Examples.strptime []
     = (inl TypeError,
        [InfoLoading "payments.xls"; ExceptionLoading "payments.xls"])
  /\ PaymentsExcelLoader.CheckForErrors Examples.cfg Examples.open_workbook
       Examples.strptime []
     = (inl TypeError,
        [InfoLoading "payments.xls"; ExceptionLoading "payments.xls"]).
Proof. repeat split; vm_compute; reflexivity. Qed.

(** C2, at the default configuration and a sheet whose only data row has
    the expiration [garbage].  The claim has the row recorded by one
    [INVALID_DATE_ERR] entry and the load going on.  The code raises
    [TypeError] at the first read of the row, before the expiration is
    looked at: no entry is appended, no warning is logged, and the load
    ends with the exception. *)
Theorem invalid_date_row_load_raises_TypeError :
  nth_error Examples.sheet_bad_date 1
  = Some [xlrd.Text "carl@mail"; xlrd.Text "carl"; xlrd.Text "garbage"]
  /\ xlrd.cell_value Examples.sheet_bad_date 1
       (Str (PAYMENT_EMAIL_COL (Examples.cfg_file "bad_date.xls" false)))
     = inl TypeError
  /\ PaymentsExcelLoader.__LoadSheet (Examples.cfg_file "bad_date.xls" false)
       Examples.strptime Examples.sheet_bad_date []
     = (inl TypeError, [])
  /\ PaymentsExcelLoader.CheckForErrors
       (Examples.cfg_file "bad_date.xls" false) Examples.open_workbook
       Examples.strptime []
     = (inl TypeError,
        [InfoLoading "bad_date.xls"; ExceptionLoading "bad_date.xls"])
  /\ PaymentsExcelLoader.LoadAll
       (Examples.cfg_file "bad_date.xls" false) Examples.open_workbook
       Examples.strptime []
     = (inl TypeError,
        [InfoLoading "bad_date.xls"; ExceptionLoading "bad_date.xls"]).
Proof. repeat split; vm_compute; reflexivity. Qed.





(* ================================================================== *)
(** * The loader's answers do not depend on the log *)
(* ================================================================== *)

Section LogIndependence.

Context {A B : Type}.

Lemma log_independent_ret (a : A) : log_independent (ret a).
Proof. intros lg. unfold ret. simpl. rewrite app_nil_r. reflexivity. Qed.

Lemma log_independent_raise (e : exn) : log_independent (@raise A e).
Proof. intros lg. unfold raise. simpl. rewrite app_nil_r. reflexivity. Qed.

Lemma log_independent_call (r : exn + A) : log_independent (call r).
Proof.
  destruct r; [apply log_independent_raise | apply log_independent_ret].
Qed.

Lemma log_independent_bind (m : M A) (k : A -> M B) :
  log_independent m -> (forall a, log_independent (k a)) ->
  log_independent (bind m k).
Proof.
  intros Hm Hk lg. unfold bind. rewrite (Hm lg).
  destruct (m []) as [[e | a] lg1]; simpl.
  - reflexivity.
  - rewrite (Hk a (lg ++ lg1)), (Hk a lg1). simpl.
    rewrite app_assoc. reflexivity.
Qed.

Lemma log_independent_try_except_reraise (body : M A) (handler : M unit) :
  log_independent body -> log_independent handler ->
  log_independent (try_except_reraise body handler).
Proof.
  intros Hb Hh lg. unfold try_except_reraise. rewrite (Hb lg).
  destruct (body []) as [[e | a] lg1]; simpl.
  - rewrite (Hh (lg ++ lg1)), (Hh lg1).
    destruct (handler []) as [[e' | []] lg2]; simpl;
      rewrite app_assoc; reflexivity.
  - reflexivity.
Qed.

End LogIndependence.

Lemma log_independent_log (r : LogRecord) : log_independent (log r).
Proof. intros lg. reflexivity. Qed.

Lemma log_independent_for_each {A S} (l : list A) (body : A -> S -> M S) :
  (forall x s, log_independent (body x s)) ->
  forall s, log_independent (for_each l body s).
Proof.
  intros Hbody. induction l as [| x l IH]; intros s; simpl.
  - apply log_independent_ret.
  - apply log_independent_bind; [apply Hbody | exact IH].
Qed.

Section LoaderLogIndependence.

Variable config : Config.
Variable open_workbook : string -> exn + xlrd.Book.
Variable strptime : string -> string -> option datetime.t.

Lemma log_independent_add_data row_idx pd pde e u x :
  log_independent (PaymentsExcelLoader.add_data row_idx pd pde e u x).
Proof.
  unfold PaymentsExcelLoader.add_data.
  destruct (PaymentsData.AddPayment e u x pd) as [[|] pd'];
    (apply log_independent_bind;
     [apply log_independent_log | intros _; apply log_independent_ret]).
Qed.

Lemma log_independent_AddPayment row_idx pd pde e u c :
  log_independent
    (PaymentsExcelLoader.__AddPayment config strptime row_idx pd pde e u c).
Proof.
  unfold PaymentsExcelLoader.__AddPayment.
  destruct (xlrd.xldate_as_datetime c) as [err | x].
  - destruct err; try apply log_independent_raise.
    destruct c as [s | n]; [| apply log_independent_raise].
    destruct (strptime (strip s) (PAYMENT_DATE_FORMAT config)).
    + apply log_independent_add_data.
    + apply log_independent_bind;
        [apply log_independent_log | intros _; apply log_independent_ret].
  - apply log_independent_add_data.
Qed.

Lemma log_independent_load_row sheet i st :
  log_independent (PaymentsExcelLoader.load_row config strptime sheet i st).
Proof.
  destruct st as [pd pde]. unfold PaymentsExcelLoader.load_row.
  destruct (0 <? i)%nat; [| apply log_independent_ret].
  apply log_independent_bind; [apply log_independent_call | intros ce].
  apply log_independent_bind; [apply log_independent_call | intros cu].
  apply log_independent_bind; [apply log_independent_call | intros cx].
  destruct (negb (String.eqb (strip (str cu)) ""));
    [apply log_independent_AddPayment | apply log_independent_ret].
Qed.

Lemma log_independent_LoadSheet sheet :
  log_independent (PaymentsExcelLoader.__LoadSheet config strptime sheet).
Proof.
  unfold PaymentsExcelLoader.__LoadSheet.
  apply log_independent_for_each. intros i st.
  apply log_independent_load_row.
Qed.

Lemma log_independent_GetSheet payment_file :
  log_independent (PaymentsExcelLoader.__GetSheet open_workbook payment_file).
Proof.
  unfold PaymentsExcelLoader.__GetSheet.
  apply log_independent_bind; [apply log_independent_call | intros wb].
  apply log_independent_call.
Qed.

Lemma log_independent_LoadAndCheckAll :
  log_independent
    (PaymentsExcelLoader.__LoadAndCheckAll config open_workbook strptime).
Proof.
  unfold PaymentsExcelLoader.__LoadAndCheckAll.
  apply log_independent_try_except_reraise; [| apply log_independent_log].
  apply log_independent_bind; [apply log_independent_log | intros _].
  apply log_independent_bind; [apply log_independent_GetSheet | intros sh].
  apply log_independent_bind; [apply log_independent_LoadSheet | intros r].
  apply log_independent_bind;
    [apply log_independent_log | intros _; apply log_independent_ret].
Qed.

(** The outcome of [__LoadAndCheckAll] is the one of the parse pass. *)
Lemma LoadAndCheckAll_result lg :
  fst (PaymentsExcelLoader.__LoadAndCheckAll config open_workbook strptime
         lg)
  = one_parse_pass config open_workbook strptime.
Proof.
  rewrite (log_independent_LoadAndCheckAll lg). simpl.
  unfold PaymentsExcelLoader.__LoadAndCheckAll, one_parse_pass,
    try_except_reraise, PaymentsExcelLoader.__GetSheet, bind, call, log,
    ret, raise.
  simpl.
  destruct (open_workbook (PAYMENT_EXCEL_FILE config)) as [e | wb];
    [reflexivity |].
  destruct (xlrd.sheet_by_index wb PaymentsExcelLoaderConst.SHEET_IDX)
    as [e | sheet]; [reflexivity |].
  rewrite (log_independent_LoadSheet sheet
             [InfoLoading (PAYMENT_EXCEL_FILE config)]).
  destruct (PaymentsExcelLoader.__LoadSheet config strptime sheet [])
    as [[e | r] lg1]; reflexivity.
Qed.

(** [__LoadAndCheckAll], case by case. *)
Lemma LoadAndCheckAll_unfold lg :
  PaymentsExcelLoader.__LoadAndCheckAll config open_workbook strptime lg
  = let payment_file := PAYMENT_EXCEL_FILE config in
    match open_workbook payment_file with
    | inl e =>
        (inl e, lg ++ [InfoLoading payment_file;
                       ExceptionLoading payment_file])
    | inr wb =>
        match xlrd.sheet_by_index wb PaymentsExcelLoaderConst.SHEET_IDX with
        | inl e =>
            (inl e, lg ++ [InfoLoading payment_file;
                           ExceptionLoading payment_file])
        | inr sheet =>
            match PaymentsExcelLoader.__LoadSheet config strptime sheet []
            with
            | (inl e, rows) =>
                (inl e, lg ++ InfoLoading payment_file
                           :: rows ++ [ExceptionLoading payment_file])
            | (inr r, rows) =>
                (inr r, lg ++ InfoLoading payment_file
                           :: rows
                           ++ [InfoLoaded payment_file
                                 (PaymentsData.Count (fst r))])
            end
        end
    end.
Proof.
  unfold PaymentsExcelLoader.__LoadAndCheckAll, try_except_reraise,
    PaymentsExcelLoader.__GetSheet, bind, call, log, ret, raise.
  simpl.
  destruct (open_workbook (PAYMENT_EXCEL_FILE config)) as [e | wb].
  { rewrite <- app_assoc. reflexivity. }
  destruct (xlrd.sheet_by_index wb PaymentsExcelLoaderConst.SHEET_IDX)
    as [e | sheet].
  { rewrite <- app_assoc. reflexivity. }
  rewrite (log_independent_LoadSheet sheet
             (lg ++ [InfoLoading (PAYMENT_EXCEL_FILE config)])).
  destruct (PaymentsExcelLoader.__LoadSheet config strptime sheet [])
    as [[e | r] rows]; simpl;
    repeat rewrite <- app_assoc; reflexivity.
Qed.

End LoaderLogIndependence.

(** C8.  For a fixed source content the three capabilities answer from
    one parse pass: whatever was logged before each call, [LoadAll]
    returns the roster and [CheckForErrors] the error list of the same
    pair, the one of the parse pass (or both raise its exception), and
    [LoadSingleByUsername u] returns what looking [u] up in the roster of
    [LoadAll] gives. *)
Theorem loader_capabilities_one_parse_pass :
  forall (config : Config) open_workbook strptime (u : string) lg1 lg2 lg3,
    fst (PaymentsExcelLoader.LoadAll config open_workbook strptime lg1)
    = on_result fst (one_parse_pass config open_workbook strptime)
    /\ fst (PaymentsExcelLoader.CheckForErrors config open_workbook strptime
              lg2)
       = on_result snd (one_parse_pass config open_workbook strptime)
    /\ fst (PaymentsExcelLoader.LoadSingleByUsername config open_workbook
              strptime u lg3)
       = on_result (PaymentsData.GetByUsername u)
           (fst (PaymentsExcelLoader.LoadAll config open_workbook strptime
                   lg1)).
Proof.
  intros config open_workbook strptime u lg1 lg2 lg3.
  assert (Hall : forall lg,
             fst (PaymentsExcelLoader.LoadAll config open_workbook strptime
                    lg)
             = on_result fst (one_parse_pass config open_workbook strptime)).
  { intros lg. unfold PaymentsExcelLoader.LoadAll, bind.
    rewrite <- (LoadAndCheckAll_result config open_workbook strptime lg).
    destruct (PaymentsExcelLoader.__LoadAndCheckAll config open_workbook
                strptime lg) as [[e | r] lg']; reflexivity. }
  split; [apply Hall | split].
  - unfold PaymentsExcelLoader.CheckForErrors, bind.
    rewrite <- (LoadAndCheckAll_result config open_workbook strptime lg2).
    destruct (PaymentsExcelLoader.__LoadAndCheckAll config open_workbook
                strptime lg2) as [[e | r] lg']; reflexivity.
  - rewrite (Hall lg1), <- (Hall lg3).
    unfold PaymentsExcelLoader.LoadSingleByUsername, bind.
    destruct (PaymentsExcelLoader.LoadAll config open_workbook strptime lg3)
      as [[e | pd] lg']; reflexivity.
Qed.

(** C9.  If opening the payment file fails, or selecting its sheet, or
    reading its rows, the loader logs the failure and raises the same
    exception again: [__LoadAndCheckAll], [LoadAll], [CheckForErrors] and
    [LoadSingleByUsername] all raise it, the log ends with the record of
    the failure, and no roster, partial or not, is returned. *)
Theorem source_failure_logged_and_reraised :
  forall (config : Config) open_workbook strptime (e : exn),
    (open_workbook (PAYMENT_EXCEL_FILE config) = inl e
     \/ (exists wb,
           open_workbook (PAYMENT_EXCEL_FILE config) = inr wb
           /\ (xlrd.sheet_by_index wb PaymentsExcelLoaderConst.SHEET_IDX
               = inl e
               \/ exists sheet,
                    xlrd.sheet_by_index wb PaymentsExcelLoaderConst.SHEET_IDX
                    = inr sheet
                    /\ fst (PaymentsExcelLoader.__LoadSheet config strptime
                              sheet []) = inl e))) ->
    forall lg u,
      exists rows,
        let lg' :=
          lg ++ InfoLoading (PAYMENT_EXCEL_FILE config)
             :: rows ++ [ExceptionLoading (PAYMENT_EXCEL_FILE config)] in
        PaymentsExcelLoader.__LoadAndCheckAll config open_workbook
          strptime lg = (inl e, lg')
        /\ PaymentsExcelLoader.LoadAll config open_workbook strptime lg
           = (inl e, lg')
        /\ PaymentsExcelLoader.CheckForErrors config open_workbook
             strptime lg = (inl e, lg')
        /\ PaymentsExcelLoader.LoadSingleByUsername config open_workbook
             strptime u lg = (inl e, lg').
Proof.
  intros config open_workbook strptime e Hfail lg u.
  assert (Hrun :
            exists rows,
              PaymentsExcelLoader.__LoadAndCheckAll config open_workbook
                strptime lg
              = (inl e,
                 lg ++ InfoLoading (PAYMENT_EXCEL_FILE config)
                    :: rows
                    ++ [ExceptionLoading (PAYMENT_EXCEL_FILE config)])).
  { rewrite LoadAndCheckAll_unfold. simpl.
    destruct Hfail as [H | (wb & H & [Hs | (sheet & Hs & Hrows)])];
      rewrite H; try rewrite Hs.
    - exists []. reflexivity.
    - exists []. reflexivity.
    - destruct (PaymentsExcelLoader.__LoadSheet config strptime sheet [])
        as [[e1 | r] rows]; simpl in Hrows; [| discriminate].
      inversion Hrows; subst. exists rows. reflexivity. }
  destruct Hrun as [rows H]. exists rows. simpl.
  unfold PaymentsExcelLoader.LoadSingleByUsername,
    PaymentsExcelLoader.LoadAll, PaymentsExcelLoader.CheckForErrors, bind.
  rewrite H. repeat split.
Qed.

(** The statement of C9 at a file that does not exist. *)
Lemma source_failure_logged_and_reraised_witness :
  Examples.open_workbook (PAYMENT_EXCEL_FILE Examples.cfg_missing)
  = inl FileNotFoundError
  /\ fst (PaymentsExcelLoader.LoadAll Examples.cfg_missing
            Examples.open_workbook Examples.strptime [])
     = inl FileNotFoundError
  /\ exists l,
       snd (PaymentsExcelLoader.LoadAll Examples.cfg_missing
              Examples.open_workbook Examples.strptime [])
       = l ++ [ExceptionLoading "missing.xls"].
Proof.
  destruct (source_failure_logged_and_reraised Examples.cfg_missing
              Examples.open_workbook Examples.strptime FileNotFoundError
              (or_introl eq_refl) [] "bob")
    as (rows & _ & H & _).
  rewrite H. split; [reflexivity | split; [reflexivity |]].
  exists (InfoLoading "missing.xls" :: rows). reflexivity.
Defined.


(* ================================================================== *)
(** * Properties of the kicker *)
(* ================================================================== *)

Lemma kicks_app (l1 l2 : list Event) : kicks (l1 ++ l2) = kicks l1 ++ kicks l2.
Proof. apply filter_app. Qed.

Lemma kicks_kick_events chat members :
  kicks (kick_events chat members)
  = map (fun member => KickUser chat (member_user member)) members.
Proof.
  induction members as [| m members IH]; simpl; [reflexivity |].
  unfold kicks in *. simpl. rewrite IH. reflexivity.
Qed.

(** A removal call and its pause, put before events with a pause between
    any two removal calls. *)
Lemma paused_between_kicks_cons chat user (events : list Event) :
  paused_between_kicks events ->
  paused_between_kicks
    (KickUser chat user :: Sleep MembersKickerConst.SLEEP_TIME_SEC :: events).
Proof.
  intros IH l1 a l2 b l3 Heq Ha Hb.
  destruct l1 as [| x [| y l1]]; simpl in Heq.
  - inversion Heq as [[Hk Hrest]].
    destruct l2 as [| z l2]; simpl in Hrest.
    + inversion Hrest; subst b. discriminate.
    + inversion Hrest; subst z. left. reflexivity.
  - inversion Heq; subst a. discriminate.
  - inversion Heq as [[Hx Hy Hrest]].
    apply (IH l1 a l2 b l3); assumption.
Qed.

Lemma paused_between_kicks_single (ev : Event) : paused_between_kicks [ev].
Proof.
  intros l1 a l2 b l3 Heq _ _. exfalso.
  destruct l1 as [| x l1]; simpl in Heq.
  - injection Heq as _ H. destruct l2; discriminate.
  - injection Heq as _ H. destruct l1; discriminate.
Qed.

Lemma paused_between_kicks_nil : paused_between_kicks [].
Proof. intros l1 a l2 b l3 Heq. destruct l1; discriminate. Qed.

Lemma paused_between_kick_events chat members :
  paused_between_kicks (kick_events chat members).
Proof.
  induction members as [| m members IH]; simpl.
  - apply paused_between_kicks_nil.
  - apply paused_between_kicks_cons. exact IH.
Qed.

(** The events of a bulk removal that stops at a call that raises. *)
Lemma paused_between_kick_events_and_call chat before user :
  paused_between_kicks (kick_events chat before ++ [KickUser chat user]).
Proof.
  induction before as [| m before IH]; simpl.
  - apply paused_between_kicks_single.
  - apply paused_between_kicks_cons. exact IH.
Qed.

Lemma In_firstn_In {A} (n : nat) (l : list A) (x : A) :
  In x (firstn n l) -> In x l.
Proof.
  revert l. induction n as [| n IH]; intros [| y l]; simpl; try tauto.
  intros [H | H]; [left; exact H | right; apply IH; exact H].
Qed.

Section KickerFacts.

Variable config : Config.
Variable KickUser_outcome : list Event -> Chat -> option User -> option exn.

(** The body of the loop of [__KickMultiple]. *)
Local Abbreviation kick_and_sleep chat :=
  (fun member : ChatMember =>
     kbind
       (MembersKicker.ban_helper_KickUser KickUser_outcome chat
          (member_user member))
       (fun _ => emit (Sleep MembersKickerConst.SLEEP_TIME_SEC))).

Lemma kick_and_sleep_run chat member tr :
  kick_and_sleep chat member tr
  = match KickUser_outcome tr chat (member_user member) with
    | None =>
        (inr tt,
         tr ++ [KickUser chat (member_user member);
                Sleep MembersKickerConst.SLEEP_TIME_SEC])
    | Some e => (inl e, tr ++ [KickUser chat (member_user member)])
    end.
Proof.
  unfold kbind, MembersKicker.ban_helper_KickUser, emit.
  destruct (KickUser_outcome tr chat (member_user member)); [reflexivity |].
  rewrite <- app_assoc. reflexivity.
Qed.

(** The loop when none of its removal calls raises. *)
Lemma kfor_kick_all_return chat members : forall tr,
  (forall before member after,
      members = before ++ member :: after ->
      KickUser_outcome (tr ++ kick_events chat before) chat
        (member_user member) = None) ->
  kfor members (kick_and_sleep chat) tr
  = (inr tt, tr ++ kick_events chat members).
Proof.
  induction members as [| m members IH]; intros tr Hok.
  - simpl. unfold kret. rewrite app_nil_r. reflexivity.
  - cbn [kfor]. unfold kbind at 1. rewrite kick_and_sleep_run.
    pose proof (Hok [] m members eq_refl) as H0.
    simpl in H0. rewrite app_nil_r in H0. rewrite H0.
    rewrite IH.
    + simpl. rewrite <- app_assoc. reflexivity.
    + intros before member after ->.
      rewrite <- app_assoc.
      apply (Hok (m :: before) member after). reflexivity.
Qed.

(** The loop when the call for [member] is the first to raise. *)
Lemma kfor_kick_stops chat before member after e : forall tr,
  (forall b1 m1 a1,
      before = b1 ++ m1 :: a1 ->
      KickUser_outcome (tr ++ kick_events chat b1) chat (member_user m1)
      = None) ->
  KickUser_outcome (tr ++ kick_events chat before) chat (member_user member)
  = Some e ->
  kfor (before ++ member :: after) (kick_and_sleep chat) tr
  = (inl e,
     tr ++ kick_events chat before ++ [KickUser chat (member_user member)]).
Proof.
  induction before as [| m before IH]; intros tr Hok Hfail.
  - simpl in *. rewrite app_nil_r in Hfail.
    unfold kbind at 1. rewrite kick_and_sleep_run, Hfail. reflexivity.
  - cbn [kfor app]. unfold kbind at 1. rewrite kick_and_sleep_run.
    pose proof (Hok [] m before eq_refl) as H0.
    simpl in H0. rewrite app_nil_r in H0. rewrite H0.
    rewrite IH.
    + simpl. rewrite <- app_assoc. reflexivity.
    + intros b1 m1 a1 ->. rewrite <- app_assoc.
      apply (Hok (m :: b1) m1 a1). reflexivity.
    + rewrite <- app_assoc. exact Hfail.
Qed.

(** The loop in every case: the events it adds are calls for the first
    members of the list, in their order, with a pause between any two. *)
Lemma kfor_kick_events chat members : forall tr,
  exists events n,
    snd (kfor members (kick_and_sleep chat) tr) = tr ++ events
    /\ paused_between_kicks events
    /\ kicks events
       = map (fun member => KickUser chat (member_user member))
           (firstn n members).
Proof.
  induction members as [| m members IH]; intros tr.
  - exists [], O. simpl. rewrite app_nil_r.
    split; [reflexivity | split; [apply paused_between_kicks_nil |]].
    reflexivity.
  - cbn [kfor]. unfold kbind at 1. rewrite kick_and_sleep_run.
    destruct (KickUser_outcome tr chat (member_user m)) as [e |].
    + exists [KickUser chat (member_user m)], 1%nat. simpl.
      split; [reflexivity | split; [apply paused_between_kicks_single |]].
      reflexivity.
    + destruct (IH (tr ++ [KickUser chat (member_user m);
                           Sleep MembersKickerConst.SLEEP_TIME_SEC]))
        as (events & n & Hrun & Hpaused & Hkicks).
      exists (KickUser chat (member_user m)
              :: Sleep MembersKickerConst.SLEEP_TIME_SEC :: events), (S n).
      split; [rewrite Hrun, <- app_assoc; reflexivity |].
      split; [apply paused_between_kicks_cons; exact Hpaused |].
      simpl. unfold kicks in *. simpl. rewrite Hkicks. reflexivity.
Qed.

Lemma KickSingle_run chat user tr :
  MembersKicker.__KickSingle config KickUser_outcome chat user tr
  = if APP_TEST_MODE config then (inr tt, tr ++ [InfoTestMode])
    else match KickUser_outcome tr chat (Some user) with
         | None => (inr tt, tr ++ [KickUser chat (Some user)])
         | Some e => (inl e, tr ++ [KickUser chat (Some user)])
         end.
Proof.
  unfold MembersKicker.__KickSingle, MembersKicker.ban_helper_KickUser, emit.
  destruct (APP_TEST_MODE config); reflexivity.
Qed.

Lemma KickMultiple_test_mode chat members tr :
  APP_TEST_MODE config = true ->
  MembersKicker.__KickMultiple config KickUser_outcome chat members tr
  = (inr tt, tr ++ [InfoTestMode]).
Proof.
  intros H. unfold MembersKicker.__KickMultiple. rewrite H. reflexivity.
Qed.

Lemma KickMultiple_off chat members tr :
  APP_TEST_MODE config = false ->
  MembersKicker.__KickMultiple config KickUser_outcome chat members tr
  = kfor members (kick_and_sleep chat) tr.
Proof.
  intros H. unfold MembersKicker.__KickMultiple. rewrite H. reflexivity.
Qed.

(** What [__KickMultiple] adds to the trace holds no other removal call
    than calls for members of the list, for the chat, with test mode
    off. *)
Lemma KickMultiple_kicks chat members tr chat' user :
  In (KickUser chat' user)
    (snd (MembersKicker.__KickMultiple config KickUser_outcome chat members
            tr)) ->
  In (KickUser chat' user) tr
  \/ (APP_TEST_MODE config = false
      /\ chat' = chat
      /\ exists member, In member members /\ user = member_user member).
Proof.
  destruct (APP_TEST_MODE config) eqn:Emode.
  - rewrite KickMultiple_test_mode by exact Emode. simpl.
    rewrite in_app_iff. intros [H | [H | []]]; [left; exact H | discriminate].
  - rewrite KickMultiple_off by exact Emode.
    destruct (kfor_kick_events chat members tr)
      as (events & n & Hrun & _ & Hkicks).
    rewrite Hrun, in_app_iff. intros [H | H]; [left; exact H | right].
    assert (Hk : In (KickUser chat' user) (kicks events)).
    { unfold kicks. apply filter_In. split; [exact H | reflexivity]. }
    rewrite Hkicks in Hk. apply in_map_iff in Hk.
    destruct Hk as (m & Hm & Hin). inversion Hm; subst chat' user.
    split; [reflexivity | split; [reflexivity |]].
    exists m. split; [| reflexivity].
    apply (In_firstn_In n members). exact Hin.
Qed.

(** An entry point: the removal, then the answer computed before it. *)
Lemma kbind_kret_run {A} (m : K unit) (v : A) tr :
  kbind m (fun _ => kret v) tr
  = match m tr with
    | (inl e, tr') => (inl e, tr')
    | (inr _, tr') => (inr v, tr')
    end.
Proof. unfold kbind, kret. destruct (m tr) as [[e | u] tr']; reflexivity. Qed.

Lemma kbind_kret_returns {A} (m : K unit) (v w : A) tr :
  fst (kbind m (fun _ => kret v) tr) = inr w -> w = v.
Proof.
  rewrite kbind_kret_run. destruct (m tr) as [[e | u] tr']; simpl; congruence.
Qed.

End KickerFacts.

(** The four entry points of the kicker in test mode: the answer of the
    getter or of the test, and the one message when a removal was due. *)
Lemma KickAllWithExpiredPayment_test_mode config getall outcome chat tr :
  APP_TEST_MODE config = true ->
  MembersKicker.KickAllWithExpiredPayment config getall outcome chat tr
  = (inr (getall chat),
     tr ++ (if Any (getall chat) then [InfoTestMode] else [])).
Proof.
  intros Hon. unfold MembersKicker.KickAllWithExpiredPayment.
  rewrite kbind_kret_run. destruct (Any (getall chat)).
  - rewrite KickMultiple_test_mode by exact Hon. reflexivity.
  - unfold kret. rewrite app_nil_r. reflexivity.
Qed.

Lemma KickSingleIfExpiredPayment_test_mode config expired outcome chat user
    tr :
  APP_TEST_MODE config = true ->
  MembersKicker.KickSingleIfExpiredPayment config expired outcome chat user tr
  = (inr (expired chat user),
     tr ++ (if expired chat user then [InfoTestMode] else [])).
Proof.
  intros Hon. unfold MembersKicker.KickSingleIfExpiredPayment.
  rewrite kbind_kret_run. destruct (expired chat user).
  - rewrite KickSingle_run, Hon. reflexivity.
  - unfold kret. rewrite app_nil_r. reflexivity.
Qed.

Lemma KickAllWithNoUsername_test_mode config members valid outcome chat tr :
  APP_TEST_MODE config = true ->
  MembersKicker.KickAllWithNoUsername config members valid outcome chat tr
  = (inr (MembersUsernameGetter.GetAllWithNoUsername members valid chat),
     tr ++ (if Any (MembersUsernameGetter.GetAllWithNoUsername members valid
                      chat)
            then [InfoTestMode] else [])).
Proof.
  intros Hon. unfold MembersKicker.KickAllWithNoUsername.
  rewrite kbind_kret_run.
  destruct (Any (MembersUsernameGetter.GetAllWithNoUsername members valid
                   chat)).
  - rewrite KickMultiple_test_mode by exact Hon. reflexivity.
  - unfold kret. rewrite app_nil_r. reflexivity.
Qed.

Lemma KickSingleIfNoUsername_run config outcome chat user tr :
  MembersKicker.KickSingleIfNoUsername config outcome chat user tr
  = match user_username user with
    | Some _ => (inr false, tr)
    | None =>
        if APP_TEST_MODE config then (inr true, tr ++ [InfoTestMode])
        else match outcome tr chat (Some user) with
             | None => (inr true, tr ++ [KickUser chat (Some user)])
             | Some e => (inl e, tr ++ [KickUser chat (Some user)])
             end
    end.
Proof.
  unfold MembersKicker.KickSingleIfNoUsername. rewrite kbind_kret_run.
  destruct (user_username user); [reflexivity |].
  rewrite KickSingle_run.
  destruct (APP_TEST_MODE config); [reflexivity |].
  destruct (outcome tr chat (Some user)); reflexivity.
Qed.

Lemma kicks_test_mode_tail (tr : list Event) (b : bool) :
  kicks (tr ++ (if b then [InfoTestMode] else [])) = kicks tr.
Proof.
  rewrite kicks_app. destruct b; simpl; apply app_nil_r.
Qed.

(** A bulk entry point with test mode off, when no removal call of the
    batch raises. *)
Lemma bulk_entry_all_return config outcome chat members tr :
  APP_TEST_MODE config = false ->
  (forall before member after,
      members = before ++ member :: after ->
      outcome (tr ++ kick_events chat before) chat (member_user member)
      = None) ->
  kbind
    (if Any members
     then MembersKicker.__KickMultiple config outcome chat members
     else kret tt)
    (fun _ => kret members) tr
  = (inr members, tr ++ kick_events chat members).
Proof.
  intros Hoff Hok. rewrite kbind_kret_run.
  destruct members as [| m members].
  - simpl. unfold kret. rewrite app_nil_r. reflexivity.
  - cbn [Any]. rewrite KickMultiple_off by exact Hoff.
    rewrite kfor_kick_all_return by exact Hok. reflexivity.
Qed.

(* ================================================================== *)
(** * The statements of the specification about the kicker *)
(* ================================================================== *)

(** C3.  With the test-mode flag true, each of the four entry points of
    the kicker returns the answer computed before the removal (the list
    of [GetAllMembersWithExpiredPayment] or of [GetAllWithNoUsername],
    the boolean of [IsSingleMemberExpired] or of the test of the
    username) and issues no removal call: the removal calls after the
    call are the ones before it.  With the flag false, whatever an entry
    point returns is that same answer, the one returned with the flag
    true; and it does return it when no removal call raises (when one
    does, the exception goes to the caller and nothing is returned). *)
Theorem test_mode_same_result_no_removal :
  forall (config_on config_off : Config) get_chat_members IsValidMember
         GetAllMembersWithExpiredPayment IsSingleMemberExpired
         KickUser_outcome (chat : Chat) (user : User)
         (tr1 tr2 : list Event),
    APP_TEST_MODE config_on = true ->
    APP_TEST_MODE config_off = false ->
    (fst (MembersKicker.KickAllWithExpiredPayment config_on
            GetAllMembersWithExpiredPayment KickUser_outcome chat tr1)
     = inr (GetAllMembersWithExpiredPayment chat)
     /\ fst (MembersKicker.KickSingleIfExpiredPayment config_on
               IsSingleMemberExpired KickUser_outcome chat user tr1)
        = inr (IsSingleMemberExpired chat user)
     /\ fst (MembersKicker.KickAllWithNoUsername config_on get_chat_members
               IsValidMember KickUser_outcome chat tr1)
        = inr (MembersUsernameGetter.GetAllWithNoUsername get_chat_members
                 IsValidMember chat)
     /\ fst (MembersKicker.KickSingleIfNoUsername config_on KickUser_outcome
               chat user tr1)
        = inr (match user_username user with
               | None => true
               | Some _ => false
               end))
    /\ (kicks (snd (MembersKicker.KickAllWithExpiredPayment config_on
                      GetAllMembersWithExpiredPayment KickUser_outcome chat
                      tr1))
        = kicks tr1
        /\ kicks (snd (MembersKicker.KickSingleIfExpiredPayment config_on
                         IsSingleMemberExpired KickUser_outcome chat user
                         tr1))
           = kicks tr1
        /\ kicks (snd (MembersKicker.KickAllWithNoUsername config_on
                         get_chat_members IsValidMember KickUser_outcome chat
                         tr1))
           = kicks tr1
        /\ kicks (snd (MembersKicker.KickSingleIfNoUsername config_on
                         KickUser_outcome chat user tr1))
           = kicks tr1)
    /\ ((forall l,
            fst (MembersKicker.KickAllWithExpiredPayment config_off
                   GetAllMembersWithExpiredPayment KickUser_outcome chat tr2)
            = inr l ->
            fst (MembersKicker.KickAllWithExpiredPayment config_on
                   GetAllMembersWithExpiredPayment KickUser_outcome chat tr1)
            = inr l)
        /\ (forall b,
               fst (MembersKicker.KickSingleIfExpiredPayment config_off
                      IsSingleMemberExpired KickUser_outcome chat user tr2)
               = inr b ->
               fst (MembersKicker.KickSingleIfExpiredPayment config_on
                      IsSingleMemberExpired KickUser_outcome chat user tr1)
               = inr b)
        /\ (forall l,
               fst (MembersKicker.KickAllWithNoUsername config_off
                      get_chat_members IsValidMember KickUser_outcome chat
                      tr2)
               = inr l ->
               fst (MembersKicker.KickAllWithNoUsername config_on
                      get_chat_members IsValidMember KickUser_outcome chat
                      tr1)
               = inr l)
        /\ (forall b,
               fst (MembersKicker.KickSingleIfNoUsername config_off
                      KickUser_outcome chat user tr2)
               = inr b ->
               fst (MembersKicker.KickSingleIfNoUsername config_on
                      KickUser_outcome chat user tr1)
               = inr b))
    /\ ((forall tr u, KickUser_outcome tr chat u = None) ->
        fst (MembersKicker.KickAllWithExpiredPayment config_off
               GetAllMembersWithExpiredPayment KickUser_outcome chat tr2)
        = inr (GetAllMembersWithExpiredPayment chat)
        /\ fst (MembersKicker.KickSingleIfExpiredPayment config_off
                  IsSingleMemberExpired KickUser_outcome chat user tr2)
           = inr (IsSingleMemberExpired chat user)
        /\ fst (MembersKicker.KickAllWithNoUsername config_off
                  get_chat_members IsValidMember KickUser_outcome chat tr2)
           = inr (MembersUsernameGetter.GetAllWithNoUsername get_chat_members
                    IsValidMember chat)
        /\ fst (MembersKicker.KickSingleIfNoUsername config_off
                  KickUser_outcome chat user tr2)
           = inr (match user_username user with
                  | None => true
                  | Some _ => false
                  end)).
Proof.
  intros config_on config_off members valid getall expired outcome chat user
         tr1 tr2 Hon Hoff.
  rewrite !(KickAllWithExpiredPayment_test_mode config_on) by exact Hon.
  rewrite !(KickSingleIfExpiredPayment_test_mode config_on) by exact Hon.
  rewrite !(KickAllWithNoUsername_test_mode config_on) by exact Hon.
  rewrite !(KickSingleIfNoUsername_run config_on), Hon.
  cbn [fst snd].
  split; [| split; [| split]].
  - repeat split. destruct (user_username user); reflexivity.
  - repeat split; try apply kicks_test_mode_tail.
    destruct (user_username user); [reflexivity |].
    apply (kicks_test_mode_tail tr1 true).
  - repeat split.
    + intros l H. apply kbind_kret_returns in H. rewrite H. reflexivity.
    + intros b H. apply kbind_kret_returns in H. rewrite H. reflexivity.
    + intros l H. apply kbind_kret_returns in H. rewrite H. reflexivity.
    + intros b H. apply kbind_kret_returns in H. rewrite H.
      destruct (user_username user); reflexivity.
  - intros Hok. repeat split.
    + unfold MembersKicker.KickAllWithExpiredPayment.
      rewrite bulk_entry_all_return; [reflexivity | exact Hoff |].
      intros. apply Hok.
    + unfold MembersKicker.KickSingleIfExpiredPayment.
      rewrite kbind_kret_run. destruct (expired chat user); [| reflexivity].
      rewrite KickSingle_run, Hoff, Hok. reflexivity.
    + unfold MembersKicker.KickAllWithNoUsername.
      rewrite bulk_entry_all_return; [reflexivity | exact Hoff |].
      intros. apply Hok.
    + rewrite KickSingleIfNoUsername_run, Hoff, Hok.
      destruct (user_username user); reflexivity.
Qed.

(** The statement of C3 at a chat of three members, all of them without
    a payment: in test mode the three are returned and the one event is
    the log message; with test mode off and a client whose calls return,
    the same three are returned. *)
Lemma test_mode_same_result_no_removal_witness :
  MembersKicker.KickAllWithExpiredPayment Examples.cfg_test
    Examples.get_chat_members Examples.client_ok 1 []
  = (inr (Examples.get_chat_members 1), [InfoTestMode])
  /\ kicks (snd (MembersKicker.KickAllWithExpiredPayment Examples.cfg_test
                   Examples.get_chat_members Examples.client_ok 1 []))
     = []
  /\ fst (MembersKicker.KickAllWithExpiredPayment Examples.cfg
            Examples.get_chat_members Examples.client_ok 1 [])
     = inr (Examples.get_chat_members 1).
Proof.
  destruct (test_mode_same_result_no_removal Examples.cfg_test Examples.cfg
              Examples.get_chat_members IsValidMember_spec
              Examples.get_chat_members (fun _ _ => true) Examples.client_ok
              1 Examples.ann [] [] eq_refl eq_refl)
    as (_ & (Hnone & _) & _ & Hoff).
  destruct (Hoff (fun _ _ => eq_refl)) as (H & _).
  split; [reflexivity | split; [exact Hnone | exact H]].
Defined.

(** C6, as the code has it.  With test mode off, a bulk removal of [N]
    members in which no removal call raises issues the call [N] times,
    one member after the other in the order of the snapshot, each call
    followed by a pause of [SLEEP_TIME_SEC], which is 10 ms.  When the
    call for a member raises, the removal stops there: the members before
    it had their call and their pause, the exception goes to the caller,
    and no call is made for the members after it.  In every case the
    calls made are calls for the first members of the snapshot, in their
    order, and between any two of them there is a pause.  The bulk entry
    points add the same events when no call raises. *)
Theorem bulk_removal_sequential_and_throttled :
  forall (config : Config) KickUser_outcome (chat : Chat)
         (members : ChatMembersList) (tr : list Event),
    APP_TEST_MODE config = false ->
    ((forall before member after,
         members = before ++ member :: after ->
         KickUser_outcome (tr ++ kick_events chat before) chat
           (member_user member) = None) ->
     MembersKicker.__KickMultiple config KickUser_outcome chat members tr
     = (inr tt, tr ++ kick_events chat members)
     /\ List.length (kicks (kick_events chat members)) = List.length members
     /\ kicks (kick_events chat members)
        = map (fun member => KickUser chat (member_user member)) members
     /\ paused_between_kicks (kick_events chat members)
     /\ (forall getall,
            getall chat = members ->
            MembersKicker.KickAllWithExpiredPayment config getall
              KickUser_outcome chat tr
            = (inr members, tr ++ kick_events chat members)))
    /\ (forall before member after e,
           members = before ++ member :: after ->
           (forall b1 m1 a1,
               before = b1 ++ m1 :: a1 ->
               KickUser_outcome (tr ++ kick_events chat b1) chat
                 (member_user m1) = None) ->
           KickUser_outcome (tr ++ kick_events chat before) chat
             (member_user member) = Some e ->
           MembersKicker.__KickMultiple config KickUser_outcome chat members
             tr
           = (inl e,
              tr ++ kick_events chat before
                 ++ [KickUser chat (member_user member)])
           /\ paused_between_kicks
                (kick_events chat before
                 ++ [KickUser chat (member_user member)]))
    /\ (exists events n,
           snd (MembersKicker.__KickMultiple config KickUser_outcome chat
                  members tr)
           = tr ++ events
           /\ paused_between_kicks events
           /\ kicks events
              = map (fun member => KickUser chat (member_user member))
                  (firstn n members))
    /\ (MembersKickerConst.SLEEP_TIME_SEC * 1000 == 10)%Q.
Proof.
  intros config outcome chat members tr Hoff.
  rewrite KickMultiple_off by exact Hoff.
  split; [| split; [| split]].
  - intros Hok.
    split; [apply kfor_kick_all_return; exact Hok |].
    split; [rewrite kicks_kick_events; apply length_map |].
    split; [apply kicks_kick_events |].
    split; [apply paused_between_kick_events |].
    intros getall Hget. unfold MembersKicker.KickAllWithExpiredPayment.
    rewrite Hget. apply bulk_entry_all_return; assumption.
  - intros before member after e -> Hok Hfail.
    split; [apply kfor_kick_stops; assumption |].
    apply paused_between_kick_events_and_call.
  - apply kfor_kick_events.
  - reflexivity.
Qed.

(** The statement of C6 at a snapshot of three members and a client whose
    calls return. *)
Lemma bulk_removal_sequential_and_throttled_witness :
  MembersKicker.__KickMultiple Examples.cfg Examples.client_ok 1
    (Examples.get_chat_members 1) []
  = (inr tt,
     [KickUser 1 (Some Examples.a_bot); Sleep (1 # 100);
      KickUser 1 (Some Examples.ann); Sleep (1 # 100);
      KickUser 1 (Some Examples.joe); Sleep (1 # 100)]).
Proof.
  destruct (bulk_removal_sequential_and_throttled Examples.cfg
              Examples.client_ok 1 (Examples.get_chat_members 1) [] eq_refl)
    as (Hall & _).
  destruct (Hall (fun _ _ _ _ => eq_refl)) as (H & _).
  rewrite H. reflexivity.
Defined.

(** C6 as stated fails: with test mode off and a client that accepts one
    removal call and raises from the second on, the bulk removal of three
    members makes two calls, not three; the second raises and no call is
    made for the third member. *)
Lemma bulk_removal_stops_at_failed_call_counterexample :
  APP_TEST_MODE Examples.cfg = false
  /\ List.length (Examples.get_chat_members 1) = 3%nat
  /\ MembersKicker.__KickMultiple Examples.cfg Examples.client_one_call 1
       (Examples.get_chat_members 1) []
     = (inl RPCError,
        [KickUser 1 (Some Examples.a_bot); Sleep (1 # 100);
         KickUser 1 (Some Examples.ann)])
  /\ List.length
       (kicks (snd (MembersKicker.__KickMultiple Examples.cfg
                      Examples.client_one_call 1
                      (Examples.get_chat_members 1) [])))
     = 2%nat
  /\ ~ In (KickUser 1 (Some Examples.joe))
         (snd (MembersKicker.__KickMultiple Examples.cfg
                 Examples.client_one_call 1 (Examples.get_chat_members 1)
                 [])).
Proof.
  repeat split; try (vm_compute; reflexivity).
  intros H. vm_compute in H.
  destruct H as [H | [H | [H | []]]]; discriminate H.
Qed.

(** C10.  [KickSingleIfNoUsername] decides on the username alone: for a
    user without a username it goes on to the removal (the removal call,
    or the log message in test mode) and answers true when that returns,
    whether or not the validity check accepts the member.  So it does for
    a member that the check refuses, while [KickAllWithNoUsername]
    neither returns nor removes such a member: every member of the list
    of [GetAllWithNoUsername], which is the list it returns and the only
    members it makes removal calls for, passes the check. *)
Theorem single_no_username_skips_validity_check :
  forall (config : Config) get_chat_members IsValidMember KickUser_outcome
         (chat : Chat) (member : ChatMember) (user : User)
         (tr : list Event),
    member_user member = Some user ->
    user_username user = None ->
    IsValidMember member = false ->
    MembersKicker.KickSingleIfNoUsername config KickUser_outcome chat user tr
    = (if APP_TEST_MODE config then (inr true, tr ++ [InfoTestMode])
       else match KickUser_outcome tr chat (Some user) with
            | None => (inr true, tr ++ [KickUser chat (Some user)])
            | Some e => (inl e, tr ++ [KickUser chat (Some user)])
            end)
    /\ ~ In member
         (MembersUsernameGetter.GetAllWithNoUsername get_chat_members
            IsValidMember chat)
    /\ Forall (fun m => IsValidMember m = true)
         (MembersUsernameGetter.GetAllWithNoUsername get_chat_members
            IsValidMember chat)
    /\ (forall l,
           fst (MembersKicker.KickAllWithNoUsername config get_chat_members
                  IsValidMember KickUser_outcome chat tr) = inr l ->
           l = MembersUsernameGetter.GetAllWithNoUsername get_chat_members
                 IsValidMember chat
           /\ ~ In member l
           /\ Forall (fun m => IsValidMember m = true) l)
    /\ (forall chat' u,
           In (KickUser chat' u)
             (snd (MembersKicker.KickAllWithNoUsername config
                     get_chat_members IsValidMember KickUser_outcome chat
                     tr)) ->
           In (KickUser chat' u) tr
           \/ exists m,
                In m (MembersUsernameGetter.GetAllWithNoUsername
                        get_chat_members IsValidMember chat)
                /\ u = member_user m).
Proof.
  intros config members valid outcome chat member user tr Huser Hnone
         Hinvalid.
  rewrite KickSingleIfNoUsername_run, Hnone.
  split; [reflexivity |].
  assert (Hnot : ~ In member
                     (MembersUsernameGetter.GetAllWithNoUsername members
                        valid chat)).
  { unfold MembersUsernameGetter.GetAllWithNoUsername,
      MembersUsernameGetter.FilterMembers.
    intros Hin. apply filter_In in Hin. destruct Hin as [_ Hp].
    rewrite Hinvalid in Hp. discriminate. }
  assert (Hall : Forall (fun m => valid m = true)
                   (MembersUsernameGetter.GetAllWithNoUsername members valid
                      chat)).
  { unfold MembersUsernameGetter.GetAllWithNoUsername,
      MembersUsernameGetter.FilterMembers.
    apply Forall_forall. intros m Hin. apply filter_In in Hin.
    destruct Hin as [_ Hp]. apply andb_prop in Hp. exact (proj1 Hp). }
  split; [exact Hnot | split; [exact Hall | split]].
  - intros l H. apply kbind_kret_returns in H. subst l.
    split; [reflexivity | split; assumption].
  - intros chat' u. unfold MembersKicker.KickAllWithNoUsername.
    rewrite kbind_kret_run.
    destruct (Any (MembersUsernameGetter.GetAllWithNoUsername members valid
                     chat)).
    + intros H.
      assert (H' : In (KickUser chat' u)
                     (snd (MembersKicker.__KickMultiple config outcome chat
                             (MembersUsernameGetter.GetAllWithNoUsername
                                members valid chat) tr))).
      { destruct (MembersKicker.__KickMultiple config outcome chat
                    (MembersUsernameGetter.GetAllWithNoUsername members
                       valid chat) tr) as [[e | []] tr']; exact H. }
      apply KickMultiple_kicks in H'.
      destruct H' as [H' | (_ & _ & m & Hm & Hu)]; [left; exact H' |].
      right. exists m. split; assumption.
    + unfold kret. simpl. intros H. left. exact H.
Qed.

(** The statement of C10 at a bot without a username and a client whose
    calls return: the single path removes it, the bulk path returns the
    one human without a username. *)
Lemma single_no_username_skips_validity_check_witness :
  MembersKicker.KickSingleIfNoUsername Examples.cfg Examples.client_ok 1
    Examples.a_bot []
  = (inr true, [KickUser 1 (Some Examples.a_bot)])
  /\ fst (MembersKicker.KickAllWithNoUsername Examples.cfg
            Examples.get_chat_members IsValidMember_spec Examples.client_ok
            1 [])
     = inr [Examples.ann_member].
Proof.
  destruct (single_no_username_skips_validity_check Examples.cfg
              Examples.get_chat_members IsValidMember_spec Examples.client_ok
              1 Examples.a_bot_member Examples.a_bot [] eq_refl eq_refl
              eq_refl)
    as (H & _).
  split; [exact H | reflexivity].
Defined.
(* ================================================================== *)
(** * The calendar: ordinals, dates, and the pattern [%d/%m/%Y] *)
(* ================================================================== *)

Lemma forall_below_spec (k : nat) (p : Z -> bool) :
  forall_below k p = true -> forall z, 0 <= z < Z.of_nat k -> p z = true.
Proof.
  induction k as [| k IH]; simpl; intros H z Hz; [lia |].
  apply andb_prop in H. destruct H as [Hk Hrest].
  destruct (Z.eq_dec z (Z.of_nat k)) as [-> | Hne]; [exact Hk |].
  apply IH; [exact Hrest | lia].
Qed.

Lemma forall_below_Z (b : Z) (p : Z -> bool) :
  forall_below (Z.to_nat b) p = true -> forall z, 0 <= z < b -> p z = true.
Proof.
  intros H z Hz. apply (forall_below_spec (Z.to_nat b)); [exact H | lia].
Qed.

Lemma month_day_ok_all leapyear n :
  0 <= n <= 364 -> month_day_ok leapyear n = true.
Proof.
  intros Hn. apply (forall_below_Z 365); [| lia].
  destruct leapyear; vm_compute; reflexivity.
Qed.

Lemma is_leap_split n400 n100 n4 n1 :
  0 <= n100 <= 3 -> 0 <= n4 <= 24 -> 0 <= n1 <= 3 ->
  datetime._is_leap (n400 * 400 + 1 + (n100 * 100 + n4 * 4 + n1))
  = (n1 =? 3) && (negb (n4 =? 24) || (n100 =? 3)).
Proof.
  intros H100 H4 H1. unfold datetime._is_leap.
  set (y := n400 * 400 + 1 + (n100 * 100 + n4 * 4 + n1)).
  assert (E4 : y mod 4 = (n1 + 1) mod 4).
  { unfold y. replace (n400 * 400 + 1 + (n100 * 100 + n4 * 4 + n1))
      with ((n1 + 1) + (n400 * 100 + n100 * 25 + n4) * 4) by ring.
    apply Z.mod_add. lia. }
  assert (E100 : y mod 100 = (n4 * 4 + n1 + 1) mod 100).
  { unfold y. replace (n400 * 400 + 1 + (n100 * 100 + n4 * 4 + n1))
      with ((n4 * 4 + n1 + 1) + (n400 * 4 + n100) * 100) by ring.
    apply Z.mod_add. lia. }
  assert (E400 : y mod 400 = (n100 * 100 + n4 * 4 + n1 + 1) mod 400).
  { unfold y. replace (n400 * 400 + 1 + (n100 * 100 + n4 * 4 + n1))
      with ((n100 * 100 + n4 * 4 + n1 + 1) + n400 * 400) by ring.
    apply Z.mod_add. lia. }
  rewrite E4, E100, E400.
  destruct (Z.eqb_spec n1 3) as [-> | Hn1].
  - replace ((3 + 1) mod 4) with 0 by reflexivity.
    destruct (Z.eqb_spec n4 24) as [-> | Hn4].
    + replace ((24 * 4 + 3 + 1) mod 100) with 0 by reflexivity.
      destruct (Z.eqb_spec n100 3) as [-> | Hn100]; [reflexivity |].
      rewrite Z.mod_small by lia.
      replace (n100 * 100 + 24 * 4 + 3 + 1 =? 0) with false
        by (symmetry; apply Z.eqb_neq; lia).
      reflexivity.
    + rewrite (Z.mod_small (n4 * 4 + 3 + 1)) by lia.
      replace (n4 * 4 + 3 + 1 =? 0) with false
        by (symmetry; apply Z.eqb_neq; lia).
      reflexivity.
  - rewrite (Z.mod_small (n1 + 1)) by lia.
    replace (n1 + 1 =? 0) with false by (symmetry; apply Z.eqb_neq; lia).
    reflexivity.
Qed.

Lemma ord2ymd_valid n :
  0 < n <= datetime._MAXORDINAL ->
  let '(y, m, d) := datetime._ord2ymd n in
  datetime.valid_date y m d = true.
Proof.
  unfold datetime._MAXORDINAL. intros Hn.
  unfold datetime._ord2ymd, divmod, datetime._DI400Y, datetime._DI100Y, datetime._DI4Y.
  set (n0 := n - 1).
  set (n400 := n0 / 146097). set (r1 := n0 mod 146097).
  set (n100 := r1 / 36524). set (r2 := r1 mod 36524).
  set (n4 := r2 / 1461). set (r3 := r2 mod 1461).
  set (n1 := r3 / 365). set (r4 := r3 mod 365).
  assert (B : 0 <= n400 /\ 0 <= n100 <= 4 /\ 0 <= n4 <= 24 /\ 0 <= n1 <= 4
              /\ 0 <= r4 <= 364
              /\ 1 <= n400 * 400 + 1 + (n100 * 100 + n4 * 4 + n1) - (if (n1 =? 4) || (n100 =? 4) then 1 else 0) <= 9999).
  { subst n400 r1 n100 r2 n4 r3 n1 r4 n0.
    destruct (Z.eqb_spec (((n - 1) mod 146097 mod 36524) mod 1461 / 365) 4);
    destruct (Z.eqb_spec ((n - 1) mod 146097 / 36524) 4); simpl;
    Z.div_mod_to_equations; lia. }
  destruct B as (B400 & B100 & B4 & B1 & Br & By).
  destruct ((n1 =? 4) || (n100 =? 4)) eqn:E.
  - unfold datetime.valid_date, datetime.MINYEAR, datetime.MAXYEAR.
    change (datetime._days_in_month
              (n400 * 400 + 1 + (n100 * 100 + n4 * 4 + n1) - 1) 12)
      with 31.
    replace (1 <=? n400 * 400 + 1 + (n100 * 100 + n4 * 4 + n1) - 1)
      with true by (symmetry; apply Z.leb_le; lia).
    replace (n400 * 400 + 1 + (n100 * 100 + n4 * 4 + n1) - 1 <=? 9999)
      with true by (symmetry; apply Z.leb_le; lia).
    reflexivity.
  - apply orb_false_elim in E. destruct E as [E1 E100].
    apply Z.eqb_neq in E1, E100.
    pose proof (month_day_ok_all
                  ((n1 =? 3) && (negb (n4 =? 24) || (n100 =? 3))) r4 Br)
      as Hmd.
    unfold month_day_ok in Hmd.
    destruct (datetime._month_day
                ((n1 =? 3) && (negb (n4 =? 24) || (n100 =? 3))) r4)
      as [m d].
    unfold datetime.valid_date, datetime._days_in_month, datetime.MINYEAR,
      datetime.MAXYEAR.
    rewrite is_leap_split by lia.
    apply andb_prop in Hmd. destruct Hmd as [Hmd Hd2].
    apply andb_prop in Hmd. destruct Hmd as [Hmd Hd1].
    apply andb_prop in Hmd. destruct Hmd as [Hm1 Hm2].
    rewrite Hm1, Hm2, Hd1.
    replace (1 <=? n400 * 400 + 1 + (n100 * 100 + n4 * 4 + n1))
      with true by (symmetry; apply Z.leb_le; lia).
    replace (n400 * 400 + 1 + (n100 * 100 + n4 * 4 + n1) <=? 9999)
      with true by (symmetry; apply Z.leb_le; lia).
    simpl.
    destruct ((m =? 2) && ((n1 =? 3) && (negb (n4 =? 24) || (n100 =? 3))))
      eqn:Em.
    + apply andb_prop in Em. destruct Em as [Em _].
      apply Z.eqb_eq in Em. subst m. exact Hd2.
    + rewrite Z.add_0_r in Hd2. exact Hd2.
Qed.

Lemma split_on_no_sep sep s :
  contains sep s = false -> split_on sep s = [s].
Proof.
  induction s as [| c s IH]; simpl; intros H; [reflexivity |].
  apply orb_false_elim in H. destruct H as [Hc Hs].
  rewrite Hc, (IH Hs). reflexivity.
Qed.

Lemma split_on_app sep a b :
  contains sep a = false ->
  split_on sep (a ++ String sep b) = a :: split_on sep b.
Proof.
  induction a as [| c a IH]; simpl; intros H.
  - rewrite Ascii.eqb_refl. reflexivity.
  - apply orb_false_elim in H. destruct H as [Hc Ha].
    rewrite Hc, (IH Ha). reflexivity.
Qed.

Lemma option_Z_eqb_eq a b : option_Z_eqb a b = true -> a = b.
Proof.
  destruct a, b; simpl; intros H; try discriminate; [| reflexivity].
  apply Z.eqb_eq in H. congruence.
Qed.

Lemma day_field_ok_all d : 1 <= d <= 31 -> day_field_ok d = true.
Proof.
  intros H. apply (forall_below_Z 32); [vm_compute; reflexivity | lia].
Qed.

Lemma month_field_ok_all m : 1 <= m <= 12 -> month_field_ok m = true.
Proof.
  intros H. apply (forall_below_Z 13); [vm_compute; reflexivity | lia].
Qed.

Lemma digit_ok_all k :
  0 <= k <= 9 ->
  is_digit (digit_char k) = true
  /\ digit_value (digit_char k) = k
  /\ Ascii.eqb (digit_char k) "/" = false
  /\ isspace (digit_char k) = false.
Proof.
  intros H.
  assert (Hk : digit_ok k = true).
  { apply (forall_below_Z 10); [vm_compute; reflexivity | lia]. }
  unfold digit_ok in Hk.
  apply andb_prop in Hk. destruct Hk as [Hk H4].
  apply andb_prop in Hk. destruct Hk as [Hk H3].
  apply andb_prop in Hk. destruct Hk as [H1 H2].
  repeat split.
  - exact H1.
  - apply Z.eqb_eq. exact H2.
  - apply negb_true_iff. exact H3.
  - apply negb_true_iff. exact H4.
Qed.

Lemma year_field y :
  0 <= y <= 9999 ->
  contains "/" (four_digits y) = false
  /\ match_Y (four_digits y) = Some y.
Proof.
  intros H.
  destruct (digit_ok_all (y / 1000)) as (A1 & A2 & A3 & _);
    [Z.div_mod_to_equations; lia |].
  destruct (digit_ok_all (y / 100 mod 10)) as (B1 & B2 & B3 & _);
    [Z.div_mod_to_equations; lia |].
  destruct (digit_ok_all (y / 10 mod 10)) as (C1 & C2 & C3 & _);
    [Z.div_mod_to_equations; lia |].
  destruct (digit_ok_all (y mod 10)) as (D1 & D2 & D3 & _);
    [Z.div_mod_to_equations; lia |].
  unfold four_digits, match_Y, contains.
  rewrite A1, A2, A3, B1, B2, B3, C1, C2, C3, D1, D2, D3.
  split; [reflexivity |].
  cbn [andb]. f_equal. Z.div_mod_to_equations. lia.
Qed.

Lemma valid_date_bounds y m d :
  datetime.valid_date y m d = true ->
  1 <= y <= 9999 /\ 1 <= m <= 12 /\ 1 <= d <= 31.
Proof.
  unfold datetime.valid_date, datetime.MINYEAR, datetime.MAXYEAR.
  intros H.
  repeat (apply andb_prop in H; destruct H as [H ?]).
  repeat match goal with
         | H : (_ <=? _) = true |- _ => apply Z.leb_le in H
         end.
  assert (datetime._days_in_month y m <= 31).
  { unfold datetime._days_in_month.
    destruct ((m =? 2) && datetime._is_leap y); [lia |].
    assert (Hm : m = 1 \/ m = 2 \/ m = 3 \/ m = 4 \/ m = 5 \/ m = 6 \/ m = 7
                 \/ m = 8 \/ m = 9 \/ m = 10 \/ m = 11 \/ m = 12) by lia.
    repeat (destruct Hm as [-> | Hm]; [simpl; lia |]). subst m. simpl. lia. }
  lia.
Qed.

Lemma strptime_dmY_format y m d :
  datetime.valid_date y m d = true ->
  strptime_dmY (format_dmY (y, m, d)) = Some (datetime.mk y m d 0 0 0 0).
Proof.
  intros Hv. destruct (valid_date_bounds y m d Hv) as (Hy & Hm & Hd).
  pose proof (day_field_ok_all d Hd) as Fd.
  pose proof (month_field_ok_all m Hm) as Fm.
  destruct (year_field y ltac:(lia)) as [Sy Py].
  unfold day_field_ok in Fd. unfold month_field_ok in Fm.
  replace (d =? 0) with false in Fd by (symmetry; apply Z.eqb_neq; lia).
  replace (m =? 0) with false in Fm by (symmetry; apply Z.eqb_neq; lia).
  rewrite orb_false_l in Fd, Fm.
  apply andb_prop in Fd, Fm.
  destruct Fd as [Sd Pd], Fm as [Sm Pm].
  apply negb_true_iff in Sd, Sm.
  apply option_Z_eqb_eq in Pd, Pm.
  unfold strptime_dmY.
  change (format_dmY (y, m, d))
    with (two_digits d
          ++ String "/" (two_digits m ++ String "/" (four_digits y)))%string.
  rewrite (split_on_app "/" (two_digits d) _ Sd).
  rewrite (split_on_app "/" (two_digits m) _ Sm).
  rewrite (split_on_no_sep "/" (four_digits y) Sy).
  rewrite Pd, Pm, Py, Hv. reflexivity.
Qed.

Lemma string_rev_onto_twice s : forall a b,
  string_rev_onto a (string_rev_onto b s) = string_rev_onto (s ++ a) b.
Proof.
  induction s as [| c s IH]; intros a b; simpl; [reflexivity |].
  rewrite IH. reflexivity.
Qed.

Lemma string_rev_involutive s : string_rev (string_rev s) = s.
Proof.
  unfold string_rev. rewrite string_rev_onto_twice. simpl.
  induction s as [| c s IH]; simpl; [reflexivity | rewrite IH; reflexivity].
Qed.

(** A text that neither begins nor ends with a space is left as it is. *)
Lemma strip_no_space_at_ends c r c' r' :
  isspace c = false ->
  string_rev (String c r) = String c' r' ->
  isspace c' = false ->
  strip (String c r) = String c r.
Proof.
  intros Hc Hrev Hc'. unfold strip, rstrip. simpl. rewrite Hc, Hrev.
  simpl. rewrite Hc', <- Hrev. apply string_rev_involutive.
Qed.

Lemma strip_format_dmY y m d :
  datetime.valid_date y m d = true ->
  strip (format_dmY (y, m, d)) = format_dmY (y, m, d).
Proof.
  intros Hv. destruct (valid_date_bounds y m d Hv) as (Hy & Hm & Hd).
  destruct (digit_ok_all (d / 10)) as (_ & _ & _ & Hfirst);
    [Z.div_mod_to_equations; lia |].
  destruct (digit_ok_all (y mod 10)) as (_ & _ & _ & Hlast);
    [Z.div_mod_to_equations; lia |].
  unfold format_dmY, two_digits, four_digits.
  revert Hfirst Hlast.
  generalize (digit_char (d / 10)) (digit_char (d mod 10))
    (digit_char (m / 10)) (digit_char (m mod 10))
    (digit_char (y / 1000)) (digit_char (y / 100 mod 10))
    (digit_char (y / 10 mod 10)) (digit_char (y mod 10)).
  intros c1 c2 c3 c4 c5 c6 c7 c8 Hfirst Hlast.
  eapply strip_no_space_at_ends; [exact Hfirst | reflexivity | exact Hlast].
Qed.

(** The date of [datetime.add], when it returns, is a date of the
    calendar. *)
Lemma add_valid_date (d : datetime.t) (delta : Z) (r : datetime.t) :
  datetime.add d delta = inr r ->
  datetime.valid_date (datetime.year r) (datetime.month r) (datetime.day r)
  = true.
Proof.
  unfold datetime.add, divmod.
  match goal with
  | |- context [(0 <? ?n) && (?n <=? datetime._MAXORDINAL)] =>
      set (days := n);
      destruct ((0 <? days) && (days <=? datetime._MAXORDINAL)) eqn:E
  end; [| discriminate].
  apply andb_prop in E. destruct E as [E1 E2].
  apply Z.ltb_lt in E1. apply Z.leb_le in E2.
  pose proof (ord2ymd_valid days (conj E1 E2)) as Hv.
  destruct (datetime._ord2ymd days) as [[y m] dd].
  intros H. inversion H; subst r. simpl. exact Hv.
Qed.

(** On a number the second stage of the parse is not reached, whatever
    the first stage does. *)
Lemma AddPayment_Number_any_strptime config strptime1 strptime2
    row_idx pd pde e u n lg :
  PaymentsExcelLoader.__AddPayment config strptime1 row_idx pd pde e u
    (xlrd.Number n) lg
  = PaymentsExcelLoader.__AddPayment config strptime2 row_idx pd pde e u
      (xlrd.Number n) lg.
Proof.
  unfold PaymentsExcelLoader.__AddPayment.
  destruct (xlrd.xldate_as_datetime (xlrd.Number n)) as [err | x];
    [| reflexivity].
  destruct err; reflexivity.
Qed.

(** Two dates equal at day granularity give, once inserted, rosters equal
    at day granularity. *)
Lemma add_data_day_view row_idx pd pde e u x x' lg :
  datetime.date x' = datetime.date x ->
  on_result day_view
    (fst (PaymentsExcelLoader.add_data row_idx pd pde e u x' lg))
  = on_result day_view
      (fst (PaymentsExcelLoader.add_data row_idx pd pde e u x lg)).
Proof.
  intros Hdate.
  destruct (PaymentsData.IsUsernameExistent u pd) eqn:E.
  - rewrite !add_data_existing by exact E. reflexivity.
  - rewrite !add_data_new by exact E. simpl. unfold day_view. simpl.
    rewrite !map_app. simpl. rewrite Hdate. reflexivity.
Qed.

(* ================================================================== *)
(** * The calendar of [datetime] and the calendar by counting days *)
(* ================================================================== *)

Lemma leap_year_is_leap y : leap_year y = datetime._is_leap y.
Proof.
  unfold leap_year, datetime._is_leap.
  destruct (Z.eqb_spec (y mod 4) 0) as [E4 | E4];
  destruct (Z.eqb_spec (y mod 100) 0) as [E100 | E100];
  destruct (Z.eqb_spec (y mod 400) 0) as [E400 | E400];
  simpl; try reflexivity; exfalso;
  revert E4 E100 E400; Z.div_mod_to_equations; lia.
Qed.

Lemma days_before_year_succ y :
  datetime._days_before_year (y + 1)
  = datetime._days_before_year y + year_length y.
Proof.
  unfold datetime._days_before_year, year_length, leap_year.
  replace (y + 1 - 1) with y by lia.
  destruct (Z.eqb_spec (y mod 4) 0) as [E4 | E4];
  destruct (Z.eqb_spec (y mod 100) 0) as [E100 | E100];
  destruct (Z.eqb_spec (y mod 400) 0) as [E400 | E400];
  simpl; revert E4 E100 E400; Z.div_mod_to_equations; lia.
Qed.

Lemma days_of_years_spec k : forall y,
  days_of_years y k
  = datetime._days_before_year (y + Z.of_nat k) - datetime._days_before_year y.
Proof.
  induction k as [| k IH]; intros y.
  - simpl. rewrite Z.add_0_r. lia.
  - cbn [days_of_years]. rewrite IH.
    replace (y + Z.of_nat (S k)) with (y + 1 + Z.of_nat k) by lia.
    rewrite (days_before_year_succ y). lia.
Qed.

Lemma month_day_inv_ok_all leapyear m d :
  0 <= m < 13 -> 0 <= d < 32 -> month_day_inv_ok leapyear m d = true.
Proof.
  intros Hm Hd.
  assert (H : forall_below 13
                (fun m => forall_below 32 (month_day_inv_ok leapyear m))
              = true).
  { destruct leapyear; vm_compute; reflexivity. }
  pose proof (forall_below_Z 13 _ H m Hm) as H1. cbv beta in H1.
  exact (forall_below_Z 32 _ H1 d Hd).
Qed.

Lemma div_mod_unique_pos x k q r :
  0 <= r < k -> x = q * k + r -> x / k = q /\ x mod k = r.
Proof.
  intros Hr ->. split.
  - symmetry. apply (Z.div_unique _ _ q r); [left; exact Hr | ring].
  - symmetry. apply (Z.mod_unique _ _ q r); [left; exact Hr | ring].
Qed.

(** [_ord2ymd] on the day [t] (from 0) of the year after [a] cycles of
    400 years, [b] centuries, [c] cycles of 4 years and [e] years. *)
Lemma ord2ymd_decomposed a b c e t :
  0 <= b <= 3 -> 0 <= c <= 24 -> 0 <= e <= 3 ->
  0 <= t < 365 + (if (e =? 3) && (negb (c =? 24) || (b =? 3)) then 1 else 0) ->
  datetime._ord2ymd
    (146097 * a + 36524 * b + 1461 * c + 365 * e + t + 1)
  = let '(m, d) :=
      datetime._month_day ((e =? 3) && (negb (c =? 24) || (b =? 3))) t in
    (400 * a + 100 * b + 4 * c + e + 1, m, d).
Proof.
  intros Hb Hc He Ht.
  unfold datetime._ord2ymd, divmod, datetime._DI400Y, datetime._DI100Y,
    datetime._DI4Y.
  replace (146097 * a + 36524 * b + 1461 * c + 365 * e + t + 1 - 1)
    with (146097 * a + 36524 * b + 1461 * c + 365 * e + t) by ring.
  set (n0 := 146097 * a + 36524 * b + 1461 * c + 365 * e + t).
  destruct (Z.eq_dec t 365) as [E365 | N365].
  - (* the last day of a leap year *)
    subst t.
    destruct ((e =? 3) && (negb (c =? 24) || (b =? 3))) eqn:Eleap; [| lia].
    apply andb_prop in Eleap. destruct Eleap as [E3 Ecb].
    apply Z.eqb_eq in E3. subst e.
    change (datetime._month_day true 365) with (12, 31).
    destruct (Z.eq_dec c 24) as [-> | Nc].
    + assert (b = 3).
      { rewrite Z.eqb_refl in Ecb. simpl in Ecb. apply Z.eqb_eq in Ecb.
        exact Ecb. }
      subst b.
      destruct (div_mod_unique_pos n0 146097 a 146096) as [-> ->];
        [lia | unfold n0; ring |].
      change (146096 / 36524) with 4. change (146096 mod 36524) with 0.
      change (0 / 1461) with 0. change (0 mod 1461) with 0.
      change (0 / 365) with 0. change (0 mod 365) with 0.
      simpl ((0 =? 4) || (4 =? 4)). cbv iota. f_equal. f_equal. ring.
    + destruct (div_mod_unique_pos n0 146097 a
                  (36524 * b + 1461 * c + 1460)) as [-> ->];
        [lia | unfold n0; ring |].
      destruct (div_mod_unique_pos (36524 * b + 1461 * c + 1460) 36524 b
                  (1461 * c + 1460)) as [-> ->]; [lia | ring |].
      destruct (div_mod_unique_pos (1461 * c + 1460) 1461 c 1460)
        as [-> ->]; [lia | ring |].
      change (1460 / 365) with 4. change (1460 mod 365) with 0.
      rewrite Z.eqb_refl. cbn [orb]. cbv iota. f_equal. f_equal. ring.
  - assert (Ht' : 0 <= t <= 364).
    { destruct ((e =? 3) && (negb (c =? 24) || (b =? 3))); lia. }
    destruct (div_mod_unique_pos n0 146097 a
                (36524 * b + 1461 * c + 365 * e + t)) as [-> ->];
      [lia | unfold n0; ring |].
    destruct (div_mod_unique_pos (36524 * b + 1461 * c + 365 * e + t) 36524
                b (1461 * c + 365 * e + t)) as [-> ->]; [lia | ring |].
    destruct (div_mod_unique_pos (1461 * c + 365 * e + t) 1461 c
                (365 * e + t)) as [-> ->]; [lia | ring |].
    destruct (div_mod_unique_pos (365 * e + t) 365 e t) as [-> ->];
      [lia | ring |].
    replace (e =? 4) with false by (symmetry; apply Z.eqb_neq; lia).
    replace (b =? 4) with false by (symmetry; apply Z.eqb_neq; lia).
    cbn [orb]. cbv iota.
    destruct (datetime._month_day
                ((e =? 3) && (negb (c =? 24) || (b =? 3))) t) as [m d].
    f_equal. f_equal. ring.
Qed.

Lemma ord2ymd_year_day y t :
  1 <= y ->
  0 <= t < 365 + (if datetime._is_leap y then 1 else 0) ->
  datetime._ord2ymd (datetime._days_before_year y + t + 1)
  = let '(m, d) := datetime._month_day (datetime._is_leap y) t in (y, m, d).
Proof.
  intros Hy Ht.
  set (a := (y - 1) / 400).
  set (b := (y - 1) mod 400 / 100).
  set (c := (y - 1) mod 100 / 4).
  set (e := (y - 1) mod 4).
  assert (Hb : 0 <= b <= 3) by (unfold b; Z.div_mod_to_equations; lia).
  assert (Hc : 0 <= c <= 24) by (unfold c; Z.div_mod_to_equations; lia).
  assert (He : 0 <= e <= 3) by (unfold e; Z.div_mod_to_equations; lia).
  assert (Ey : y = a * 400 + 1 + (b * 100 + c * 4 + e)).
  { unfold a, b, c, e. Z.div_mod_to_equations. lia. }
  assert (Ed : datetime._days_before_year y
               = 146097 * a + 36524 * b + 1461 * c + 365 * e).
  { unfold datetime._days_before_year, a, b, c, e.
    Z.div_mod_to_equations. lia. }
  assert (El : datetime._is_leap y
               = (e =? 3) && (negb (c =? 24) || (b =? 3))).
  { rewrite Ey at 1. apply is_leap_split; assumption. }
  rewrite Ed, El in *.
  rewrite (ord2ymd_decomposed a b c e t Hb Hc He Ht).
  destruct (datetime._month_day ((e =? 3) && (negb (c =? 24) || (b =? 3))) t)
    as [m d].
  f_equal. f_equal. lia.
Qed.

Lemma valid_date_month_day y m d :
  datetime.valid_date y m d = true ->
  1 <= m <= 12 /\ 1 <= d <= 31
  /\ month_day_inv_ok (datetime._is_leap y) m d = true
  /\ (1 <=? m) && (m <=? 12) && (1 <=? d)
     && (d <=? datetime._DAYS_IN_MONTH m
               + (if (m =? 2) && datetime._is_leap y then 1 else 0))
     = true.
Proof.
  intros Hv. destruct (valid_date_bounds y m d Hv) as (Hy & Hm & Hd).
  split; [exact Hm | split; [exact Hd |]].
  split; [apply month_day_inv_ok_all; lia |].
  unfold datetime.valid_date, datetime._days_in_month in Hv.
  repeat (apply andb_prop in Hv; destruct Hv as [Hv ?]).
  repeat (apply andb_true_intro; split); try assumption.
  destruct ((m =? 2) && datetime._is_leap y) eqn:E.
  - apply andb_prop in E. destruct E as [E _]. apply Z.eqb_eq in E. subst m.
    simpl. assumption.
  - rewrite Z.add_0_r. assumption.
Qed.

(** The date of the ordinal of a date is the date. *)
Lemma ord2ymd_ymd2ord y m d :
  datetime.valid_date y m d = true ->
  datetime._ord2ymd (datetime._ymd2ord y m d) = (y, m, d)
  /\ 0 < datetime._ymd2ord y m d
         <= datetime._days_before_year (y + 1).
Proof.
  intros Hv. destruct (valid_date_bounds y m d Hv) as (Hy & _ & _).
  destruct (valid_date_month_day y m d Hv) as (Hm & Hd & Hinv & Hin).
  unfold month_day_inv_ok in Hinv. rewrite Hin in Hinv.
  cbn [negb orb] in Hinv.
  unfold datetime._ymd2ord, datetime._days_before_month.
  set (t := datetime._DAYS_BEFORE_MONTH m
            + (if (2 <? m) && datetime._is_leap y then 1 else 0) + d - 1)
    in *.
  destruct (datetime._month_day (datetime._is_leap y) t) as [m' d'] eqn:Emd.
  apply andb_prop in Hinv. destruct Hinv as [Hinv Hle].
  apply andb_prop in Hinv. destruct Hinv as [Em Ed].
  apply Z.eqb_eq in Em, Ed. apply Z.leb_le in Hle. subst m' d'.
  assert (Ht : 0 <= t < 365 + (if datetime._is_leap y then 1 else 0)).
  { split; [| unfold t; unfold t in Hle; revert Hle;
               destruct (datetime._is_leap y); destruct (2 <? m);
               cbn [andb]; lia].
    unfold t.
    assert (0 <= datetime._DAYS_BEFORE_MONTH m).
    { assert (Hcases : m = 1 \/ m = 2 \/ m = 3 \/ m = 4 \/ m = 5 \/ m = 6
                       \/ m = 7 \/ m = 8 \/ m = 9 \/ m = 10 \/ m = 11
                       \/ m = 12) by lia.
      repeat (destruct Hcases as [-> | Hcases]; [simpl; lia |]).
      subst m. simpl. lia. }
    destruct ((2 <? m) && datetime._is_leap y); lia. }
  replace (datetime._days_before_year y
           + (datetime._DAYS_BEFORE_MONTH m
              + (if (2 <? m) && datetime._is_leap y then 1 else 0)) + d)
    with (datetime._days_before_year y + t + 1) by (unfold t; ring).
  split.
  - rewrite (ord2ymd_year_day y t (proj1 Hy) Ht), Emd. reflexivity.
  - rewrite days_before_year_succ. unfold year_length.
    rewrite leap_year_is_leap.
    assert (0 <= datetime._days_before_year y).
    { unfold datetime._days_before_year. Z.div_mod_to_equations. lia. }
    destruct (datetime._is_leap y); lia.
Qed.

Lemma month_cases m :
  1 <= m <= 12 ->
  m = 1 \/ m = 2 \/ m = 3 \/ m = 4 \/ m = 5 \/ m = 6 \/ m = 7 \/ m = 8
  \/ m = 9 \/ m = 10 \/ m = 11 \/ m = 12.
Proof. lia. Qed.

Lemma month_length_days_in_month y m :
  1 <= m <= 12 -> month_length y m = datetime._days_in_month y m.
Proof.
  intros Hm. unfold datetime._days_in_month, month_length.
  rewrite leap_year_is_leap.
  destruct (month_cases m Hm) as
    [-> | [-> | [-> | [-> | [-> | [-> | [-> | [-> | [-> | [-> | [-> | ->]]]]]]]]]]];
    reflexivity.
Qed.

Lemma days_of_months_days_before_month y m :
  1 <= m <= 12 ->
  days_of_months y 1 (Z.to_nat (m - 1)) = datetime._days_before_month y m.
Proof.
  intros Hm. unfold datetime._days_before_month.
  destruct (month_cases m Hm) as
    [-> | [-> | [-> | [-> | [-> | [-> | [-> | [-> | [-> | [-> | [-> | ->]]]]]]]]]]];
    match goal with
    | |- context [Z.to_nat ?x] =>
        let n := eval vm_compute in (Z.to_nat x) in
        change (Z.to_nat x) with n
    end;
    cbn -[leap_year datetime._is_leap]; unfold month_length;
    rewrite ?leap_year_is_leap;
    destruct (datetime._is_leap y); reflexivity.
Qed.

Lemma calendar_date_valid_date y m d :
  calendar_date (y, m, d) = true ->
  1900 <= y <= 9999
  /\ datetime.valid_date y m d = true
  /\ datetime._ymd2ord y m d = 693595 + day_number (y, m, d).
Proof.
  unfold calendar_date. intros H.
  repeat (apply andb_prop in H; destruct H as [H ?]).
  repeat match goal with
         | H : (_ <=? _) = true |- _ => apply Z.leb_le in H
         end.
  split; [lia |]. split.
  - unfold datetime.valid_date, datetime.MINYEAR, datetime.MAXYEAR.
    rewrite <- month_length_days_in_month by lia.
    repeat (apply andb_true_intro; split); apply Z.leb_le; lia.
  - unfold datetime._ymd2ord, day_number.
    rewrite days_of_months_days_before_month by lia.
    rewrite days_of_years_spec.
    replace (1900 + Z.of_nat (Z.to_nat (y - 1900))) with y by lia.
    change (datetime._days_before_year 1900) with 693595. lia.
Qed.

Lemma days_before_year_le y : y <= 9999 ->
  datetime._days_before_year (y + 1) <= datetime._MAXORDINAL.
Proof.
  intros Hy. unfold datetime._days_before_year, datetime._MAXORDINAL.
  replace (y + 1 - 1) with y by ring.
  Z.div_mod_to_equations. lia.
Qed.

(** Days and a time of day, added to a midnight. *)
Lemma add_days_to_midnight y0 m0 d0 n ms :
  0 <= ms < 86400000 ->
  0 < datetime._ymd2ord y0 m0 d0 + n <= datetime._MAXORDINAL ->
  exists dt,
    datetime.add (datetime.mk y0 m0 d0 0 0 0 0)
      (n * datetime.us_per_day + ms * 1000) = inr dt
    /\ datetime.date dt = datetime._ord2ymd (datetime._ymd2ord y0 m0 d0 + n).
Proof.
  intros Hms Hord. unfold datetime.add, datetime.toordinal, divmod.
  cbn [datetime.year datetime.month datetime.day datetime.hour
       datetime.minute datetime.second datetime.microsecond].
  set (o := datetime._ymd2ord y0 m0 d0) in *.
  replace (o * datetime.us_per_day
           + ((0 * 3600 + 0 * 60 + 0) * 1000000 + 0)
           + (n * datetime.us_per_day + ms * 1000))
    with ((o + n) * datetime.us_per_day + ms * 1000) by ring.
  destruct (div_mod_unique_pos
              ((o + n) * datetime.us_per_day + ms * 1000)
              datetime.us_per_day (o + n) (ms * 1000)) as [-> ->];
    [unfold datetime.us_per_day; lia | reflexivity |].
  replace ((0 <? o + n) && (o + n <=? datetime._MAXORDINAL)) with true.
  2:{ symmetry. apply andb_true_intro.
      split; [apply Z.ltb_lt | apply Z.leb_le]; lia. }
  destruct (datetime._ord2ymd (o + n)) as [[y m] d].
  eexists. split; reflexivity.
Qed.

Lemma timedelta_days_ms n ms :
  0 <= n <= 2958465 -> 0 <= ms < 86400000 ->
  datetime.timedelta n (ms / 1000) 0 (ms mod 1000)
  = inr (n * datetime.us_per_day + ms * 1000).
Proof.
  intros Hn Hms. unfold datetime.timedelta.
  replace (n * datetime.us_per_day + ms / 1000 * 1000000 + 0
           + ms mod 1000 * 1000)
    with (n * datetime.us_per_day + ms * 1000)
    by (Z.div_mod_to_equations; lia).
  destruct (div_mod_unique_pos (n * datetime.us_per_day + ms * 1000)
              datetime.us_per_day n (ms * 1000)) as [-> _];
    [unfold datetime.us_per_day; lia | reflexivity |].
  replace (Z.abs n <=? 999999999) with true
    by (symmetry; apply Z.leb_le; lia).
  reflexivity.
Qed.

Lemma day_number_bounds y m d :
  calendar_date (y, m, d) = true -> 1 <= day_number (y, m, d) <= 2958464.
Proof.
  intros Hc. destruct (calendar_date_valid_date y m d Hc) as (Hy & Hv & Ho).
  destruct (ord2ymd_ymd2ord y m d Hv) as (_ & Hpos & Hle).
  pose proof (days_before_year_le y ltac:(lia)) as Hmax.
  unfold datetime._MAXORDINAL in Hmax.
  assert (693595 < datetime._ymd2ord y m d).
  { unfold datetime._ymd2ord.
    assert (datetime._days_before_year 1900 <= datetime._days_before_year y).
    { unfold datetime._days_before_year. Z.div_mod_to_equations. lia. }
    change (datetime._days_before_year 1900) with 693595 in *.
    destruct (valid_date_bounds y m d Hv) as (_ & Hm & Hd).
    assert (0 <= datetime._days_before_month y m).
    { unfold datetime._days_before_month.
      assert (0 <= datetime._DAYS_BEFORE_MONTH m).
      { destruct (month_cases m Hm) as
          [-> | [-> | [-> | [-> | [-> | [-> | [-> | [-> | [-> | [-> | [-> | ->]]]]]]]]]]];
          simpl; lia. }
      destruct ((2 <? m) && datetime._is_leap y); lia. }
    lia. }
  lia.
Qed.

(** The first stage of the parse, on the serial of a date: the date. *)
Lemma xldate_as_datetime_excel_serial x d :
  calendar_date d = true ->
  xlrd.num_int x = excel_serial d ->
  0 <= xlrd.num_frac_ms x < 86400000 ->
  exists dt,
    xlrd.xldate_as_datetime (xlrd.Number x) = inr dt
    /\ datetime.date dt = d
    /\ datetime.valid_date (datetime.year dt) (datetime.month dt)
         (datetime.day dt) = true.
Proof.
  destruct d as [[y m] dd]. intros Hc Hn Hms.
  destruct (calendar_date_valid_date y m dd Hc) as (Hy & Hv & Ho).
  destruct (ord2ymd_ymd2ord y m dd Hv) as (Hback & Hpos & Hle).
  pose proof (days_before_year_le y ltac:(lia)) as Hmax.
  pose proof (day_number_bounds y m dd Hc) as Hday.
  unfold excel_serial in Hn.
  unfold xlrd.xldate_as_datetime, divmod.
  assert (Hdt : exists dt,
             (if xlrd.num_int x <? 60
              then datetime.add xlrd.epoch_1900
              else datetime.add xlrd.epoch_1900_minus_1)
               (xlrd.num_int x * datetime.us_per_day
                + xlrd.num_frac_ms x * 1000) = inr dt
             /\ datetime.date dt = (y, m, dd)).
  { destruct (Z.leb_spec (day_number (y, m, dd)) 59) as [H59 | H59].
    - replace (xlrd.num_int x <? 60) with true
        by (symmetry; apply Z.ltb_lt; lia).
      destruct (add_days_to_midnight 1899 12 31 (xlrd.num_int x)
                  (xlrd.num_frac_ms x) Hms) as (dt & Hadd & Hdate).
      + change (datetime._ymd2ord 1899 12 31) with 693595. lia.
      + exists dt. split; [exact Hadd |].
        rewrite Hdate. change (datetime._ymd2ord 1899 12 31) with 693595.
        rewrite Hn, <- Ho. exact Hback.
    - replace (xlrd.num_int x <? 60) with false
        by (symmetry; apply Z.ltb_ge; lia).
      destruct (add_days_to_midnight 1899 12 30 (xlrd.num_int x)
                  (xlrd.num_frac_ms x) Hms) as (dt & Hadd & Hdate).
      + change (datetime._ymd2ord 1899 12 30) with 693594. lia.
      + exists dt. split; [exact Hadd |].
        rewrite Hdate. change (datetime._ymd2ord 1899 12 30) with 693594.
        replace (693594 + xlrd.num_int x)
          with (datetime._ymd2ord y m dd) by lia.
        exact Hback. }
  destruct Hdt as (dt & Hadd & Hdate).
  exists dt.
  rewrite timedelta_days_ms;
    [| destruct (day_number (y, m, dd) <=? 59); lia | exact Hms].
  assert (Hrun : (let epoch :=
                    if xlrd.num_int x <? 60 then xlrd.epoch_1900
                    else xlrd.epoch_1900_minus_1 in
                  datetime.add epoch
                    (xlrd.num_int x * datetime.us_per_day
                     + xlrd.num_frac_ms x * 1000)) = inr dt).
  { cbv zeta. destruct (xlrd.num_int x <? 60); exact Hadd. }
  split; [exact Hrun | split; [exact Hdate |]].
  unfold datetime.date in Hdate. inversion Hdate; subst. exact Hv.
Qed.

(* ================================================================== *)
(** * The statement of the specification about the two date formats *)
(* ================================================================== *)



(* ================================================================== *)
(** * Further properties of the loader *)
(* ================================================================== *)

Lemma GetByUsername_In (u : string) (pd : PaymentsData.t) :
  In u (map username pd) ->
  exists p, PaymentsData.GetByUsername u pd = Some p /\ username p = u.
Proof.
  unfold PaymentsData.GetByUsername.
  induction pd as [| q pd IH]; simpl; intros Hin; [contradiction |].
  destruct (String.eqb_spec (username q) u) as [E | Hne].
  - exists q. split; [reflexivity | exact E].
  - destruct Hin as [E | Hin]; [contradiction | apply IH; exact Hin].
Qed.

(** A number makes the first stage of the parse raise nothing but
    [OverflowError]. *)
Lemma xldate_as_datetime_Number_raises n e :
  xlrd.xldate_as_datetime (xlrd.Number n) = inl e -> e = OverflowError.
Proof.
  unfold xlrd.xldate_as_datetime, datetime.timedelta, datetime.add, divmod.
  repeat match goal with
         | |- context [if ?b then _ else _] => destruct b
         | |- context [let '(_, _) := ?p in _] => destruct p
         end; intros H; inversion H; reflexivity.
Qed.

(** 2958465 is 31 December 9999, the last day of [datetime]. *)
Lemma xldate_as_datetime_beyond_9999 n :
  2958466 <= xlrd.num_int n -> 0 <= xlrd.num_frac_ms n ->
  xlrd.xldate_as_datetime (xlrd.Number n) = inl OverflowError.
Proof.
  intros Hint Hms.
  destruct (xlrd.xldate_as_datetime (xlrd.Number n)) as [e | r] eqn:E.
  - rewrite (xldate_as_datetime_Number_raises n e E). reflexivity.
  - exfalso. revert E.
    unfold xlrd.xldate_as_datetime, datetime.timedelta, divmod.
    destruct (xlrd.num_int n <? 60) eqn:E60; [apply Z.ltb_lt in E60; lia |].
    match goal with
    | |- context [if ?b then _ else _] => destruct b
    end; [| discriminate].
    unfold datetime.add, divmod.
    match goal with
    | |- context [(0 <? ?d) && (?d <=? datetime._MAXORDINAL)] =>
        set (days := d);
        destruct ((0 <? days) && (days <=? datetime._MAXORDINAL)) eqn:Ed
    end; [| discriminate].
    apply andb_prop in Ed. destruct Ed as [_ Ed]. apply Z.leb_le in Ed.
    exfalso. unfold datetime._MAXORDINAL in Ed.
    assert (Hlow : 3652060 <= days).
    { unfold days. apply Z.div_le_lower_bound; [reflexivity |].
      change (datetime.toordinal xlrd.epoch_1900_minus_1) with 693594.
      unfold datetime.us_per_day. simpl datetime.hour. simpl datetime.minute.
      simpl datetime.second. simpl datetime.microsecond.
      pose proof (Z.div_pos (xlrd.num_frac_ms n) 1000 Hms ltac:(lia)).
      pose proof (Z.mod_pos_bound (xlrd.num_frac_ms n) 1000 ltac:(lia)).
      lia. }
    lia.
Qed.

Section FurtherLoaderFacts.

Variable config : Config.
Variable strptime : string -> string -> option datetime.t.

Local Abbreviation __AddPayment :=
  (PaymentsExcelLoader.__AddPayment config strptime).
Local Abbreviation parses_to := (parses_to config strptime).

(** The date a cell parses to, when it does, is one date. *)
Lemma parses_to_unique c x1 x2 : parses_to c x1 -> parses_to c x2 -> x1 = x2.
Proof.
  intros [H1 | (s1 & -> & H1)] [H2 | (s2 & E2 & H2)].
  - congruence.
  - subst c. discriminate.
  - discriminate.
  - inversion E2; subst s2. congruence.
Qed.

(** Everything a call of [__AddPayment] that returns can have done, with
    what it logged. *)
Lemma AddPayment_inv row_idx pd pde e u c lg pd' pde' lg' :
  __AddPayment row_idx pd pde e u c lg = (inr (pd', pde'), lg') ->
  (exists x,
      parses_to c x
      /\ PaymentsData.IsUsernameExistent u pd = false
      /\ pd' = pd ++ [mkSinglePayment e u x]
      /\ pde' = pde
      /\ lg' = lg ++ [DebugRow (PaymentsData.Count pd') row_idx e u
                        (datetime.date x)])
  \/ (exists x,
         parses_to c x
         /\ PaymentsData.IsUsernameExistent u pd = true
         /\ pd' = pd
         /\ pde' = pde ++ [duplicated_error row_idx u]
         /\ lg' = lg ++ [WarningDuplicated u row_idx])
  \/ ((forall x, ~ parses_to c x)
      /\ pd' = pd
      /\ pde' = pde ++ [invalid_date_error row_idx u c]
      /\ lg' = lg ++ [WarningInvalidDate u row_idx c]).
Proof.
  intros H. unfold PaymentsExcelLoader.__AddPayment in H.
  destruct (xlrd.xldate_as_datetime c) as [err | x] eqn:Ex.
  - destruct c as [s | n].
    + simpl in Ex. inversion Ex; subst err.
      destruct (strptime (strip s) (PAYMENT_DATE_FORMAT config))
        as [x |] eqn:Es.
      * assert (Hp : parses_to (xlrd.Text s) x).
        { right. exists s. split; [reflexivity | exact Es]. }
        destruct (PaymentsData.IsUsernameExistent u pd) eqn:E.
        -- rewrite add_data_existing in H by exact E. inversion H; subst.
           right. left. exists x. repeat split; assumption.
        -- rewrite add_data_new in H by exact E. inversion H; subst.
           left. exists x. repeat split; assumption.
      * inversion H; subst. right. right. split; [| repeat split].
        intros x [Hx | (s' & Hs' & Hx)]; [discriminate |].
        inversion Hs'; subst s'. congruence.
    + destruct err; discriminate.
  - assert (Hp : parses_to c x) by (left; exact Ex).
    destruct (PaymentsData.IsUsernameExistent u pd) eqn:E.
    + rewrite add_data_existing in H by exact E. inversion H; subst.
      right. left. exists x. repeat split; assumption.
    + rewrite add_data_new in H by exact E. inversion H; subst.
      left. exists x. repeat split; assumption.
Qed.

Lemma GetByUsername_snoc_new (u : string) (pd : PaymentsData.t)
    (p : SinglePayment) :
  PaymentsData.IsUsernameExistent u pd = false ->
  username p = u ->
  PaymentsData.GetByUsername u (pd ++ [p]) = Some p.
Proof.
  unfold PaymentsData.IsUsernameExistent, PaymentsData.GetByUsername.
  intros Hnew Hp. induction pd as [| q pd IH]; simpl in *.
  - rewrite Hp, String.eqb_refl. reflexivity.
  - apply orb_false_elim in Hnew. destruct Hnew as [Hq Hrest].
    rewrite Hq. apply IH. exact Hrest.
Qed.

Lemma GetByUsername_snoc_old (v : string) (pd : PaymentsData.t)
    (p q : SinglePayment) :
  PaymentsData.GetByUsername v pd = Some p ->
  PaymentsData.GetByUsername v (pd ++ [q]) = Some p.
Proof.
  unfold PaymentsData.GetByUsername. intros H.
  induction pd as [| r pd IH]; simpl in *; [discriminate |].
  destruct (String.eqb (username r) v); [exact H | apply IH; exact H].
Qed.

End FurtherLoaderFacts.

(** X1.  First occurrence wins in [__AddPayment]: whenever a call
    returns, the usernames of the roster are pairwise distinct after it
    if they were before it, and a record found under a username before
    the call is the record found under it after the call.  A call for a
    username that is in the roster leaves the roster as it is and appends
    one entry: [DUPLICATED_USERNAME_ERR] when the expiration parses,
    [INVALID_DATE_ERR] when it does not, since the date is parsed before
    the username is looked up. *)
Theorem first_occurrence_wins_in_AddPayment :
  forall (config : Config) strptime row_idx pd pde e u c lg pd' pde' lg',
    PaymentsExcelLoader.__AddPayment config strptime row_idx pd pde e u c lg
    = (inr (pd', pde'), lg') ->
    (NoDup (map username pd) -> NoDup (map username pd'))
    /\ (forall v p,
           PaymentsData.GetByUsername v pd = Some p ->
           PaymentsData.GetByUsername v pd' = Some p)
    /\ (PaymentsData.IsUsernameExistent u pd = true ->
        pd' = pd
        /\ ((exists x,
                parses_to config strptime c x
                /\ pde' = pde ++ [duplicated_error row_idx u]
                /\ lg' = lg ++ [WarningDuplicated u row_idx])
            \/ ((forall x, ~ parses_to config strptime c x)
                /\ pde' = pde ++ [invalid_date_error row_idx u c]
                /\ lg' = lg ++ [WarningInvalidDate u row_idx c]))).
Proof.
  intros config strptime row_idx pd pde e u c lg pd' pde' lg' H.
  apply AddPayment_inv in H.
  destruct H as [(x & Hp & Hnew & -> & -> & ->)
                | [(x & Hp & Hold & -> & -> & ->)
                  | (Hno & -> & -> & ->)]].
  - split; [| split].
    + intros Hnd. rewrite map_app. simpl. apply NoDup_snoc; [exact Hnd |].
      apply IsUsernameExistent_not_In. exact Hnew.
    + intros v p Hv. apply GetByUsername_snoc_old. exact Hv.
    + intros Hold. congruence.
  - split; [tauto | split; [tauto |]].
    intros _. split; [reflexivity |]. left. exists x. repeat split. exact Hp.
  - split; [tauto | split; [tauto |]].
    intros _. split; [reflexivity |]. right. repeat split. exact Hno.
Qed.

(** The statement of X1 at a second row for [bob] whose date is not
    valid: the entry is the one of the date. *)
Lemma first_occurrence_wins_in_AddPayment_witness :
  PaymentsExcelLoader.__AddPayment Examples.cfg Examples.strptime 2
    [Examples.bob] [] "bob2@mail" "bob" (xlrd.Text "garbage") []
  = (inr ([Examples.bob],
          [invalid_date_error 2 "bob" (xlrd.Text "garbage")]),
     [WarningInvalidDate "bob" 2 (xlrd.Text "garbage")])
  /\ PaymentsData.GetByUsername "bob" [Examples.bob] = Some Examples.bob
  /\ (forall x,
         ~ parses_to Examples.cfg Examples.strptime (xlrd.Text "garbage") x).
Proof.
  assert (Hrun :
            PaymentsExcelLoader.__AddPayment Examples.cfg Examples.strptime 2
              [Examples.bob] [] "bob2@mail" "bob" (xlrd.Text "garbage") []
            = (inr ([Examples.bob],
                    [invalid_date_error 2 "bob" (xlrd.Text "garbage")]),
               [WarningInvalidDate "bob" 2 (xlrd.Text "garbage")])).
  { vm_compute. reflexivity. }
  destruct (first_occurrence_wins_in_AddPayment Examples.cfg
              Examples.strptime 2 [Examples.bob] [] "bob2@mail"%string
              "bob"%string (xlrd.Text "garbage") [] [Examples.bob]
              [invalid_date_error 2 "bob" (xlrd.Text "garbage")]
              [WarningInvalidDate "bob" 2 (xlrd.Text "garbage")] Hrun)
    as (_ & Hkeep & Hold).
  split; [exact Hrun |]. split; [apply Hkeep; reflexivity |].
  destruct (Hold eq_refl) as (_ & [(x & _ & Hdup & _) | (Hno & _)]).
  - discriminate Hdup.
  - exact Hno.
Defined.

(** X2.  A row whose expiration parses can be looked up after its call
    of [__AddPayment]: when the call returns, the roster has a record
    under the row's username; when the username was not in the roster
    before, the record is the row's own, with its email and the date the
    expiration parses to. *)
Theorem parsed_row_username_in_roster :
  forall (config : Config) strptime row_idx pd pde e u c x lg pd' pde' lg',
    PaymentsExcelLoader.__AddPayment config strptime row_idx pd pde e u c lg
    = (inr (pd', pde'), lg') ->
    parses_to config strptime c x ->
    (exists p,
        PaymentsData.GetByUsername u pd' = Some p /\ username p = u)
    /\ (PaymentsData.IsUsernameExistent u pd = false ->
        PaymentsData.GetByUsername u pd' = Some (mkSinglePayment e u x)).
Proof.
  intros config strptime row_idx pd pde e u c x lg pd' pde' lg' H Hx.
  apply AddPayment_inv in H.
  destruct H as [(x' & Hp & Hnew & -> & -> & ->)
                | [(x' & Hp & Hold & -> & -> & ->)
                  | (Hno & -> & -> & ->)]].
  - rewrite (parses_to_unique config strptime c x x' Hx Hp).
    assert (Hget : PaymentsData.GetByUsername u
                     (pd ++ [mkSinglePayment e u x'])
                   = Some (mkSinglePayment e u x')).
    { apply GetByUsername_snoc_new; [exact Hnew | reflexivity]. }
    split; [| intros _; exact Hget].
    exists (mkSinglePayment e u x'). split; [exact Hget | reflexivity].
  - split; [| congruence].
    apply GetByUsername_In. apply IsUsernameExistent_In. exact Hold.
  - exfalso. exact (Hno x Hx).
Qed.

(** The statement of X2 at a first row for [bob] with the serial 45000. *)
Lemma parsed_row_username_in_roster_witness :
  (exists p,
      PaymentsData.GetByUsername "bob" [Examples.bob] = Some p
      /\ username p = "bob"%string)
  /\ (PaymentsData.IsUsernameExistent "bob" [] = false ->
      PaymentsData.GetByUsername "bob" [Examples.bob]
      = Some (mkSinglePayment "bob@mail" "bob" Examples.date_45000)).
Proof.
  apply (parsed_row_username_in_roster Examples.cfg Examples.strptime 1 []
           [] "bob@mail"%string "bob"%string
           (Examples.num "45000.0" 45000 0) Examples.date_45000 []
           [Examples.bob] []
           [DebugRow 1 1 "bob@mail" "bob" (2023, 3, 15)]).
  - vm_compute. reflexivity.
  - left. vm_compute. reflexivity.
Defined.

(** X3.  A call of [__AddPayment] that returns accounts for its row
    exactly once: it adds one record to the roster and no error entry, or
    one error entry and no record, so that the number of records and of
    entries together grows by one. *)
Theorem every_row_with_username_counted :
  forall (config : Config) strptime row_idx pd pde e u c lg pd' pde' lg',
    PaymentsExcelLoader.__AddPayment config strptime row_idx pd pde e u c lg
    = (inr (pd', pde'), lg') ->
    ((exists p, pd' = pd ++ [p] /\ pde' = pde)
     \/ (exists entry, pd' = pd /\ pde' = pde ++ [entry]))
    /\ (PaymentsData.Count pd' + List.length pde')%nat
       = (PaymentsData.Count pd + List.length pde + 1)%nat.
Proof.
  intros config strptime row_idx pd pde e u c lg pd' pde' lg' H.
  apply AddPayment_inv in H. unfold PaymentsData.Count.
  destruct H as [(x & _ & _ & -> & -> & _)
                | [(x & _ & _ & -> & -> & _) | (_ & -> & -> & _)]].
  - split; [left; eexists; split; reflexivity |].
    rewrite length_app. simpl. lia.
  - split; [right; eexists; split; reflexivity |].
    rewrite length_app. simpl. lia.
  - split; [right; eexists; split; reflexivity |].
    rewrite length_app. simpl. lia.
Qed.

(** The statement of X3 at a second row for [bob]: one entry more. *)
Lemma every_row_with_username_counted_witness :
  ((exists p, [Examples.bob] = [Examples.bob] ++ [p]
              /\ [duplicated_error 2 "bob"] = [])
   \/ (exists entry,
          [Examples.bob] = [Examples.bob]
          /\ [duplicated_error 2 "bob"] = [] ++ [entry]))
  /\ (PaymentsData.Count [Examples.bob]
      + List.length [duplicated_error 2 "bob"])%nat
     = (PaymentsData.Count [Examples.bob]
        + List.length (@nil PaymentError) + 1)%nat.
Proof.
  apply (every_row_with_username_counted Examples.cfg Examples.strptime 2
           [Examples.bob] [] "bob2@mail"%string "bob"%string
           (xlrd.Text "01/02/2024") [] [Examples.bob]
           [duplicated_error 2 "bob"] [WarningDuplicated "bob" 2]).
  vm_compute. reflexivity.
Defined.

(** X4.  An expiration that is a text and does not match the configured
    pattern is recorded once by [__AddPayment]: the call returns, the
    roster is left as it is, one [INVALID_DATE_ERR] entry with the row
    index plus one, the username and the raw cell is appended, and one
    warning is logged. *)
Theorem invalid_date_recorded_by_AddPayment :
  forall (config : Config) strptime row_idx pd pde e u s lg,
    strptime (strip s) (PAYMENT_DATE_FORMAT config) = None ->
    xlrd.xldate_as_datetime (xlrd.Text s) = inl TypeError
    /\ PaymentsExcelLoader.__AddPayment config strptime row_idx pd pde e u
         (xlrd.Text s) lg
       = (inr (pd,
               pde ++ [mkPaymentError INVALID_DATE_ERR (row_idx + 1) u
                         (Some (xlrd.Text s))]),
          lg ++ [WarningInvalidDate u row_idx (xlrd.Text s)]).
Proof.
  intros config strptime row_idx pd pde e u s lg H.
  split; [reflexivity |]. apply AddPayment_invalid. exact H.
Qed.

(** The statement of X4 at a row with the expiration [garbage]. *)
Lemma invalid_date_recorded_by_AddPayment_witness :
  PaymentsExcelLoader.__AddPayment Examples.cfg Examples.strptime 1 [] []
    "carl@mail" "carl" (xlrd.Text "garbage") []
  = (inr ([], [] ++ [mkPaymentError INVALID_DATE_ERR (1 + 1) "carl"
                       (Some (xlrd.Text "garbage"))]),
     [] ++ [WarningInvalidDate "carl" 1 (xlrd.Text "garbage")]).
Proof.
  destruct (invalid_date_recorded_by_AddPayment Examples.cfg
              Examples.strptime 1 [] [] "carl@mail"%string "carl"%string
              "garbage"%string []) as (_ & H).
  - vm_compute. reflexivity.
  - exact H.
Defined.

(** X5.  One warning per error entry, and no other: a call of
    [__AddPayment] that returns logs one record; the record is a warning
    exactly when the call appends an error entry, and it is the warning
    of that entry, naming the row by its index, one less than the row
    number the entry carries. *)
Theorem one_warning_per_error :
  forall (config : Config) strptime row_idx pd pde e u c lg pd' pde' lg',
    PaymentsExcelLoader.__AddPayment config strptime row_idx pd pde e u c lg
    = (inr (pd', pde'), lg') ->
    exists r new,
      lg' = lg ++ [r]
      /\ pde' = pde ++ new
      /\ filter is_warning [r] = map warning_of new
      /\ Forall (fun entry => err_row entry = (row_idx + 1)%nat) new
      /\ filter is_warning lg'
         = filter is_warning lg ++ map warning_of new.
Proof.
  intros config strptime row_idx pd pde e u c lg pd' pde' lg' H.
  apply AddPayment_inv in H.
  destruct H as [(x & _ & _ & -> & -> & ->)
                | [(x & _ & _ & -> & -> & ->) | (_ & -> & -> & ->)]].
  - eexists. exists []. rewrite app_nil_r, filter_app. simpl.
    repeat split. constructor.
  - eexists. exists [duplicated_error row_idx u]. rewrite filter_app.
    unfold warning_of. simpl. rewrite Nat.add_sub.
    repeat split. constructor; [reflexivity | constructor].
  - eexists. exists [invalid_date_error row_idx u c]. rewrite filter_app.
    unfold warning_of. simpl. rewrite Nat.add_sub.
    repeat split. constructor; [reflexivity | constructor].
Qed.

(** The statement of X5 at a row with the expiration [garbage]: the
    warning says row 1, the entry row 2. *)
Lemma one_warning_per_error_witness :
  exists r new,
    [WarningInvalidDate "carl" 1 (xlrd.Text "garbage")] = [] ++ [r]
    /\ [invalid_date_error 1 "carl" (xlrd.Text "garbage")] = [] ++ new
    /\ filter is_warning [r] = map warning_of new
    /\ Forall (fun entry => err_row entry = (1 + 1)%nat) new
    /\ filter is_warning [WarningInvalidDate "carl" 1 (xlrd.Text "garbage")]
       = filter is_warning [] ++ map warning_of new.
Proof.
  apply (one_warning_per_error Examples.cfg Examples.strptime 1 [] []
           "carl@mail"%string "carl"%string (xlrd.Text "garbage") [] []
           [invalid_date_error 1 "carl" (xlrd.Text "garbage")]
           [WarningInvalidDate "carl" 1 (xlrd.Text "garbage")]).
  vm_compute. reflexivity.
Defined.

(** X6.  The first row is never read: two sheets that differ in their
    first row only load alike, whatever that row holds, and a sheet with
    no row or with the header alone loads to an empty roster with no
    error entry, nothing logged and nothing raised. *)
Theorem header_row_never_read :
  forall (config : Config) strptime (header header' : list xlrd.cell)
         (rows : xlrd.Sheet) lg,
    PaymentsExcelLoader.__LoadSheet config strptime (header :: rows) lg
    = PaymentsExcelLoader.__LoadSheet config strptime (header' :: rows) lg
    /\ PaymentsExcelLoader.__LoadSheet config strptime [header] lg
       = (inr (PaymentsData.empty, PaymentsDataErrors.empty), lg)
    /\ PaymentsExcelLoader.__LoadSheet config strptime [] lg
       = (inr (PaymentsData.empty, PaymentsDataErrors.empty), lg).
Proof.
  intros config strptime header header' rows lg.
  rewrite !LoadSheet_run. repeat split.
Qed.

(** X7.  A data row makes the load raise: under every configuration, a
    sheet with a row after the header makes [__LoadSheet] raise
    [TypeError] at the first read of that row, with nothing added and
    nothing logged, because the column handed to [cell_value] is the
    text of the setting; the three capabilities then log the failure and
    raise [TypeError].  Only a sheet with no row after the header
    loads, to the empty roster; and no iteration of the loop other than
    the one of the header ever returns. *)
Theorem data_row_makes_load_raise_TypeError :
  forall (config : Config) open_workbook strptime (wb : xlrd.Book)
         (sheet : xlrd.Sheet) (u : string) lg,
    open_workbook (PAYMENT_EXCEL_FILE config) = inr wb ->
    xlrd.sheet_by_index wb PaymentsExcelLoaderConst.SHEET_IDX = inr sheet ->
    ((2 <= xlrd.nrows sheet)%nat ->
     PaymentsExcelLoader.__LoadSheet config strptime sheet lg
     = (inl TypeError, lg)
     /\ PaymentsExcelLoader.LoadAll config open_workbook strptime lg
        = (inl TypeError,
           lg ++ [InfoLoading (PAYMENT_EXCEL_FILE config);
                  ExceptionLoading (PAYMENT_EXCEL_FILE config)])
     /\ PaymentsExcelLoader.CheckForErrors config open_workbook strptime lg
        = (inl TypeError,
           lg ++ [InfoLoading (PAYMENT_EXCEL_FILE config);
                  ExceptionLoading (PAYMENT_EXCEL_FILE config)])
     /\ PaymentsExcelLoader.LoadSingleByUsername config open_workbook
          strptime u lg
        = (inl TypeError,
           lg ++ [InfoLoading (PAYMENT_EXCEL_FILE config);
                  ExceptionLoading (PAYMENT_EXCEL_FILE config)]))
    /\ ((xlrd.nrows sheet <= 1)%nat ->
        PaymentsExcelLoader.__LoadSheet config strptime sheet lg
        = (inr (PaymentsData.empty, PaymentsDataErrors.empty), lg)
        /\ PaymentsExcelLoader.LoadAll config open_workbook strptime lg
           = (inr PaymentsData.empty,
              lg ++ [InfoLoading (PAYMENT_EXCEL_FILE config);
                     InfoLoaded (PAYMENT_EXCEL_FILE config) 0]))
    /\ (forall i st lg0 st' lg1,
           PaymentsExcelLoader.load_row config strptime sheet i st lg0
           = (inr st', lg1) ->
           i = 0%nat /\ st' = st /\ lg1 = lg0).
Proof.
  intros config open_workbook strptime wb sheet u lg Hopen Hsheet.
  unfold PaymentsExcelLoader.LoadSingleByUsername,
    PaymentsExcelLoader.LoadAll, PaymentsExcelLoader.CheckForErrors, bind.
  rewrite LoadAndCheckAll_unfold. cbv zeta.
  rewrite Hopen, Hsheet, !LoadSheet_run.
  split; [| split; [| apply load_row_returns]]; intros Hn.
  - replace (2 <=? xlrd.nrows sheet)%nat with true
      by (symmetry; apply Nat.leb_le; exact Hn).
    repeat split.
  - replace (2 <=? xlrd.nrows sheet)%nat with false
      by (symmetry; apply Nat.leb_gt; lia).
    repeat split.
Qed.

(** The statement of X7 at the default configuration and a sheet with
    three data rows. *)
Lemma data_row_makes_load_raise_TypeError_witness :
  PaymentsExcelLoader.__LoadSheet Examples.cfg Examples.strptime
    Examples.sheet_dup []
  = (inl TypeError, [])
  /\ PaymentsExcelLoader.LoadAll Examples.cfg Examples.open_workbook
       Examples.strptime []
     = (inl TypeError,
        [InfoLoading "payments.xls"; ExceptionLoading "payments.xls"]).
Proof.
  destruct (data_row_makes_load_raise_TypeError Examples.cfg
              Examples.open_workbook Examples.strptime [Examples.sheet_dup]
              Examples.sheet_dup "bob" [] eq_refl eq_refl) as (Hdata & _).
  destruct Hdata as (Hsheet & Hall & _); [simpl; lia |].
  split; [exact Hsheet | exact Hall].
Defined.

(** X8.  A numeric expiration later than 31 December 9999 (a serial of
    2958466 or more) is not recorded as an invalid date: the first stage
    raises [OverflowError], which the [except TypeError] of
    [__AddPayment] does not catch, so the call raises it, with nothing
    added to the roster or to the error list and nothing logged. *)
Theorem numeric_date_out_of_range_raises :
  forall (config : Config) strptime row_idx pd pde e u (n : xlrd.number) lg,
    2958466 <= xlrd.num_int n ->
    0 <= xlrd.num_frac_ms n ->
    xlrd.xldate_as_datetime (xlrd.Number n) = inl OverflowError
    /\ PaymentsExcelLoader.__AddPayment config strptime row_idx pd pde e u
         (xlrd.Number n) lg
       = (inl OverflowError, lg).
Proof.
  intros config strptime row_idx pd pde e u n lg Hint Hms.
  pose proof (xldate_as_datetime_beyond_9999 n Hint Hms) as H.
  split; [exact H |].
  unfold PaymentsExcelLoader.__AddPayment. rewrite H. reflexivity.
Qed.

(** The statement of X8 at the serial 2958466, 1 January 10000. *)
Lemma numeric_date_out_of_range_raises_witness :
  PaymentsExcelLoader.__AddPayment Examples.cfg Examples.strptime 1 [] []
    "eve@mail" "eve" MoreExamples.serial_overflow []
  = (inl OverflowError, []).
Proof.
  destruct (numeric_date_out_of_range_raises Examples.cfg Examples.strptime
              1 [] [] "eve@mail"%string "eve"%string
              (xlrd.mk_number "2958466.0" 2958466 0) [])
    as (_ & H); [simpl; lia | simpl; lia |].
  exact H.
Defined.

(* ================================================================== *)
(** * Further properties of the member classes *)
(* ================================================================== *)

Lemma filter_split_length {A} (p q r : A -> bool) (l : list A) :
  (forall x, r x = p x || q x) ->
  (forall x, p x && q x = false) ->
  (List.length (filter p l) + List.length (filter q l))%nat
  = List.length (filter r l).
Proof.
  intros Hr Hpq. induction l as [| x l IH]; simpl; [reflexivity |].
  rewrite (Hr x). specialize (Hpq x).
  destruct (p x), (q x); simpl in *; try discriminate; lia.
Qed.

(** X9.  The two getters split the valid members that have a user: a
    member is returned by [GetAllWithUsername] or by
    [GetAllWithNoUsername] exactly when it is in the snapshot, passes the
    validity check and has a user; none is returned by both; and the two
    lists together are as long as the list of such members. *)
Theorem username_getters_split_valid_members :
  forall get_chat_members IsValidMember (chat : Chat),
    (forall member,
        In member (MembersUsernameGetter.GetAllWithUsername get_chat_members
                     IsValidMember chat)
        \/ In member (MembersUsernameGetter.GetAllWithNoUsername
                        get_chat_members IsValidMember chat)
        <-> In member (get_chat_members chat)
            /\ IsValidMember member = true
            /\ has_user member = true)
    /\ (forall member,
           ~ (In member (MembersUsernameGetter.GetAllWithUsername
                           get_chat_members IsValidMember chat)
              /\ In member (MembersUsernameGetter.GetAllWithNoUsername
                              get_chat_members IsValidMember chat)))
    /\ (List.length (MembersUsernameGetter.GetAllWithUsername
                       get_chat_members IsValidMember chat)
        + List.length (MembersUsernameGetter.GetAllWithNoUsername
                         get_chat_members IsValidMember chat))%nat
       = List.length
           (filter (fun member => IsValidMember member && has_user member)
              (get_chat_members chat)).
Proof.
  intros members valid chat.
  unfold MembersUsernameGetter.GetAllWithUsername,
    MembersUsernameGetter.GetAllWithNoUsername,
    MembersUsernameGetter.FilterMembers, has_user.
  split; [| split].
  - intros m. rewrite !filter_In. destruct (valid m);
      destruct (member_user m) as [u |]; simpl;
      try destruct (user_username u); simpl; tauto.
  - intros m [H1 H2]. apply filter_In in H1, H2.
    destruct H1 as [_ H1], H2 as [_ H2].
    destruct (valid m); destruct (member_user m) as [u |];
      simpl in *; try discriminate.
    destruct (user_username u); discriminate.
  - apply filter_split_length; intros m;
      destruct (valid m); destruct (member_user m) as [u |];
      simpl; try reflexivity; destruct (user_username u); reflexivity.
Qed.

Lemma username_getters_split_valid_members_witness :
  In Examples.ann_member
    (MembersUsernameGetter.GetAllWithUsername Examples.get_chat_members
       IsValidMember_spec 1)
  \/ In Examples.ann_member
       (MembersUsernameGetter.GetAllWithNoUsername Examples.get_chat_members
          IsValidMember_spec 1).
Proof.
  destruct (username_getters_split_valid_members Examples.get_chat_members
              IsValidMember_spec 1) as (Hsplit & _).
  apply (proj2 (Hsplit Examples.ann_member)).
  split; [right; left; reflexivity | split; reflexivity].
Defined.

(** X10.  [KickAllWithNoUsername] removes no one else than the valid
    members without a username of the snapshot of its chat: a removal
    call it adds to the trace, whether the call returns or raises, is
    issued with test mode off, for that chat, and for the user of a
    member of the snapshot that passes the validity check and has no
    username, a member of the list of [GetAllWithNoUsername], which is
    the list the entry point returns when it returns. *)
Theorem bulk_no_username_removes_only_valid_nameless :
  forall (config : Config) get_chat_members IsValidMember KickUser_outcome
         (chat : Chat) (tr : list Event) (chat' : Chat)
         (user : option User),
    In (KickUser chat' user)
      (snd (MembersKicker.KickAllWithNoUsername config get_chat_members
              IsValidMember KickUser_outcome chat tr)) ->
    In (KickUser chat' user) tr
    \/ (APP_TEST_MODE config = false
        /\ chat' = chat
        /\ exists member u,
             In member (get_chat_members chat)
             /\ In member
                  (MembersUsernameGetter.GetAllWithNoUsername
                     get_chat_members IsValidMember chat)
             /\ (forall l,
                    fst (MembersKicker.KickAllWithNoUsername config
                           get_chat_members IsValidMember KickUser_outcome
                           chat tr) = inr l ->
                    In member l)
             /\ IsValidMember member = true
             /\ member_user member = Some u
             /\ user = Some u
             /\ user_username u = None).
Proof.
  intros config members valid outcome chat tr chat' user H.
  assert (Hret : forall l,
             fst (MembersKicker.KickAllWithNoUsername config members valid
                    outcome chat tr) = inr l ->
             l = MembersUsernameGetter.GetAllWithNoUsername members valid
                   chat).
  { intros l. apply kbind_kret_returns. }
  unfold MembersKicker.KickAllWithNoUsername in H.
  rewrite kbind_kret_run in H.
  assert (H' : In (KickUser chat' user) tr
               \/ In (KickUser chat' user)
                    (snd (MembersKicker.__KickMultiple config outcome chat
                            (MembersUsernameGetter.GetAllWithNoUsername
                               members valid chat) tr))).
  { destruct (Any (MembersUsernameGetter.GetAllWithNoUsername members valid
                     chat)).
    - right.
      destruct (MembersKicker.__KickMultiple config outcome chat
                  (MembersUsernameGetter.GetAllWithNoUsername members valid
                     chat) tr) as [[e | []] tr']; exact H.
    - left. exact H. }
  destruct H' as [H' | H']; [left; exact H' |].
  apply KickMultiple_kicks in H'.
  destruct H' as [H' | (Hoff & -> & m & Hm & ->)]; [left; exact H' |].
  right. split; [exact Hoff | split; [reflexivity |]].
  pose proof Hm as Hm'.
  unfold MembersUsernameGetter.GetAllWithNoUsername,
    MembersUsernameGetter.FilterMembers in Hm'.
  apply filter_In in Hm'. destruct Hm' as [Hin Hp].
  apply andb_prop in Hp. destruct Hp as [Hv Hu].
  destruct (member_user m) as [u |] eqn:Eu; [| discriminate].
  exists m, u. destruct (user_username u) eqn:En; [discriminate |].
  repeat split; try assumption.
  intros l Hl. rewrite (Hret l Hl). exact Hm.
Qed.

(** The statement of X10 at the removal call for the one human without
    a username. *)
Lemma bulk_no_username_removes_only_valid_nameless_witness :
  In (KickUser 1 (Some Examples.ann)) []
  \/ (APP_TEST_MODE Examples.cfg = false
      /\ 1 = 1
      /\ exists member u,
           In member (Examples.get_chat_members 1)
           /\ In member
                (MembersUsernameGetter.GetAllWithNoUsername
                   Examples.get_chat_members IsValidMember_spec 1)
           /\ (forall l,
                  fst (MembersKicker.KickAllWithNoUsername Examples.cfg
                         Examples.get_chat_members IsValidMember_spec
                         Examples.client_ok 1 []) = inr l ->
                  In member l)
           /\ IsValidMember_spec member = true
           /\ member_user member = Some u
           /\ Some Examples.ann = Some u
           /\ user_username u = None).
Proof.
  apply (bulk_no_username_removes_only_valid_nameless Examples.cfg
           Examples.get_chat_members IsValidMember_spec Examples.client_ok
           1 [] 1 (Some Examples.ann)).
  simpl. left. reflexivity.
Defined.

(** X11.  When no member qualifies, the two bulk entry points return the
    empty list and do nothing at all, in either mode and whatever the
    client does: no removal, no pause, no message.  In test mode, when
    some member qualifies, they return the list and log one message for
    the whole batch, whatever its size. *)
Theorem bulk_entry_points_one_message_or_nothing :
  forall (config : Config) get_chat_members IsValidMember
         GetAllMembersWithExpiredPayment KickUser_outcome (chat : Chat)
         (tr : list Event),
    (GetAllMembersWithExpiredPayment chat = [] ->
     MembersKicker.KickAllWithExpiredPayment config
       GetAllMembersWithExpiredPayment KickUser_outcome chat tr
     = (inr [], tr))
    /\ (MembersUsernameGetter.GetAllWithNoUsername get_chat_members
          IsValidMember chat = [] ->
        MembersKicker.KickAllWithNoUsername config get_chat_members
          IsValidMember KickUser_outcome chat tr
        = (inr [], tr))
    /\ (APP_TEST_MODE config = true ->
        GetAllMembersWithExpiredPayment chat <> [] ->
        MembersKicker.KickAllWithExpiredPayment config
          GetAllMembersWithExpiredPayment KickUser_outcome chat tr
        = (inr (GetAllMembersWithExpiredPayment chat), tr ++ [InfoTestMode]))
    /\ (APP_TEST_MODE config = true ->
        MembersUsernameGetter.GetAllWithNoUsername get_chat_members
          IsValidMember chat <> [] ->
        MembersKicker.KickAllWithNoUsername config get_chat_members
          IsValidMember KickUser_outcome chat tr
        = (inr (MembersUsernameGetter.GetAllWithNoUsername get_chat_members
                  IsValidMember chat),
           tr ++ [InfoTestMode])).
Proof.
  intros config members valid getall outcome chat tr.
  repeat split.
  - intros H. unfold MembersKicker.KickAllWithExpiredPayment.
    rewrite H. reflexivity.
  - intros H. unfold MembersKicker.KickAllWithNoUsername.
    rewrite H. reflexivity.
  - intros Hon Hne. rewrite KickAllWithExpiredPayment_test_mode by exact Hon.
    destruct (getall chat); [congruence | reflexivity].
  - intros Hon Hne. rewrite KickAllWithNoUsername_test_mode by exact Hon.
    destruct (MembersUsernameGetter.GetAllWithNoUsername members valid chat);
      [congruence | reflexivity].
Qed.

(** The statement of X11 with a client whose calls would all raise: no
    call is made. *)
Lemma bulk_entry_points_one_message_or_nothing_witness :
  MembersKicker.KickAllWithExpiredPayment Examples.cfg (fun _ => [])
    Examples.client_down 1 []
  = (inr [], [])
  /\ MembersKicker.KickAllWithNoUsername Examples.cfg_test
       Examples.get_chat_members IsValidMember_spec Examples.client_down 1 []
     = (inr [Examples.ann_member], [] ++ [InfoTestMode]).
Proof.
  split.
  - destruct (bulk_entry_points_one_message_or_nothing Examples.cfg
                Examples.get_chat_members IsValidMember_spec (fun _ => [])
                Examples.client_down 1 []) as (H & _).
    apply H. reflexivity.
  - destruct (bulk_entry_points_one_message_or_nothing Examples.cfg_test
                Examples.get_chat_members IsValidMember_spec (fun _ => [])
                Examples.client_down 1 []) as (_ & _ & _ & H).
    apply H; [reflexivity | discriminate].
Defined.
(* ================================================================== *)
(** * Properties of the configuration helpers *)
(* ================================================================== *)

Lemma list_index_log_levels lvl :
  list_index [10; 20; 30; 40; 50] lvl
  = if 10 =? lvl then Some 0%nat
    else if 20 =? lvl then Some 1%nat
    else if 30 =? lvl then Some 2%nat
    else if 40 =? lvl then Some 3%nat
    else if 50 =? lvl then Some 4%nat
    else None.
Proof.
  cbn [list_index].
  destruct (10 =? lvl); [reflexivity |].
  destruct (20 =? lvl); [reflexivity |].
  destruct (30 =? lvl); [reflexivity |].
  destruct (40 =? lvl); [reflexivity |].
  destruct (50 =? lvl); reflexivity.
Qed.

(** [LogLevelToStr], level by level. *)
Lemma LogLevelToStr_cases lvl :
  _ConfigDataTypeConverter.LogLevelToStr lvl
  = if 10 =? lvl then Some "DEBUG"%string
    else if 20 =? lvl then Some "INFO"%string
    else if 30 =? lvl then Some "WARNING"%string
    else if 40 =? lvl then Some "ERROR"%string
    else if 50 =? lvl then Some "CRITICAL"%string
    else None.
Proof.
  unfold _ConfigDataTypeConverter.LogLevelToStr.
  change (map snd _ConfigDataTypeConverter.STR_TO_LOG_LEVEL)
    with [10; 20; 30; 40; 50].
  rewrite list_index_log_levels.
  destruct (10 =? lvl); [reflexivity |].
  destruct (20 =? lvl); [reflexivity |].
  destruct (30 =? lvl); [reflexivity |].
  destruct (40 =? lvl); [reflexivity |].
  destruct (50 =? lvl); reflexivity.
Qed.

(** The dict of [StrToLogLevel], name by name. *)
Lemma dict_get_log_level_cases s :
  dict_get _ConfigDataTypeConverter.STR_TO_LOG_LEVEL s
  = if String.eqb "DEBUG" s then Some 10
    else if String.eqb "INFO" s then Some 20
    else if String.eqb "WARNING" s then Some 30
    else if String.eqb "ERROR" s then Some 40
    else if String.eqb "CRITICAL" s then Some 50
    else None.
Proof. reflexivity. Qed.

(** X12.  The two log-level converters are inverse to each other on the
    five level names: [LogLevelToStr] never raises on a level that
    [StrToLogLevel] gave and gives the name back, or [INFO] for a name
    that is not one of the five; a name it returns converts to the level
    it was given; and it raises exactly on the levels other than 10, 20,
    30, 40 and 50. *)
Theorem log_level_names_round_trip :
  (forall s,
      _ConfigDataTypeConverter.LogLevelToStr
        (_ConfigDataTypeConverter.StrToLogLevel s)
      = Some (match dict_get _ConfigDataTypeConverter.STR_TO_LOG_LEVEL s with
              | Some _ => s
              | None => "INFO"%string
              end))
  /\ (forall lvl s,
         _ConfigDataTypeConverter.LogLevelToStr lvl = Some s ->
         _ConfigDataTypeConverter.StrToLogLevel s = lvl)
  /\ (forall lvl,
         _ConfigDataTypeConverter.LogLevelToStr lvl = None
         <-> ~ In lvl [10; 20; 30; 40; 50]).
Proof.
  split; [| split].
  - intros s. unfold _ConfigDataTypeConverter.StrToLogLevel.
    rewrite dict_get_log_level_cases.
    destruct (String.eqb_spec "DEBUG" s) as [<- | _]; [reflexivity |].
    destruct (String.eqb_spec "INFO" s) as [<- | _]; [reflexivity |].
    destruct (String.eqb_spec "WARNING" s) as [<- | _]; [reflexivity |].
    destruct (String.eqb_spec "ERROR" s) as [<- | _]; [reflexivity |].
    destruct (String.eqb_spec "CRITICAL" s) as [<- | _]; reflexivity.
  - intros lvl s. rewrite LogLevelToStr_cases.
    destruct (Z.eqb_spec 10 lvl) as [<- | _];
      [intros H; inversion H; reflexivity |].
    destruct (Z.eqb_spec 20 lvl) as [<- | _];
      [intros H; inversion H; reflexivity |].
    destruct (Z.eqb_spec 30 lvl) as [<- | _];
      [intros H; inversion H; reflexivity |].
    destruct (Z.eqb_spec 40 lvl) as [<- | _];
      [intros H; inversion H; reflexivity |].
    destruct (Z.eqb_spec 50 lvl) as [<- | _];
      [intros H; inversion H; reflexivity | discriminate].
  - intros lvl. rewrite LogLevelToStr_cases. simpl In.
    destruct (Z.eqb_spec 10 lvl) as [E | N1];
      [split; [discriminate | intros H; exfalso; apply H; auto] |].
    destruct (Z.eqb_spec 20 lvl) as [E | N2];
      [split; [discriminate | intros H; exfalso; apply H; auto] |].
    destruct (Z.eqb_spec 30 lvl) as [E | N3];
      [split; [discriminate | intros H; exfalso; apply H; auto] |].
    destruct (Z.eqb_spec 40 lvl) as [E | N4];
      [split; [discriminate | intros H; exfalso; apply H; auto 6] |].
    destruct (Z.eqb_spec 50 lvl) as [E | N5];
      [split; [discriminate | intros H; exfalso; apply H; auto 6] |].
    split; [| reflexivity].
    intros _ [E | [E | [E | [E | [E | []]]]]]; congruence.
Qed.

Lemma log_level_names_round_trip_witness :
  _ConfigDataTypeConverter.StrToLogLevel "WARNING" = 30.
Proof.
  destruct log_level_names_round_trip as (_ & Hback & _).
  apply (Hback 30 "WARNING"%string). reflexivity.
Defined.

Lemma single_char_ltb (a b : ascii) :
  String.ltb (String a EmptyString) (String b EmptyString)
  = (N_of_ascii a <? N_of_ascii b)%N.
Proof.
  unfold String.ltb, N.ltb. simpl. unfold Ascii.compare.
  destruct (N_of_ascii a ?= N_of_ascii b)%N; reflexivity.
Qed.

(** The first test of [AreColumnIndexesValid] passes exactly on one
    letter from [A] to [Z]. *)
Lemma column_letter_check (s : string) :
  negb (String.length s =? 1)%nat
  || String.ltb s _ConfigDataUtils.COL_MIN_VAL
  || String.ltb _ConfigDataUtils.COL_MAX_VAL s = false
  <-> is_column_letter s.
Proof.
  unfold _ConfigDataUtils.COL_MIN_VAL, _ConfigDataUtils.COL_MAX_VAL,
    is_column_letter.
  split.
  - intros H. apply orb_false_elim in H. destruct H as [H Hmax].
    apply orb_false_elim in H. destruct H as [Hlen Hmin].
    apply negb_false_iff, Nat.eqb_eq in Hlen.
    destruct s as [| a [| b s]]; simpl in Hlen; try discriminate.
    exists a. split; [reflexivity |].
    rewrite single_char_ltb in Hmin, Hmax.
    apply N.ltb_ge in Hmin, Hmax.
    change (N_of_ascii "A") with 65%N in Hmin.
    change (N_of_ascii "Z") with 90%N in Hmax. lia.
  - intros (a & -> & Ha).
    rewrite !single_char_ltb.
    change (N_of_ascii "A") with 65%N. change (N_of_ascii "Z") with 90%N.
    replace (N_of_ascii a <? 65)%N with false
      by (symmetry; apply N.ltb_ge; lia).
    replace (90 <? N_of_ascii a)%N with false
      by (symmetry; apply N.ltb_ge; lia).
    reflexivity.
Qed.

(** X13.  [AreColumnIndexesValid] accepts a column exactly when it is
    one letter from [A] to [Z], at most two of the three column settings
    are set so far, and the letter and the settings set so far are
    pairwise distinct.  So it refuses every letter once all three are
    set, and a letter it accepts as the third leaves three distinct
    columns. *)
Theorem column_check_accepts_fresh_letters :
  forall (ConfigT : Type) IsValueSet GetValue (config : ConfigT)
         (curr_col : string),
    _ConfigDataUtils.AreColumnIndexesValid ConfigT IsValueSet GetValue
      config curr_col = true
    <-> is_column_letter curr_col
        /\ (List.length
              (_ConfigDataUtils.col_idxs ConfigT IsValueSet GetValue config)
            <= 2)%nat
        /\ NoDup (curr_col
                  :: _ConfigDataUtils.col_idxs ConfigT IsValueSet GetValue
                       config).
Proof.
  intros ConfigT IsValueSet GetValue config curr_col.
  unfold _ConfigDataUtils.AreColumnIndexesValid.
  destruct (negb (String.length curr_col =? 1)%nat
            || String.ltb curr_col _ConfigDataUtils.COL_MIN_VAL
            || String.ltb _ConfigDataUtils.COL_MAX_VAL curr_col) eqn:E.
  - split; [discriminate |]. intros (Hl & _).
    apply column_letter_check in Hl. congruence.
  - apply column_letter_check in E.
    destruct (_ConfigDataUtils.col_idxs ConfigT IsValueSet GetValue config)
      as [| c0 [| c1 [| c2 l]]].
    + split; [| reflexivity]. intros _.
      split; [exact E |]. split; [simpl; lia |].
      constructor; [intros [] | constructor].
    + destruct (String.eqb_spec curr_col c0) as [-> | Hne]; simpl.
      * split; [discriminate |]. intros (_ & _ & Hnd).
        inversion Hnd as [| ? ? Hin _]; subst. exfalso. apply Hin.
        left. reflexivity.
      * split; [| reflexivity]. intros _.
        split; [exact E |]. split; [lia |].
        constructor; [intros [H | []]; congruence |].
        constructor; [intros [] | constructor].
    + destruct (String.eqb_spec curr_col c0) as [-> | Hn0]; simpl.
      { split; [discriminate |]. intros (_ & _ & Hnd).
        inversion Hnd as [| ? ? Hin _]; subst. exfalso. apply Hin.
        left. reflexivity. }
      destruct (String.eqb_spec curr_col c1) as [-> | Hn1]; simpl.
      { split; [discriminate |]. intros (_ & _ & Hnd).
        inversion Hnd as [| ? ? Hin _]; subst. exfalso. apply Hin.
        right. left. reflexivity. }
      destruct (String.eqb_spec c0 c1) as [-> | Hn01]; simpl.
      { split; [discriminate |]. intros (_ & _ & Hnd).
        inversion Hnd as [| ? ? _ Hnd']; subst.
        inversion Hnd' as [| ? ? Hin _]; subst. exfalso. apply Hin.
        left. reflexivity. }
      split; [| reflexivity]. intros _.
      split; [exact E |]. split; [lia |].
      constructor; [intros [H | [H | []]]; congruence |].
      constructor; [intros [H | []]; congruence |].
      constructor; [intros [] | constructor].
    + split; [discriminate |]. intros (_ & Hlen & _). simpl in Hlen. lia.
Qed.

Lemma column_check_accepts_fresh_letters_witness :
  is_column_letter "C"
  /\ (List.length
        (_ConfigDataUtils.col_idxs MoreExamples.columns
           MoreExamples.IsValueSet MoreExamples.GetValue
           MoreExamples.columns_A_B)
      <= 2)%nat
  /\ NoDup ("C"%string
            :: _ConfigDataUtils.col_idxs MoreExamples.columns
                 MoreExamples.IsValueSet MoreExamples.GetValue
                 MoreExamples.columns_A_B).
Proof.
  apply (proj1 (column_check_accepts_fresh_letters MoreExamples.columns
                  MoreExamples.IsValueSet MoreExamples.GetValue
                  MoreExamples.columns_A_B "C")).
  reflexivity.
Defined.

(** X14.  Nothing is kept between calls: each capability reads the file
    again.  When [LoadAll] returns a roster and [CheckForErrors] is
    called next, it returns the error list of the same parse pass, and
    the log holds the records of two complete loads, each from the
    record of its start to the record of its end with the number of
    records of the roster. *)
Theorem each_capability_reloads_the_file :
  forall (config : Config) open_workbook strptime lg pd lg1,
    PaymentsExcelLoader.LoadAll config open_workbook strptime lg
    = (inr pd, lg1) ->
    exists pde rows,
      one_parse_pass config open_workbook strptime = inr (pd, pde)
      /\ lg1
         = lg ++ InfoLoading (PAYMENT_EXCEL_FILE config)
              :: rows
              ++ [InfoLoaded (PAYMENT_EXCEL_FILE config)
                    (PaymentsData.Count pd)]
      /\ PaymentsExcelLoader.CheckForErrors config open_workbook strptime lg1
         = (inr pde,
            lg1 ++ InfoLoading (PAYMENT_EXCEL_FILE config)
                :: rows
                ++ [InfoLoaded (PAYMENT_EXCEL_FILE config)
                      (PaymentsData.Count pd)]).
Proof.
  intros config open_workbook strptime lg pd lg1.
  unfold PaymentsExcelLoader.LoadAll, PaymentsExcelLoader.CheckForErrors,
    bind, one_parse_pass.
  rewrite !LoadAndCheckAll_unfold. simpl.
  destruct (open_workbook (PAYMENT_EXCEL_FILE config)) as [e | wb];
    [discriminate |].
  destruct (xlrd.sheet_by_index wb PaymentsExcelLoaderConst.SHEET_IDX)
    as [e | sheet]; [discriminate |].
  destruct (PaymentsExcelLoader.__LoadSheet config strptime sheet [])
    as [[e | [pd0 pde0]] rows]; [discriminate |].
  simpl. intros H. inversion H; subst.
  exists pde0, rows. repeat split.
Qed.

(** The statement of X14 at a file that holds the header alone. *)
Lemma each_capability_reloads_the_file_witness :
  exists pde rows,
    one_parse_pass (Examples.cfg_file "new.xls" false)
      Examples.open_workbook Examples.strptime
    = inr ([], pde)
    /\ [InfoLoading "new.xls"; InfoLoaded "new.xls" 0]
       = [] ++ InfoLoading
                 (PAYMENT_EXCEL_FILE (Examples.cfg_file "new.xls" false))
            :: rows
            ++ [InfoLoaded
                  (PAYMENT_EXCEL_FILE (Examples.cfg_file "new.xls" false))
                  (PaymentsData.Count [])]
    /\ PaymentsExcelLoader.CheckForErrors
         (Examples.cfg_file "new.xls" false) Examples.open_workbook
         Examples.strptime [InfoLoading "new.xls"; InfoLoaded "new.xls" 0]
       = (inr pde,
          [InfoLoading "new.xls"; InfoLoaded "new.xls" 0]
          ++ InfoLoading
               (PAYMENT_EXCEL_FILE (Examples.cfg_file "new.xls" false))
          :: rows
          ++ [InfoLoaded
                (PAYMENT_EXCEL_FILE (Examples.cfg_file "new.xls" false))
                (PaymentsData.Count [])]).
Proof.
  apply (each_capability_reloads_the_file
           (Examples.cfg_file "new.xls" false) Examples.open_workbook
           Examples.strptime [] []
           [InfoLoading "new.xls"; InfoLoaded "new.xls" 0]).
  vm_compute. reflexivity.
Defined.
